(** * LULC analytics: the derivation pipeline of [App.js]

    A shallow embedding of the scoring functions of the dashboard
    component (trend extraction, ecological risk, projection, velocity,
    transition evolution and CPRI, survey allocation, governance alerts,
    priority ranking) and the proofs of their stated properties.

    Conventions of the embedding.
    - A JavaScript Number is the rational it denotes ([Q]).  NaN and the
      infinities are outside the model: the functions are applied to
      finite, well-typed numeric fields, and to areas from which
      [Math.log10] is defined.  Each arithmetic operation returns the
      rounding [rnd] of the exact result; [rnd] is kept abstract
      ([Number64]) with the properties of binary64 round-to-nearest that
      the proofs use.  Array lengths and years are integers far below
      2^53, on which binary64 is exact: they are computed in [nat] and [Z].
    - [x.toFixed(f)] returns a decimal string (below 10^21); it is kept as
      the sign, the integer [n] and the digit count [f] that determine the
      string.
    - [Array.prototype.sort] is specified as a stable sort; it is embedded
      as the stable insertion sort [js_sort], and its result is shown to be
      the only list that meets the specification.
    - A year is an integer ([Z]); the default [sort()] compares the decimal
      renderings of the years as strings.  A table whose year column holds
      these renderings as strings behaves alike, but for [targetYear].
    - A label that carries an emoji is a constructor of an enumeration;
      the [icon] fields, which hold emoji alone, are left out. *)

From Stdlib Require Import String Ascii DecimalString OrdersEx.
From Stdlib Require Import List ZArith QArith Qround Qabs.
From Stdlib Require Import Lia Lqa Sorted Permutation Bool.
Import ListNotations.

Open Scope Q_scope.

(** ** Numbers *)

(** Binary64 arithmetic as far as the engine depends on it.  [rnd] maps an
    exact result to the Number that the operation returns: it depends on
    the value alone, is monotone, leaves a Number as it is, and 0 and 1
    are Numbers; the difference of two distinct Numbers does not round to
    0 (gradual underflow).  [log10] is [Math.log10], which ECMAScript
    leaves implementation-approximated; it is not negative from 1 on. *)
Class Number64 : Type := {
  rnd : Q -> Q;
  rnd_compat : forall x y, x == y -> rnd x = rnd y;
  rnd_mono : forall x y, x <= y -> rnd x <= rnd y;
  rnd_idem : forall x, rnd (rnd x) = rnd x;
  rnd_0 : rnd 0 = 0;
  rnd_1 : rnd 1 = 1;
  rnd_diff : forall x y, rnd (rnd x - rnd y) == 0 -> rnd x == rnd y;
  log10 : Q -> Q;
  log10_nonneg : forall x, 1 <= x -> 0 <= log10 x
}.

(** Comparison operators of the language on finite numbers. *)
Definition js_le (x y : Q) : bool := Qle_bool x y.
Definition js_lt (x y : Q) : bool := negb (Qle_bool y x).
Definition js_ge (x y : Q) : bool := js_le y x.
Definition js_gt (x y : Q) : bool := js_lt y x.

(** The string returned by [toFixed]: an optional minus sign, then the
    decimal expansion of [fx_mag / 10^fx_digits]. *)
Record Fixed : Type := mkFixed {
  fx_neg : bool;
  fx_mag : Z;
  fx_digits : nat
}.

Definition pow10 (f : nat) : Q := inject_Z (10 ^ Z.of_nat f).

(** [Number.prototype.toFixed]: a negative [x] is negated and prefixed with
    the sign; [n] is the integer nearest to [x * 10^f], the larger one on a
    tie. *)
Definition toFixed (f : nat) (x : Q) : Fixed :=
  let neg := js_lt x 0 in
  let a := if neg then - x else x in
  mkFixed neg (Qfloor (a * pow10 f + (1 # 2))) f.

(** The rational that a [toFixed] string denotes. *)
Definition fixed_value (s : Fixed) : Q :=
  (if fx_neg s then - inject_Z (fx_mag s) else inject_Z (fx_mag s))
  / pow10 (fx_digits s).

(** A value held by a field that is a Number on one path and a [toFixed]
    string on another. *)
Inductive JsValue : Type :=
| JNum (q : Q)
| JStr (s : Fixed).

(** ** Arrays *)

Section Arrays.
Context {A : Type}.

(** [Array.prototype.sort(cmp)]: [cmp a b <= 0] keeps [a] before [b].
    Insertion from the right end keeps equal elements in their order. *)
Fixpoint insert (cmp : A -> A -> Q) (x : A) (l : list A) : list A :=
  match l with
  | [] => [x]
  | y :: l' => if js_le (cmp x y) 0 then x :: l else y :: insert cmp x l'
  end.

Definition js_sort (cmp : A -> A -> Q) (l : list A) : list A :=
  fold_right (insert cmp) [] l.

(** Relative index of [slice]: a negative index counts from the end. *)
Definition rel_index (len : nat) (k : Z) : nat :=
  if (k <? 0)%Z then Z.to_nat (Z.max (Z.of_nat len + k) 0)
  else Nat.min (Z.to_nat k) len.

(** [arr.slice(start, end)]; [end] absent means the length. *)
Definition js_slice (start : Z) (fin : option Z) (l : list A) : list A :=
  let len := length l in
  let k := rel_index len start in
  let e := match fin with Some z => rel_index len z | None => len end in
  firstn (e - k) (skipn k l).

(** The elements of [new Set(l)] in insertion order. *)
Fixpoint set_from (eqb : A -> A -> bool) (seen l : list A) : list A :=
  match l with
  | [] => []
  | x :: l' =>
      if existsb (eqb x) seen then set_from eqb seen l'
      else x :: set_from eqb (x :: seen) l'
  end.

Definition js_set (eqb : A -> A -> bool) (l : list A) : list A :=
  set_from eqb [] l.
End Arrays.

(** The specification of a stable sort, as a relation between the array
    before and after: the result is ordered by the comparator and every
    family of elements that compare equal keeps its order. *)
Definition cmp_le {A : Type} (cmp : A -> A -> Q) (a b : A) : Prop :=
  cmp a b <= 0.

Definition tied {A : Type} (cmp : A -> A -> Q) (a b : A) : bool :=
  js_le (cmp a b) 0 && js_le (cmp b a) 0.

Definition stable_sort_of {A : Type} (cmp : A -> A -> Q)
  (l l' : list A) : Prop :=
  StronglySorted (cmp_le cmp) l' /\
  forall a, filter (tied cmp a) l' = filter (tied cmp a) l.

(** A comparator is consistent when it is a total preorder. *)
Definition consistent {A : Type} (cmp : A -> A -> Q) : Prop :=
  (forall a b, cmp a b <= 0 \/ cmp b a <= 0) /\
  (forall a b c, cmp a b <= 0 -> cmp b c <= 0 -> cmp a c <= 0).

(** The comparison of two strings by code units, as a comparator result. *)
Definition string_cmp (s t : string) : Q :=
  match String_as_OT.compare s t with
  | Lt => -1
  | Eq => 0
  | Gt => 1
  end.

(** [ToString] of an integer Number. *)
Definition ToString (n : Z) : string := NilZero.string_of_int (Z.to_int n).

(** [arr.sort()] without a comparator orders by the string renderings. *)
Definition default_cmp (a b : Z) : Q := string_cmp (ToString a) (ToString b).

(** ** The engine *)

Section Engine.
Context {N64 : Number64}.

(** The arithmetic operators: the exact result, rounded.  A division by
    zero is outside the model; every divisor below is a difference of two
    entries of [years], a length or a Number that a guard has compared
    with 0, or a non-zero constant. *)
Definition fadd (x y : Q) : Q := rnd (x + y).
Definition fsub (x y : Q) : Q := rnd (x - y).
Definition fmul (x y : Q) : Q := rnd (x * y).
Definition fdiv (x y : Q) : Q := rnd (x / y).

(** The Number read from a decimal literal or from a numeric field
    ([parseFloat], [Number] or the implicit coercion of an operator). *)
Definition num (x : Q) : Q := rnd x.

(** The Number that a [toFixed] string converts to. *)
Definition ToNumber (s : Fixed) : Q := rnd (fixed_value s).

(** [arr[i]] on an array of Numbers.  Every read below is in range when
    the [years] array passed along is as long as the trend, which it is
    at every call. *)
Definition at_ (l : list Q) (i : nat) : Q := nth i l 0.

(** *** Time series: [years] and the per-class trends *)

Record TimeSeriesPoint : Type := mkPoint {
  ts_year : Z;
  ts_lulc_class : string;
  ts_area_sq_km : Q;
  ts_confidence : Q
}.

(** [[...new Set(timeData.map(d => d.year))].sort()] *)
Definition years (timeData : list TimeSeriesPoint) : list Z :=
  js_sort default_cmp (js_set Z.eqb (map ts_year timeData)).

(** [years.map(y => { const record = timeData.find(...); return record ?
    parseFloat(record.area_sq_km) : 0; })], for the class [cls]. *)
Definition classTrend (cls : string) (timeData : list TimeSeriesPoint)
  : list Q :=
  map (fun y =>
         match find (fun d => (ts_year d =? y)%Z
                              && String.eqb (ts_lulc_class d) cls) timeData
         with
         | Some record => num (ts_area_sq_km record)
         | None => 0
         end)
      (years timeData).

Definition builtUpTrend := classTrend "Built-up".
Definition forestTrend := classTrend "Forest".
Definition waterTrend := classTrend "Water".

(** *** Ecological trajectory *)

Inductive EcoTrend : Type :=
| EcoStable | RapidDegradation | Declining | Recovering.

Record EcoRisk : Type := mkEcoRisk {
  lossArea : Fixed;
  eco_trend : EcoTrend;
  eco_color : string;
  forestLossPct : Fixed;
  waterLossPct : Fixed
}.

(** [baseline > 0 ? (loss / baseline) * 100 : 0] *)
Definition lossPct (baseline loss : Q) : Q :=
  if js_gt baseline 0 then fmul (fdiv loss baseline) 100 else 0.

Definition eco_classify (totalEcoLoss : Q) : EcoTrend * string :=
  if js_gt totalEcoLoss 20 then (RapidDegradation, "#EF4444"%string)
  else if js_gt totalEcoLoss 5 then (Declining, "#F59E0B"%string)
  else if js_lt totalEcoLoss (-1) then (Recovering, "#3B82F6"%string)
  else (EcoStable, "#10B981"%string).

Definition totalEcoLoss (timeData : list TimeSeriesPoint) : Q :=
  let forest := forestTrend timeData in
  let water := waterTrend timeData in
  let forestLoss := fsub (at_ forest 0) (at_ forest (length forest - 1)) in
  let waterLoss := fsub (at_ water 0) (at_ water (length water - 1)) in
  fadd forestLoss waterLoss.

Definition getEcoRiskAssessment (timeData : list TimeSeriesPoint)
  : option EcoRisk :=
  if (length (years timeData) <? 2)%nat then None
  else
    let forest := forestTrend timeData in
    let water := waterTrend timeData in
    let baselineForest := at_ forest 0 in
    let currentForest := at_ forest (length forest - 1) in
    let forestLoss := fsub baselineForest currentForest in
    let baselineWater := at_ water 0 in
    let currentWater := at_ water (length water - 1) in
    let waterLoss := fsub baselineWater currentWater in
    let total := fadd forestLoss waterLoss in
    Some {| lossArea := toFixed 1 total;
            eco_trend := fst (eco_classify total);
            eco_color := snd (eco_classify total);
            forestLossPct := toFixed 1 (lossPct baselineForest forestLoss);
            waterLossPct := toFixed 1 (lossPct baselineWater waterLoss) |}.

(** *** Future projection *)

Inductive RiskLevel : Type := RiskLow | RiskHigh | RiskCritical.

Record FutureProjection : Type := mkProjection {
  targetYear : Z;
  projectedArea : Fixed;
  increase : Fixed;
  riskLevel : RiskLevel;
  fp_color : string;
  reduction : option Fixed;
  savedArea : option Fixed
}.

Definition risk_classify (projectedIncrease : Q) : RiskLevel * string :=
  if js_gt projectedIncrease 10 then (RiskCritical, "#EF4444"%string)
  else if js_gt projectedIncrease 5 then (RiskHigh, "#F59E0B"%string)
  else (RiskLow, "#10B981"%string).

Definition yearsToProject : Z := 2.

Definition getFutureProjection (policyIntensity : Q)
  (timeData : list TimeSeriesPoint) : option FutureProjection :=
  let ys := years timeData in
  let built := builtUpTrend timeData in
  if (length ys <? 3)%nat then None
  else
    let lastIdx := (length ys - 1)%nat in
    let startIdx :=
      if (3 <=? length ys)%nat then (length ys - 3)%nat else 0%nat in
    let timeSpan := inject_Z (nth lastIdx ys 0 - nth startIdx ys 0)%Z in
    let urbanChange := fsub (at_ built lastIdx) (at_ built startIdx) in
    let annualRate := fdiv urbanChange timeSpan in
    let reduction := fmul (fdiv policyIntensity 100) (num (6 # 10)) in
    let annualRate := fmul annualRate (fsub 1 reduction) in
    let projectedUrban :=
      fadd (at_ built lastIdx) (fmul annualRate (inject_Z yearsToProject)) in
    let projectedIncrease := fsub projectedUrban (at_ built lastIdx) in
    Some {| targetYear := (nth lastIdx ys 0 + yearsToProject)%Z;
            projectedArea := toFixed 1 projectedUrban;
            increase := toFixed 1 projectedIncrease;
            riskLevel := fst (risk_classify projectedIncrease);
            fp_color := snd (risk_classify projectedIncrease);
            reduction :=
              if js_gt reduction 0
              then Some (toFixed 0 (fmul reduction 100)) else None;
            savedArea :=
              if js_gt reduction 0
              then Some (toFixed 1
                     (fsub (fmul (fdiv urbanChange timeSpan)
                                 (inject_Z yearsToProject))
                           projectedIncrease))
              else None |}.

(** *** Velocity and acceleration *)

Inductive VelocityStatus : Type :=
| VelStable | RapidAcceleration | Accelerating
| RapidDeceleration | Decelerating.

Record VelocityMetrics : Type := mkVelocity {
  velocity : JsValue;
  acceleration : JsValue;
  vm_status : VelocityStatus;
  vm_color : string
}.

Definition velocity_classify (acc : Q) : VelocityStatus * string :=
  if js_gt acc (1 # 2) then (RapidAcceleration, "#EF4444"%string)
  else if js_gt acc 0 then (Accelerating, "#F59E0B"%string)
  else if js_lt acc (- (1 # 2)) then (RapidDeceleration, "#10B981"%string)
  else if js_lt acc 0 then (Decelerating, "#3B82F6"%string)
  else (VelStable, "#6B7280"%string).

Definition getVelocityMetrics (trendValues : list Q) (yrs : list Z)
  : VelocityMetrics :=
  if (length trendValues <? 3)%nat
  then {| velocity := JNum 0; acceleration := JNum 0;
          vm_status := VelStable; vm_color := "#6B7280" |}
  else
    let n := length trendValues in
    let currentArea := at_ trendValues (n - 1) in
    let prevArea := at_ trendValues (n - 2) in
    let prev2Area := at_ trendValues (n - 3) in
    let currentYear := nth (n - 1) yrs 0%Z in
    let prevYear := nth (n - 2) yrs 0%Z in
    let prev2Year := nth (n - 3) yrs 0%Z in
    let vCurrent :=
      fdiv (fsub currentArea prevArea)
           (inject_Z (currentYear - prevYear)) in
    let vPrev :=
      fdiv (fsub prevArea prev2Area) (inject_Z (prevYear - prev2Year)) in
    let acc := fsub vCurrent vPrev in
    {| velocity := JStr (toFixed 1 vCurrent);
       acceleration := JStr (toFixed 2 acc);
       vm_status := fst (velocity_classify acc);
       vm_color := snd (velocity_classify acc) |}.

(** *** Transition evolution and CPRI *)

(** A row of [temporalTransitionData]. *)
Record Flow : Type := mkFlow {
  fl_year : Z;
  fl_from : string;
  fl_to : string;
  fl_area : Q;
  fl_confidence : Q
}.

(** The rightwards arrow U+2192 of the group key, UTF-8 encoded. *)
Definition arrow : string :=
  String (ascii_of_nat 226)
    (String (ascii_of_nat 134) (String (ascii_of_nat 146) EmptyString)).

(** The template literal that joins [d.from] and [d.to] around the
    arrow. *)
Definition transitionKey (d : Flow) : string :=
  (fl_from d ++ " " ++ arrow ++ " " ++ fl_to d)%string.

(** [if(!groups[key]) groups[key] = []; groups[key].push(d);] on an
    object whose keys are enumerated in insertion order. *)
Fixpoint group_push (key : string) (d : Flow)
  (groups : list (string * list Flow)) : list (string * list Flow) :=
  match groups with
  | [] => [(key, [d])]
  | (k, v) :: rest =>
      if String.eqb k key then (k, v ++ [d]) :: rest
      else (k, v) :: group_push key d rest
  end.

Definition groupByKey (data : list Flow) : list (string * list Flow) :=
  fold_left (fun groups d => group_push (transitionKey d) d groups) data [].

Inductive Trend : Type :=
| TrendStable | TrendAccelerating | TrendDecelerating.
Inductive Anomaly : Type := Normal | Elevated | Surge.
Inductive Readiness : Type :=
| FieldValidation | PolicyReview | ReadyForAction.

Record Evolution : Type := mkEvolution {
  transition : string;
  history : list Flow;
  totalVolume : Fixed;
  latestFlow : Q;
  trend : Trend;
  trendColor : string;
  deviationRatio : Fixed;
  anomaly : Anomaly;
  anomalyColor : string;
  isConfStable : bool;
  confRange : Fixed;
  cpri : Fixed;
  readiness : Readiness;
  readinessColor : string
}.

(** [Math.max(...l)] and [Math.min(...l)] on a non-empty array. *)
Definition Math_max (l : list Q) : Q :=
  match l with
  | [] => 0
  | x :: r => fold_left (fun m y => if js_lt m y then y else m) r x
  end.

Definition Math_min (l : list Q) : Q :=
  match l with
  | [] => 0
  | x :: r => fold_left (fun m y => if js_lt y m then y else m) r x
  end.

(** [Math.min(a, b)] *)
Definition Math_min2 (a b : Q) : Q := if js_le a b then a else b.

(** Read only when a group is empty, which never happens. *)
Definition blankFlow : Flow := mkFlow 0 "" "" 0 0.

Definition by_year (a b : Flow) : Q := inject_Z (fl_year a - fl_year b).

Definition sumArea (l : list Flow) : Q :=
  fold_left (fun sum d => fadd sum (num (fl_area d))) l 0.

Definition anomaly_classify (deviationRatio : Q) : Anomaly * string :=
  if js_gt deviationRatio 2 then (Surge, "#EF4444"%string)
  else if js_gt deviationRatio (num (13 # 10))
       then (Elevated, "#F59E0B"%string)
       else (Normal, "#64748B"%string).

Definition trend_classify (sorted : list Flow) : Trend * string :=
  if (1 <? length sorted)%nat then
    let lastFlow := num (fl_area (nth (length sorted - 1) sorted blankFlow)) in
    let prevFlow := num (fl_area (nth (length sorted - 2) sorted blankFlow)) in
    if js_gt lastFlow (fmul prevFlow (num (115 # 100)))
    then (TrendAccelerating, "#EF4444"%string)
    else if js_lt lastFlow (fmul prevFlow (num (85 # 100)))
         then (TrendDecelerating, "#10B981"%string)
         else (TrendStable, "#64748B"%string)
  else (TrendStable, "#64748B"%string).

Definition readiness_classify (cpri : Fixed) : Readiness * string :=
  if js_ge (ToNumber cpri) (num (75 # 100))
  then (ReadyForAction, "#10B981"%string)
  else if js_ge (ToNumber cpri) (num (45 # 100))
       then (PolicyReview, "#F59E0B"%string)
       else (FieldValidation, "#EF4444"%string).

(** [normalizedImpact * trustFactor * confFactor] before [toFixed(2)]. *)
Definition cpriRaw (latest : Flow) (isConfStable : bool) : Q :=
  let logVolume := log10 (fadd (num (fl_area latest)) 1) in
  let normalizedImpact := Math_min2 (fdiv logVolume 2) 1 in
  let trustFactor := if isConfStable then 1 else num (8 # 10) in
  let confFactor := num (fl_confidence latest) in
  fmul (fmul normalizedImpact trustFactor) confFactor.

(** The body of the [map] over [Object.keys(groups)]. *)
Definition analyzeGroup (key : string) (recs : list Flow) : Evolution :=
  let sorted := js_sort by_year recs in
  let latest := last sorted blankFlow in
  let cumulativeVolume := sumArea sorted in
  let baselineRecs :=
    js_slice 0 (Some (Z.of_nat (length sorted) - 1)%Z) sorted in
  let baselineAvg :=
    if (0 <? length baselineRecs)%nat
    then fdiv (sumArea baselineRecs)
              (inject_Z (Z.of_nat (length baselineRecs)))
    else num (fl_area latest) in
  let deviationRatio :=
    if js_gt baselineAvg 0 then fdiv (num (fl_area latest)) baselineAvg
    else 1 in
  let confs := map (fun d => num (fl_confidence d)) sorted in
  let confRange := fsub (Math_max confs) (Math_min confs) in
  let isConfStable := js_lt confRange (num (1 # 10)) in
  let cpri := toFixed 2 (cpriRaw latest isConfStable) in
  {| transition := key;
     history := sorted;
     totalVolume := toFixed 1 cumulativeVolume;
     latestFlow := num (fl_area latest);
     trend := fst (trend_classify sorted);
     trendColor := snd (trend_classify sorted);
     deviationRatio := toFixed 1 deviationRatio;
     anomaly := fst (anomaly_classify deviationRatio);
     anomalyColor := snd (anomaly_classify deviationRatio);
     isConfStable := isConfStable;
     confRange := toFixed 2 confRange;
     cpri := cpri;
     readiness := fst (readiness_classify cpri);
     readinessColor := snd (readiness_classify cpri) |}.

(** [(a,b) => b.cpri - a.cpri] *)
Definition by_cpri_desc (a b : Evolution) : Q :=
  fsub (ToNumber (cpri b)) (ToNumber (cpri a)).

(** The evolutions before the final ranking, in key order. *)
Definition evolutions (data : list Flow) : list Evolution :=
  map (fun g => analyzeGroup (fst g) (snd g)) (groupByKey data).

Definition analyzeTransitionEvolution (data : list Flow) : list Evolution :=
  js_sort by_cpri_desc (evolutions data).

(** *** Survey budget optimizer *)

Record SurveyTask : Type := mkTask {
  st_from : string;
  st_to : string;
  st_confidence : Q;
  st_area_sq_km : Q;
  st_id : string
}.

Record SurveyAllocation : Type := mkAllocation {
  selected : list SurveyTask;
  deferredCount : nat;
  totalCost : Z;
  maxPossible : Z
}.

Definition surveyCostPerSite : Z := 1200.

(** [(a,b) => parseFloat(b.latestFlow) - parseFloat(a.latestFlow)] *)
Definition by_flow_desc (a b : Evolution) : Q :=
  fsub (num (latestFlow b)) (num (latestFlow a)).

(** One element of [selectedSites.map(...)]; reading a field of
    [s.history[s.history.length-1]] throws when the history is empty. *)
Definition surveyTask (s : Evolution) : option SurveyTask :=
  match rev (history s) with
  | [] => None
  | latest :: _ =>
      Some {| st_from := fl_from latest;
              st_to := fl_to latest;
              st_confidence := num (fl_confidence latest);
              st_area_sq_km := latestFlow s;
              st_id := transition s |}
  end.

Fixpoint mapM {A B : Type} (f : A -> option B) (l : list A)
  : option (list B) :=
  match l with
  | [] => Some []
  | x :: l' =>
      match f x, mapM f l' with
      | Some y, Some ys => Some (y :: ys)
      | _, _ => None
      end
  end.

Definition candidates (transitionTrends : list Evolution)
  : list Evolution :=
  filter (fun d => js_lt (ToNumber (cpri d)) (num (45 # 100)))
         transitionTrends.

(** [Math.floor(budget / surveyCostPerSite)] *)
Definition maxSites (budget : Q) : Z :=
  Qfloor (fdiv budget (inject_Z surveyCostPerSite)).

(** [None] is an uncaught [TypeError]. *)
Definition getBudgetOptimizedSurveys (transitionTrends : list Evolution)
  (budget : Q) : option SurveyAllocation :=
  let rankedCandidates := js_sort by_flow_desc (candidates transitionTrends) in
  let selectedSites := js_slice 0 (Some (maxSites budget)) rankedCandidates in
  let deferredSites := js_slice (maxSites budget) None rankedCandidates in
  match mapM surveyTask selectedSites with
  | Some tasks =>
      Some {| selected := tasks;
              deferredCount := length deferredSites;
              totalCost :=
                (Z.of_nat (length selectedSites) * surveyCostPerSite)%Z;
              maxPossible := maxSites budget |}
  | None => None
  end.

(** The only writer of the [budget] state besides its initial value
    5000: [setBudget(Math.max(0, parseInt(e.target.value) || 0))], with
    the outcome of [parseInt] given ([None] stands for NaN). *)
Definition setBudget (parsed : option Z) : Q :=
  inject_Z (Z.max 0 (match parsed with Some n => n | None => 0 end)).

(** *** Filtered records, governance alerts, priority ranking *)

(** A row of the transition table [data]. *)
Record TransitionRecord : Type := mkRecord {
  tr_year : Z;
  tr_from : string;
  tr_to : string;
  tr_area_sq_km : Q;
  tr_confidence : Q
}.

(** The values that the [activePersona], [activeScenario] and [rankMode]
    states are ever set to. *)
Inductive Persona : Type :=
| urban_planner | environmental_officer | policy_maker.
Inductive Scenario : Type := scenario_all | scenario_urban | scenario_eco.
Inductive RankMode : Type := rank_impact | rank_area | rank_confidence.

Definition is_officer (p : Persona) : bool :=
  match p with environmental_officer => true | _ => false end.
Definition is_planner (p : Persona) : bool :=
  match p with urban_planner => true | _ => false end.

Definition filteredData (minConfidence : Q) (activeScenario : Scenario)
  (data : list TransitionRecord) : list TransitionRecord :=
  filter (fun d =>
    if js_lt (num (tr_confidence d)) minConfidence then false
    else match activeScenario with
         | scenario_urban => String.eqb (tr_to d) "Built-up"
         | scenario_eco =>
             (String.eqb (tr_from d) "Forest"
              || String.eqb (tr_from d) "Water Body")
             && (String.eqb (tr_to d) "Built-up"
                 || String.eqb (tr_to d) "Barren")
         | scenario_all => true
         end) data.

Inductive Severity : Type := high | medium | low.

(** The [desc] template of an alert with the values spliced into it. *)
Inductive AlertDesc : Type :=
| EcoUrgent (zones : nat)
| EcoDetected (zones : nat)
| SprawlMisaligned (area : Fixed)
| SprawlConverted (area : Fixed)
| DataGap (regions : nat)
| GrowthSpike (bdi : Fixed)
| GrowthFaster (pct : Fixed).

Record Alert : Type := mkAlert {
  al_type : Severity;
  al_title : string;
  al_desc : AlertDesc;
  al_items : list TransitionRecord
}.

(** The predicate of Rule 1. *)
Definition ecoRisk (d : TransitionRecord) : bool :=
  (String.eqb (tr_from d) "Forest" || String.eqb (tr_from d) "Water Body")
  && (String.eqb (tr_to d) "Built-up" || String.eqb (tr_to d) "Barren")
  && js_gt (num (tr_confidence d)) (num (8 # 10)).

Definition rule1 (activePersona : Persona) (data : list TransitionRecord)
  : list Alert :=
  let ecoRiskItems := filter ecoRisk data in
  if (0 <? length ecoRiskItems)%nat then
    [ {| al_type := high;
         al_title := if is_officer activePersona
                     then "Critical Ecosystem Loss" else "Ecological Risk";
         al_desc := if is_officer activePersona
                    then EcoUrgent (length ecoRiskItems)
                    else EcoDetected (length ecoRiskItems);
         al_items := ecoRiskItems |} ]
  else [].

Definition rule2 (activePersona : Persona) (data : list TransitionRecord)
  : list Alert :=
  let urbanSprawl :=
    filter (fun d => String.eqb (tr_from d) "Agriculture"
                     && String.eqb (tr_to d) "Built-up") data in
  let totalSprawlArea :=
    fold_left (fun acc curr => fadd acc (num (tr_area_sq_km curr)))
              urbanSprawl 0 in
  if js_gt totalSprawlArea 5 then
    [ {| al_type := medium;
         al_title := if is_planner activePersona
                     then "Unplanned Sprawl Detected"
                     else "Urban Sprawl Alert";
         al_desc := if is_planner activePersona
                    then SprawlMisaligned (toFixed 1 totalSprawlArea)
                    else SprawlConverted (toFixed 1 totalSprawlArea);
         al_items := urbanSprawl |} ]
  else [].

Definition rule3 (data : list TransitionRecord) : list Alert :=
  let lowConfChanges :=
    filter (fun d => js_lt (num (tr_confidence d)) (num (6 # 10))) data in
  if (2 <? length lowConfChanges)%nat then
    [ {| al_type := low;
         al_title := "Data Gap Identified";
         al_desc := DataGap (length lowConfChanges);
         al_items := lowConfChanges |} ]
  else [].

Definition rule4 (vals : list Q) (yrs : list Z) : list Alert :=
  if (4 <=? length vals)%nat then
    let n := length vals in
    let baselineYears := inject_Z (nth (n - 2) yrs 0 - nth 0 yrs 0)%Z in
    let baselineChange := fsub (at_ vals (n - 2)) (at_ vals 0) in
    let baselineRate := fdiv baselineChange baselineYears in
    let recentYears := inject_Z (nth (n - 1) yrs 0 - nth (n - 2) yrs 0)%Z in
    let recentChange := fsub (at_ vals (n - 1)) (at_ vals (n - 2)) in
    let recentRate := fdiv recentChange recentYears in
    let bdi :=
      if negb (Qeq_bool baselineRate 0) then fdiv recentRate baselineRate
      else 0 in
    if js_gt bdi (3 # 2) then
      [ {| al_type := high;
           al_title := "Abnormal Growth Spike";
           al_desc := GrowthSpike (toFixed 1 bdi);
           al_items := [] |} ]
    else if js_gt bdi (num (12 # 10)) then
      [ {| al_type := medium;
           al_title := "Growth Acceleration";
           al_desc := GrowthFaster (toFixed 0 (fsub (fmul bdi 100) 100));
           al_items := [] |} ]
    else []
  else [].

(** [generateGovernanceAlerts(data, { builtUp, years })]: each rule
    pushes at most one alert, in this order. *)
Definition generateGovernanceAlerts (activePersona : Persona)
  (data : list TransitionRecord) (builtUp : list Q) (yrs : list Z)
  : list Alert :=
  rule1 activePersona data ++ rule2 activePersona data
  ++ rule3 data ++ rule4 builtUp yrs.

(** The ecological-risk alert is the one that carries a Rule 1 title. *)
Definition is_eco_alert (a : Alert) : bool :=
  String.eqb (al_title a) "Critical Ecosystem Loss"
  || String.eqb (al_title a) "Ecological Risk".

Definition getPolicyWeight (activePersona : Persona) (from to : string)
  : Q :=
  match activePersona with
  | environmental_officer =>
      if String.eqb from "Forest" || String.eqb from "Water Body"
      then 3 else 1
  | urban_planner => if String.eqb to "Built-up" then 2 else 1
  | policy_maker =>
      if String.eqb from "Forest" && String.eqb to "Built-up" then 3 # 2
      else if String.eqb from "Water Body" then 2
      else if String.eqb from "Agriculture" && String.eqb to "Built-up"
           then num (12 # 10)
           else 1
  end.

(** [{ ...d, impactScore: score, weight }] *)
Record Prioritized : Type := mkPrioritized {
  pr_record : TransitionRecord;
  impactScore : Fixed;
  pr_weight : Q
}.

(** [(d.area_sq_km * d.confidence * weight).toFixed(1)] *)
Definition score (area_sq_km confidence weight : Q) : Fixed :=
  toFixed 1 (fmul (fmul (num area_sq_km) (num confidence)) weight).

Definition prioritize (activePersona : Persona) (d : TransitionRecord)
  : Prioritized :=
  let weight := getPolicyWeight activePersona (tr_from d) (tr_to d) in
  {| pr_record := d;
     impactScore := score (tr_area_sq_km d) (tr_confidence d) weight;
     pr_weight := weight |}.

Definition by_impact_desc (a b : Prioritized) : Q :=
  fsub (ToNumber (impactScore b)) (ToNumber (impactScore a)).
Definition by_area_desc (a b : Prioritized) : Q :=
  fsub (num (tr_area_sq_km (pr_record b)))
       (num (tr_area_sq_km (pr_record a))).
Definition by_confidence_desc (a b : Prioritized) : Q :=
  fsub (num (tr_confidence (pr_record b)))
       (num (tr_confidence (pr_record a))).

Definition prioritizedData (activePersona : Persona) (minConfidence : Q)
  (activeScenario : Scenario) (data : list TransitionRecord)
  : list Prioritized :=
  js_sort by_impact_desc
    (map (prioritize activePersona)
         (filteredData minConfidence activeScenario data)).

Definition getRankedData (rankMode : RankMode)
  (prioritized : list Prioritized) : list Prioritized :=
  match rankMode with
  | rank_impact => prioritized
  | rank_area => js_sort by_area_desc prioritized
  | rank_confidence => js_sort by_confidence_desc prioritized
  end.

(** *** The table the dashboard ships with *)

Definition temporalTransitionData : list Flow :=
  [ mkFlow 2018 "Forest" "Built-up" (21 # 10) (92 # 100);
    mkFlow 2020 "Forest" "Built-up" (54 # 10) (88 # 100);
    mkFlow 2022 "Forest" "Built-up" (82 # 10) (85 # 100);
    mkFlow 2024 "Forest" "Built-up" (142 # 10) (82 # 100);
    mkFlow 2018 "Agriculture" "Built-up" 15 (85 # 100);
    mkFlow 2020 "Agriculture" "Built-up" (195 # 10) (84 # 100);
    mkFlow 2022 "Agriculture" "Built-up" (201 # 10) (86 # 100);
    mkFlow 2024 "Agriculture" "Built-up" (216 # 10) (85 # 100);
    mkFlow 2020 "Water" "Barren" (5 # 10) (60 # 100);
    mkFlow 2024 "Water" "Barren" (13 # 10) (75 # 100) ].

Definition transitionTrends : list Evolution :=
  analyzeTransitionEvolution temporalTransitionData.

(** *** Reference definitions of the stated properties *)

(** The unmitigated baseline of the projection, after the specification:
    the annual rate of the Built-up change over the last three years,
    carried [yearsToProject] years forward from the latest area, with the
    risk band of the increase, no reduction and no saved area. *)
Definition baselineProjection (timeData : list TimeSeriesPoint)
  : FutureProjection :=
  let ys := years timeData in
  let built := builtUpTrend timeData in
  let lastIdx := (length ys - 1)%nat in
  let startIdx := (length ys - 3)%nat in
  let rate :=
    fdiv (fsub (at_ built lastIdx) (at_ built startIdx))
         (inject_Z (nth lastIdx ys 0 - nth startIdx ys 0)%Z) in
  let projected :=
    fadd (at_ built lastIdx) (fmul rate (inject_Z yearsToProject)) in
  let gain := fsub projected (at_ built lastIdx) in
  {| targetYear := (nth lastIdx ys 0 + yearsToProject)%Z;
     projectedArea := toFixed 1 projected;
     increase := toFixed 1 gain;
     riskLevel := fst (risk_classify gain);
     fp_color := snd (risk_classify gain);
     reduction := None;
     savedArea := None |}.

(** The classification of the ecological trend, after the specification. *)
Definition spec_eco_trend (loss : Q) : EcoTrend :=
  if Qlt_le_dec 20 loss then RapidDegradation
  else if Qlt_le_dec 5 loss then Declining
  else if Qlt_le_dec loss (-1) then Recovering
  else EcoStable.

(** One evaluation of the priority ranker by an engine whose [sort] is
    any stable sort: the scored rows are ranked by impact, then by the
    selected mode. *)
Definition ranker_run (activePersona : Persona) (minConfidence : Q)
  (activeScenario : Scenario) (rankMode : RankMode)
  (data : list TransitionRecord) (out : list Prioritized) : Prop :=
  exists prioritized,
    stable_sort_of by_impact_desc
      (map (prioritize activePersona)
           (filteredData minConfidence activeScenario data)) prioritized /\
    match rankMode with
    | rank_impact => out = prioritized
    | rank_area => stable_sort_of by_area_desc prioritized out
    | rank_confidence => stable_sort_of by_confidence_desc prioritized out
    end.

(** The result of [getVelocityMetrics] on fewer than three points. *)
Definition velocitySentinel : VelocityMetrics :=
  {| velocity := JNum 0; acceleration := JNum 0;
     vm_status := VelStable; vm_color := "#6B7280" |}.

(** The Number that a field value converts to. *)
Definition value_of (v : JsValue) : Q :=
  match v with
  | JNum q => q
  | JStr s => ToNumber s
  end.

(** A series of two years with the Forest and Water areas given. *)
Definition twoYears (f0 f1 w0 w1 : Q) : list TimeSeriesPoint :=
  [ mkPoint 2018 "Forest" f0 (9 # 10); mkPoint 2018 "Water" w0 (9 # 10);
    mkPoint 2024 "Forest" f1 (9 # 10); mkPoint 2024 "Water" w1 (9 # 10) ].

(** A Built-up series over three years. *)
Definition threeYears : list TimeSeriesPoint :=
  [ mkPoint 2020 "Built-up" 40 (85 # 100);
    mkPoint 2022 "Built-up" (462 # 10) (86 # 100);
    mkPoint 2024 "Built-up" (525 # 10) (88 # 100) ].

(** A series that counts its years from the start of a survey. *)
Definition relativeYears : list TimeSeriesPoint :=
  [ mkPoint 9 "Built-up" 40 (85 # 100);
    mkPoint 10 "Built-up" 45 (86 # 100) ].

(** A Built-up series over the four survey years. *)
Definition fourYears : list TimeSeriesPoint :=
  [ mkPoint 2018 "Built-up" 30 (85 # 100);
    mkPoint 2020 "Built-up" 40 (85 # 100);
    mkPoint 2022 "Built-up" (462 # 10) (86 # 100);
    mkPoint 2024 "Built-up" (625 # 10) (88 # 100) ].

(** The land-cover classes of the specification, and the label by which
    a transition row names each of them: on transition rows the class
    Water is the label 'Water Body', as in the scenario filter, the
    alert rule, the persona weights and the eco-loss story. *)
Inductive LulcClass : Type :=
| Forest | Water | BuiltUp | Agriculture | Barren.

Definition class_label (c : LulcClass) : string :=
  match c with
  | Forest => "Forest"
  | Water => "Water Body"
  | BuiltUp => "Built-up"
  | Agriculture => "Agriculture"
  | Barren => "Barren"
  end.

(** The label [s] names one of the classes [cs]. *)
Definition in_classes (s : string) (cs : list LulcClass) : bool :=
  existsb (fun c => String.eqb s (class_label c)) cs.

(** The condition of the ecological-risk rule, after the specification:
    origin Forest or Water, destination Built-up or Barren, confidence
    above 0.80. *)
Definition spec_ecoRisk (d : TransitionRecord) : bool :=
  in_classes (tr_from d) [Forest; Water]
  && in_classes (tr_to d) [BuiltUp; Barren]
  && js_gt (num (tr_confidence d)) (num (8 # 10)).

(** Rows of a transition table. *)
Definition sampleRecords : list TransitionRecord :=
  [ mkRecord 2024 "Forest" "Built-up" (142 # 10) (88 # 100);
    mkRecord 2024 "Agriculture" "Built-up" (216 # 10) (84 # 100);
    mkRecord 2024 "Water Body" "Barren" (13 # 10) (9 # 10);
    mkRecord 2024 "Barren" "Built-up" (3 # 10) (55 # 100) ].

(** The alerts of Rules 2, 3 and 4, by their titles. *)
Definition is_sprawl_alert (a : Alert) : bool :=
  String.eqb (al_title a) "Unplanned Sprawl Detected"
  || String.eqb (al_title a) "Urban Sprawl Alert".

Definition is_gap_alert (a : Alert) : bool :=
  String.eqb (al_title a) "Data Gap Identified".

Definition is_growth_alert (a : Alert) : bool :=
  String.eqb (al_title a) "Abnormal Growth Spike"
  || String.eqb (al_title a) "Growth Acceleration".

(** *** Policy impact *)

Inductive PolicyAssessment : Type :=
| Neutral | EffectiveContainment | PolicyFailure | SteadyState.

(** The [desc] template of the evaluation with the value spliced in. *)
Inductive PolicyDesc : Type :=
| GrowthUnchanged
| SlowedBy (rate : Fixed)
| AcceleratedBy (rate : Fixed)
| ConsistentWithBaseline.

Record PolicyEvaluation : Type := mkPolicyEvaluation {
  preRate : Fixed;
  postRate : Fixed;
  pe_assessment : PolicyAssessment;
  pe_color : string;
  pe_desc : PolicyDesc
}.

(** [calcRate(dataArr, startIdx, endIdx)], with [years] of the closure. *)
Definition calcRate (ys : list Z) (dataArr : list Q) (startIdx endIdx : nat)
  : Q :=
  let diff := fsub (at_ dataArr endIdx) (at_ dataArr startIdx) in
  let time := inject_Z (nth endIdx ys 0 - nth startIdx ys 0)%Z in
  if js_gt time 0 then fdiv diff time else 0.

Definition policy_classify (rateChange : Q)
  : PolicyAssessment * string * PolicyDesc :=
  let assessment := Neutral in
  let color := "#6B7280"%string in
  let desc := GrowthUnchanged in
  if js_lt rateChange (-1)
  then (EffectiveContainment, "#10B981"%string,
        SlowedBy (toFixed 1 (Qabs rateChange)))
  else if js_gt rateChange 1
       then (PolicyFailure, "#EF4444"%string,
             AcceleratedBy (toFixed 1 rateChange))
       else (SteadyState, "#3B82F6"%string, ConsistentWithBaseline).

Definition getPolicyEvaluation (timeData : list TimeSeriesPoint)
  : option PolicyEvaluation :=
  let ys := years timeData in
  let built := builtUpTrend timeData in
  if (length ys <? 4)%nat then None
  else
    let preStart := 0%nat in
    let preEnd := 1%nat in
    let postStart := (length ys - 2)%nat in
    let postEnd := (length ys - 1)%nat in
    let preUrbanRate := calcRate ys built preStart preEnd in
    let postUrbanRate := calcRate ys built postStart postEnd in
    let rateChange := fsub postUrbanRate preUrbanRate in
    let '(assessment, color, desc) := policy_classify rateChange in
    Some {| preRate := toFixed 1 preUrbanRate;
            postRate := toFixed 1 postUrbanRate;
            pe_assessment := assessment;
            pe_color := color;
            pe_desc := desc |}.

(** *** Temporal explanations *)

Inductive Cause : Type :=
| UnknownDriver | SmartCityPhase1 | HighwayExpansion | PostCovidMigration.

Inductive SpikeSeverity : Type := SpikeHigh | SpikeMedium.

Record TemporalAnomaly : Type := mkAnomaly {
  ta_year : Z;
  ta_growth : Fixed;
  ta_cause : Cause;
  ta_severity : SpikeSeverity
}.

(** The three [if]s on the year, in their order. *)
Definition cause_of (yr : Z) : Cause :=
  let cause := UnknownDriver in
  let cause := if (yr =? 2022)%Z then SmartCityPhase1 else cause in
  let cause := if (yr =? 2024)%Z then HighwayExpansion else cause in
  let cause := if (yr =? 2020)%Z then PostCovidMigration else cause in
  cause.

(** One turn of the loop: what is pushed at index [i]. *)
Definition anomalyAt (ys : list Z) (built : list Q) (i : nat)
  : list TemporalAnomaly :=
  let yr := nth i ys 0%Z in
  let diff := fsub (at_ built i) (at_ built (i - 1)) in
  if js_gt diff 10 then
    [ {| ta_year := yr;
         ta_growth := toFixed 1 diff;
         ta_cause := cause_of yr;
         ta_severity := if js_gt diff 15 then SpikeHigh else SpikeMedium |} ]
  else [].

(** [for (let i = 1; i < years.length; i++)] *)
Definition getTemporalExplanations (timeData : list TimeSeriesPoint)
  : list TemporalAnomaly :=
  let ys := years timeData in
  let built := builtUpTrend timeData in
  if (length ys <? 3)%nat then []
  else flat_map (anomalyAt ys built) (seq 1 (length ys - 1)).

(** *** Decision status and counts *)

Inductive Decision : Type :=
| SafeToAct | ReviewRequired | FieldValidationNeeded.

Definition getDecisionStatus (confidence : Q) : Decision :=
  if js_ge confidence (num (85 # 100)) then SafeToAct
  else if js_ge confidence (num (75 # 100)) then ReviewRequired
  else FieldValidationNeeded.

Record DecisionCounts : Type := mkCounts {
  dc_safe : nat;
  dc_review : nat;
  dc_field : nat
}.

(** [filteredData.reduce((acc, curr) => ..., { safe: 0, review: 0,
    field: 0 })] *)
Definition decisionCounts (filtered : list TransitionRecord)
  : DecisionCounts :=
  fold_left
    (fun acc curr =>
       match getDecisionStatus (num (tr_confidence curr)) with
       | SafeToAct => mkCounts (S (dc_safe acc)) (dc_review acc) (dc_field acc)
       | ReviewRequired =>
           mkCounts (dc_safe acc) (S (dc_review acc)) (dc_field acc)
       | FieldValidationNeeded =>
           mkCounts (dc_safe acc) (dc_review acc) (S (dc_field acc))
       end)
    filtered (mkCounts 0 0 0).

(** *** Field survey tasks *)

Inductive SurveyReason : Type := LowModelConfidence | HighImpactTransition.
Inductive TaskPriority : Type := PriorityHigh | PriorityMedium.

Record FieldTask : Type := mkFieldTask {
  ft_from : string;
  ft_to : string;
  ft_reason : SurveyReason;
  ft_location : Q;
  ft_priority : TaskPriority
}.

(** The predicate of the [filter]. *)
Definition needsSurvey (d : Prioritized) : bool :=
  (js_lt (num (tr_confidence (pr_record d))) (num (75 # 100))
   && js_gt (num (tr_area_sq_km (pr_record d))) (1 # 2))
  || (js_gt (ToNumber (impactScore d)) 2
      && js_lt (num (tr_confidence (pr_record d))) (num (85 # 100))).

(** The rows behind the tasks: [filter], [sort], [slice(0, 5)]. *)
Definition surveyRows (data : list Prioritized) : list Prioritized :=
  js_slice 0 (Some 5%Z) (js_sort by_area_desc (filter needsSurvey data)).

Definition fieldTask (d : Prioritized) : FieldTask :=
  {| ft_from := tr_from (pr_record d);
     ft_to := tr_to (pr_record d);
     ft_reason :=
       if js_lt (num (tr_confidence (pr_record d))) (num (75 # 100))
       then LowModelConfidence else HighImpactTransition;
     ft_location := tr_area_sq_km (pr_record d);
     ft_priority :=
       if js_gt (ToNumber (impactScore d)) (5 # 2)
       then PriorityHigh else PriorityMedium |}.

Definition generateFieldSurveyTasks (data : list Prioritized)
  : list FieldTask :=
  map fieldTask (surveyRows data).

(** *** Summary metrics of the first dashboard ([src/App.js]) *)

(** [l.reduce((acc, curr) => acc + Number(curr.area_sq_km), 0)] *)
Definition sumAreaSqKm (l : list TransitionRecord) : Q :=
  fold_left (fun acc curr => fadd acc (num (tr_area_sq_km curr))) l 0.

Definition totalAreaChanged (data : list TransitionRecord) : Fixed :=
  toFixed 1 (sumAreaSqKm data).

(** [data.length || 1] *)
Definition lengthOr1 (data : list TransitionRecord) : Q :=
  if (length data =? 0)%nat then 1 else inject_Z (Z.of_nat (length data)).

Definition avgConfidence (data : list TransitionRecord) : Fixed :=
  toFixed 2
    (fdiv (fold_left (fun acc curr => fadd acc (num (tr_confidence curr)))
                     data 0)
          (lengthOr1 data)).

Definition builtUpExpansion (data : list TransitionRecord) : Fixed :=
  toFixed 1
    (sumAreaSqKm (filter (fun d => String.eqb (tr_to d) "Built-up") data)).

Definition agriLoss (data : list TransitionRecord) : Fixed :=
  toFixed 1
    (sumAreaSqKm (filter (fun d => String.eqb (tr_from d) "Agriculture") data)).

(** *** Action recommendations *)

Inductive Urgency : Type :=
| UrgencyMedium | Immediate | UrgencyHigh | Critical.

(** The [action] text with the values spliced into it. *)
Inductive ActionText : Type :=
| InvestigateIssue
| HaltOrder
| FormalizeZoning
| UpdateRegistry
| CommitteeReview (area : Q)
| FieldInspection (fromClass toClass : string).

Inductive Department : Type :=
| General | EnvironmentDept | UrbanPlanning | RevenueDept
| PlanningCommittee | EnforcementWing.

Inductive DecisionRule : Type :=
| AutoRouteRule | CommitteeRule | FieldValidationRule.

(** The three sections of [logic]: the inputs, the CPRI, the rule. *)
Record AuditTrail : Type := mkAudit {
  au_area : Q;
  au_confidence : Q;
  au_stable : bool;
  au_cpri : Q;
  au_rule : DecisionRule
}.

Record RecommendedAction : Type := mkAction {
  ra_id : Q;
  ra_from : string;
  ra_to : string;
  ra_area : Q;
  ra_action : ActionText;
  ra_urgency : Urgency;
  ra_dept : Department;
  ra_color : string;
  ra_readiness : Fixed;
  ra_logic : AuditTrail
}.

(** [a.history[0].to === 'Built-up'] *)
Definition isUrban (e : Evolution) : bool :=
  match history e with
  | h :: _ => String.eqb (fl_to h) "Built-up"
  | [] => false
  end.

(** [a.history[0].from === 'Forest' || a.history[0].from === 'Water Body'] *)
Definition isEco (e : Evolution) : bool :=
  match history e with
  | h :: _ => String.eqb (fl_from h) "Forest"
              || String.eqb (fl_from h) "Water Body"
  | [] => false
  end.

(** A boolean as an operand of [-]. *)
Definition b2q (b : bool) : Q := if b then 1 else 0.

(** [(a,b) => bIsUrban - aIsUrban], and the same for [isEco]. *)
Definition by_flag_desc (flag : Evolution -> bool) (a b : Evolution) : Q :=
  b2q (flag b) - b2q (flag a).

(** The comparators read [history[0]] of both arguments, which throws on
    an empty history; a sort of two or more elements compares each of
    them. *)
Definition comparator_throws (trends : list Evolution) : bool :=
  (2 <=? length trends)%nat
  && existsb (fun e => match history e with [] => true | _ => false end)
             trends.

Definition targetedTrends (activePersona : Persona)
  (trends : list Evolution) : option (list Evolution) :=
  match activePersona with
  | urban_planner =>
      if comparator_throws trends then None
      else Some (js_sort (by_flag_desc isUrban) trends)
  | environmental_officer =>
      if comparator_throws trends then None
      else Some (js_sort (by_flag_desc isEco) trends)
  | policy_maker => Some trends
  end.

(** The body of [topItems.map], with the value that [Math.random()]
    returns for the item. *)
Definition recommend (id : Q) (item : Evolution)
  : option RecommendedAction :=
  match rev (history item) with
  | [] => None
  | latest :: _ =>
      let cpri := ToNumber (cpri item) in
      let area := num (fl_area latest) in
      let fromClass := fl_from latest in
      let toClass := fl_to latest in
      let '(urgency, color, action, dept) :=
        if js_ge cpri (num (75 # 100)) then
          if String.eqb fromClass "Forest"
          then (Immediate, "#10B981"%string, HaltOrder, EnvironmentDept)
          else if String.eqb toClass "Built-up"
               then (Immediate, "#10B981"%string, FormalizeZoning,
                     UrbanPlanning)
               else (Immediate, "#10B981"%string, UpdateRegistry,
                     RevenueDept)
        else if js_ge cpri (num (45 # 100))
             then (UrgencyHigh, "#3B82F6"%string, CommitteeReview area,
                   PlanningCommittee)
             else (Critical, "#EF4444"%string,
                   FieldInspection fromClass toClass, EnforcementWing) in
      Some {| ra_id := id;
              ra_from := fromClass;
              ra_to := toClass;
              ra_area := area;
              ra_action := action;
              ra_urgency := urgency;
              ra_dept := dept;
              ra_color := color;
              ra_readiness := toFixed 0 (fmul cpri 100);
              ra_logic :=
                {| au_area := area;
                   au_confidence := num (fl_confidence latest);
                   au_stable := isConfStable item;
                   au_cpri := cpri;
                   au_rule :=
                     if js_ge cpri (num (75 # 100)) then AutoRouteRule
                     else if js_ge cpri (num (45 # 100)) then CommitteeRule
                          else FieldValidationRule |} |}
  end.

(** [getActionRecommendations()], with the values [random 0], [random 1],
    ... that the successive calls of [Math.random()] return; [None] is an
    uncaught [TypeError]. *)
Definition getActionRecommendations (random : nat -> Q)
  (activePersona : Persona) (trends : list Evolution)
  : option (list RecommendedAction) :=
  if (length trends =? 0)%nat then Some []
  else
    match targetedTrends activePersona trends with
    | None => None
    | Some targeted =>
        let topItems := js_slice 0 (Some 3%Z) targeted in
        mapM (fun p => recommend (random (fst p)) (snd p))
             (combine (seq 0 (length topItems)) topItems)
    end.

(** *** Change narrative *)

(** The title and the body of the narrative, with the spliced values. *)
Inductive NarrativeTitle : Type :=
| InsufficientData
| MajorShift (key : string)
| SurgeAlert (key : string)
| AcceleratingScale (key : string).

Inductive NarrativeBody : Type :=
| NoTrends
| UrbanExpansion (toClass : string) (flow : Q) (accelerating : bool)
| EcologicalWarning (fromClass : string) (flow : Q) (urgent : bool)
| DefaultNarrative (fromClass toClass : string) (tr : Trend) (flow : Q)
    (certain : bool) (score : Fixed).

Record Narrative : Type := mkNarrative {
  nv_title : NarrativeTitle;
  nv_body : NarrativeBody;
  nv_color : option string
}.

(** [t.history[0].to === 'Built-up' || t.history[0].from === 'Built-up'] *)
Definition touchesBuiltUp (t : Evolution) : bool :=
  match history t with
  | h :: _ => String.eqb (fl_to h) "Built-up"
              || String.eqb (fl_from h) "Built-up"
  | [] => false
  end.

Definition noHistory (t : Evolution) : bool :=
  match history t with [] => true | _ => false end.

(** The persona's candidates, with the fallback to all trends; the
    callback of [filter] reads [history[0]] of every trend, which throws
    on an empty history. *)
Definition candidateTrends (activePersona : Persona)
  (trends : list Evolution) : option (list Evolution) :=
  match activePersona with
  | urban_planner =>
      if existsb noHistory trends then None
      else
        let c := filter touchesBuiltUp trends in
        Some (if (length c =? 0)%nat then trends else c)
  | environmental_officer =>
      if existsb noHistory trends then None
      else
        let c := filter isEco trends in
        Some (if (length c =? 0)%nat then trends else c)
  | policy_maker => Some trends
  end.

(** [const top = candidateTrends[0]] *)
Definition narrativeTop (activePersona : Persona) (trends : list Evolution)
  : option Evolution :=
  match candidateTrends activePersona trends with
  | Some (top :: _) => Some top
  | _ => None
  end.

(** [generateChangeNarrative()]; [None] is an uncaught [TypeError].  The
    trend labels are 'Stable', 'Accelerating' and 'Decelerating', of which
    only 'Accelerating' includes 'Accelerating' or 'Rapid'; of the anomaly
    labels only the surge one includes 'Surge'. *)
Definition generateChangeNarrative (activePersona : Persona)
  (trends : list Evolution) : option Narrative :=
  if (length trends =? 0)%nat
  then Some {| nv_title := InsufficientData; nv_body := NoTrends;
               nv_color := None |}
  else
    match narrativeTop activePersona trends with
    | None => None
    | Some top =>
        match history top with
        | [] => None
        | h :: _ =>
            let isAccelerating :=
              match trend top with TrendAccelerating => true | _ => false end in
            let isSurge :=
              match anomaly top with Surge => true | _ => false end in
            let '(title, color) :=
              if isSurge
              then (SurgeAlert (transition top), "#EF4444"%string)
              else if isAccelerating
                   then (AcceleratingScale (transition top),
                         "#F59E0B"%string)
                   else (MajorShift (transition top), trendColor top) in
            let body :=
              match activePersona with
              | urban_planner =>
                  UrbanExpansion (fl_to h) (latestFlow top) isAccelerating
              | environmental_officer =>
                  EcologicalWarning (fl_from h) (latestFlow top)
                    (js_gt (ToNumber (cpri top)) (num (75 # 100)))
              | policy_maker =>
                  DefaultNarrative (fl_from h) (fl_to h) (trend top)
                    (latestFlow top)
                    (js_gt (ToNumber (cpri top)) (num (75 # 100)))
                    (cpri top)
              end in
            Some {| nv_title := title; nv_body := body;
                    nv_color := Some color |}
        end
    end.

(** Whether the body words the finding as certain: 'urgently required'
    for the environmental officer, 'immediate policy intervention is
    recommended' for the policy maker. *)
Definition wordedAsCertain (body : NarrativeBody) : bool :=
  match body with
  | EcologicalWarning _ _ urgent => urgent
  | DefaultNarrative _ _ _ _ certain _ => certain
  | _ => false
  end.

(** One transition of 999 sq km seen once with confidence 0.75. *)
Definition boundaryFlow : list Flow :=
  [ mkFlow 2024 "Forest" "Built-up" 999 (75 # 100) ].

End Engine.

(** ** An instance of the arithmetic

    Exact arithmetic on reduced fractions, with a fixed-point
    approximation of [Math.log10] (thirty fraction bits of the binary
    logarithm, by repeated squaring).  It shows that the interface is
    inhabited, and it runs the engine on concrete tables. *)

(** The fraction bits of the binary logarithm of [Y / 2^60] in [1,2). *)
Fixpoint log2_frac (bits : nat) (Y : Z) : Z :=
  match bits with
  | O => 0%Z
  | S k =>
      let Y2 := (Y * Y / 2 ^ 60)%Z in
      if (2 ^ 61 <=? Y2)%Z
      then (2 ^ Z.of_nat k + log2_frac k (Y2 / 2))%Z
      else log2_frac k Y2
  end.

(** The binary logarithm of [x >= 1]. *)
Definition log2_approx (x : Q) : Q :=
  let e := Z.log2 (Qfloor x) in
  let Y := Qfloor (x * inject_Z (2 ^ 60) / inject_Z (2 ^ e)) in
  inject_Z e + inject_Z (log2_frac 30 Y) / inject_Z (2 ^ 30).

(** [log10(2)], to seventeen digits. *)
Definition log10_2 : Q := 30102999566398120 # 100000000000000000.

Definition log10_approx (x : Q) : Q :=
  if Qle_bool 1 x then log2_approx x * log10_2
  else if js_lt 0 x then - (log2_approx (/ x) * log10_2)
  else 0.

Lemma log2_frac_nonneg (bits : nat) (Y : Z) : (0 <= log2_frac bits Y)%Z.
Proof.
  revert Y; induction bits as [|k IH]; intros Y; cbn [log2_frac].
  - lia.
  - cbv zeta. destruct (2 ^ 61 <=? Y * Y / 2 ^ 60)%Z.
    + specialize (IH (Y * Y / 2 ^ 60 / 2)%Z).
      assert (0 <= 2 ^ Z.of_nat k)%Z by (apply Z.pow_nonneg; lia). lia.
    + apply IH.
Qed.

Lemma log2_approx_nonneg (x : Q) : 0 <= log2_approx x.
Proof.
  unfold log2_approx. cbv zeta.
  assert (He : 0 <= inject_Z (Z.log2 (Qfloor x))).
  { change 0 with (inject_Z 0). rewrite <- Zle_Qle. apply Z.log2_nonneg. }
  assert (Hf : 0 <= inject_Z (log2_frac 30
                 (Qfloor (x * inject_Z (2 ^ 60)
                          / inject_Z (2 ^ Z.log2 (Qfloor x)))))).
  { change 0 with (inject_Z 0). rewrite <- Zle_Qle. apply log2_frac_nonneg. }
  assert (Hd : 0 <= inject_Z (log2_frac 30
                 (Qfloor (x * inject_Z (2 ^ 60)
                          / inject_Z (2 ^ Z.log2 (Qfloor x)))))
               / inject_Z (2 ^ 30)).
  { apply Qle_shift_div_l; [reflexivity|]. now rewrite Qmult_0_l. }
  apply (Qplus_le_compat 0 _ 0 _ He) in Hd. exact Hd.
Qed.

Lemma Qred_mono (x y : Q) : x <= y -> Qred x <= Qred y.
Proof. intros H. now apply Qred_le. Qed.

Lemma Qred_idem (x : Q) : Qred (Qred x) = Qred x.
Proof. apply Qred_complete, Qred_correct. Qed.

Lemma Qred_diff (x y : Q) : Qred (Qred x - Qred y) == 0 -> Qred x == Qred y.
Proof.
  rewrite (Qred_correct (Qred x - Qred y)). intros H.
  apply Qplus_inj_r with (z := - Qred y).
  rewrite Qplus_opp_r. exact H.
Qed.

Lemma log10_approx_nonneg (x : Q) : 1 <= x -> 0 <= log10_approx x.
Proof.
  intros H. unfold log10_approx.
  apply Qle_bool_iff in H. rewrite H.
  apply Qmult_le_0_compat; [apply log2_approx_nonneg | discriminate].
Qed.

#[export] Instance Exact : Number64 :=
  {| rnd := Qred;
     rnd_compat := Qred_complete;
     rnd_mono := Qred_mono;
     rnd_idem := Qred_idem;
     rnd_0 := eq_refl;
     rnd_1 := eq_refl;
     rnd_diff := Qred_diff;
     log10 := log10_approx;
     log10_nonneg := log10_approx_nonneg |}.

(** * Properties *)

(** ** Comparisons *)

Lemma js_le_iff (x y : Q) : js_le x y = true <-> x <= y.
Proof. apply Qle_bool_iff. Qed.

Lemma js_lt_iff (x y : Q) : js_lt x y = true <-> x < y.
Proof.
  unfold js_lt. rewrite negb_true_iff.
  split; intros H.
  - apply Qnot_le_lt. intros Hle. apply Qle_bool_iff in Hle. congruence.
  - destruct (Qle_bool y x) eqn:E; [|reflexivity].
    apply Qle_bool_iff in E. exfalso. exact (Qlt_not_le _ _ H E).
Qed.

Lemma js_lt_false_iff (x y : Q) : js_lt x y = false <-> y <= x.
Proof.
  unfold js_lt. rewrite negb_false_iff. apply Qle_bool_iff.
Qed.

Lemma js_gt_iff (x y : Q) : js_gt x y = true <-> y < x.
Proof. apply js_lt_iff. Qed.

(** ** The sort *)

Section SortFacts.
Context {A : Type} (cmp : A -> A -> Q).

Lemma insert_perm (x : A) (l : list A) : Permutation (x :: l) (insert cmp x l).
Proof.
  induction l as [|y l IH]; simpl.
  - apply Permutation_refl.
  - destruct (js_le (cmp x y) 0).
    + apply Permutation_refl.
    + eapply perm_trans; [apply perm_swap|]. now apply perm_skip.
Qed.

Lemma js_sort_perm (l : list A) : Permutation l (js_sort cmp l).
Proof.
  induction l as [|x l IH]; simpl.
  - constructor.
  - eapply perm_trans; [|apply insert_perm]. now apply perm_skip.
Qed.

Lemma js_sort_length (l : list A) : length (js_sort cmp l) = length l.
Proof. symmetry. apply Permutation_length, js_sort_perm. Qed.

Lemma js_sort_In (x : A) (l : list A) : In x (js_sort cmp l) <-> In x l.
Proof.
  split; intros H.
  - eapply Permutation_in; [apply Permutation_sym, js_sort_perm | exact H].
  - eapply Permutation_in; [apply js_sort_perm | exact H].
Qed.

(** Where [insert] puts the new element: behind a prefix of elements that
    it must strictly follow. *)
Lemma insert_split (x : A) (l : list A) :
  exists l1 l2, l = l1 ++ l2 /\ insert cmp x l = l1 ++ x :: l2 /\
                forall y, In y l1 -> js_le (cmp x y) 0 = false.
Proof.
  induction l as [|y l IH]; simpl.
  - exists [], []. repeat split. intros y [].
  - destruct (js_le (cmp x y) 0) eqn:E.
    + exists [], (y :: l). repeat split. intros z [].
    + destruct IH as (l1 & l2 & -> & Hi & Hl).
      exists (y :: l1), l2. simpl. rewrite Hi. repeat split.
      intros z [<- | Hz]; auto.
Qed.

(** A family of elements that compare equal to one another keeps its
    order through an insertion. *)
Lemma insert_filter (p : A -> bool) (x : A) (l : list A) :
  (forall a b, p a = true -> p b = true -> cmp a b <= 0) ->
  filter p (insert cmp x l) = filter p (x :: l).
Proof.
  intros Hp.
  destruct (insert_split x l) as (l1 & l2 & -> & -> & Hl).
  simpl. rewrite !filter_app. simpl.
  destruct (p x) eqn:Px; [|reflexivity].
  assert (H1 : filter p l1 = []).
  { clear -Hl Hp Px. induction l1 as [|y l1 IH]; simpl; [reflexivity|].
    destruct (p y) eqn:Py.
    - assert (Hle : cmp x y <= 0) by now apply Hp.
      apply js_le_iff in Hle. rewrite Hl in Hle by now left. discriminate.
    - apply IH. intros z Hz. apply Hl. now right. }
  now rewrite H1.
Qed.

Lemma js_sort_filter (p : A -> bool) (l : list A) :
  (forall a b, p a = true -> p b = true -> cmp a b <= 0) ->
  filter p (js_sort cmp l) = filter p l.
Proof.
  intros Hp. induction l as [|x l IH]; simpl; [reflexivity|].
  rewrite insert_filter by exact Hp. simpl. now rewrite IH.
Qed.

Hypothesis cmp_consistent : consistent cmp.

Lemma tied_iff (a b : A) :
  tied cmp a b = true <-> cmp a b <= 0 /\ cmp b a <= 0.
Proof. unfold tied. now rewrite andb_true_iff, !js_le_iff. Qed.

Lemma tied_class (a x y : A) :
  tied cmp a x = true -> tied cmp a y = true -> cmp x y <= 0.
Proof.
  rewrite !tied_iff. intros [_ Hxa] [Hay _].
  destruct cmp_consistent as [_ Htrans]. eauto.
Qed.

Lemma insert_sorted (x : A) (l : list A) :
  StronglySorted (cmp_le cmp) l -> StronglySorted (cmp_le cmp) (insert cmp x l).
Proof.
  destruct cmp_consistent as [Htot Htrans].
  induction 1 as [|y l Hs IH Hall]; simpl.
  - repeat constructor.
  - destruct (js_le (cmp x y) 0) eqn:E.
    + apply js_le_iff in E.
      constructor; [now constructor|].
      constructor; [exact E|].
      rewrite Forall_forall in *. intros z Hz.
      unfold cmp_le in *. eauto.
    + constructor; [exact IH|].
      rewrite Forall_forall in *. intros z Hz.
      apply (Permutation_in _ (Permutation_sym (insert_perm x l))) in Hz.
      destruct Hz as [<- | Hz]; [|now apply Hall].
      unfold cmp_le. destruct (Htot x y) as [Hxy | Hyx]; [|exact Hyx].
      apply js_le_iff in Hxy. congruence.
Qed.

Lemma js_sort_sorted (l : list A) : StronglySorted (cmp_le cmp) (js_sort cmp l).
Proof.
  induction l as [|x l IH]; simpl; [constructor | now apply insert_sorted].
Qed.

(** [js_sort] meets the specification of a stable sort. *)
Lemma js_sort_spec (l : list A) : stable_sort_of cmp l (js_sort cmp l).
Proof.
  split; [apply js_sort_sorted|].
  intros a. apply js_sort_filter. intros x y. apply tied_class.
Qed.

Lemma tied_refl (a : A) : tied cmp a a = true.
Proof.
  apply tied_iff. destruct cmp_consistent as [Htot _].
  destruct (Htot a a); auto.
Qed.

(** Two ordered lists with the same members in every family of equal
    elements are the same list. *)
Lemma sorted_classes_eq (l1 l2 : list A) :
  StronglySorted (cmp_le cmp) l1 -> StronglySorted (cmp_le cmp) l2 ->
  (forall a, filter (tied cmp a) l1 = filter (tied cmp a) l2) ->
  l1 = l2.
Proof.
  intros S1. revert l2. induction S1 as [|x l1 S1 IH H1]; intros l2 S2 Hf.
  - destruct l2 as [|y l2]; [reflexivity|].
    specialize (Hf y). simpl in Hf. rewrite tied_refl in Hf. discriminate.
  - destruct S2 as [|y l2 S2 H2].
    + specialize (Hf x). simpl in Hf. rewrite tied_refl in Hf. discriminate.
    + assert (Hxy : tied cmp x y = true).
      { apply tied_iff. split.
        - assert (Hin : In y (x :: l1)).
          { assert (Hy : In y (filter (tied cmp y) (x :: l1))).
            { rewrite (Hf y). simpl. rewrite tied_refl. now left. }
            apply filter_In in Hy. tauto. }
          destruct Hin as [<- | Hin].
          + destruct cmp_consistent as [Htot _]. destruct (Htot x x); auto.
          + rewrite Forall_forall in H1. now apply H1.
        - assert (Hin : In x (y :: l2)).
          { assert (Hx : In x (filter (tied cmp x) (y :: l2))).
            { rewrite <- (Hf x). simpl. rewrite tied_refl. now left. }
            apply filter_In in Hx. tauto. }
          destruct Hin as [<- | Hin].
          + destruct cmp_consistent as [Htot _]. destruct (Htot y y); auto.
          + rewrite Forall_forall in H2. now apply H2. }
      assert (Hhd : x = y).
      { specialize (Hf x). simpl in Hf. rewrite tied_refl, Hxy in Hf.
        congruence. }
      subst y. f_equal. apply IH; [exact S2|].
      intros a. specialize (Hf a). simpl in Hf.
      destruct (tied cmp a x); congruence.
Qed.

(** The result of a stable sort is unique: whatever algorithm the engine
    runs, it returns the list that [js_sort] returns. *)
Lemma stable_sort_unique (l l1 l2 : list A) :
  stable_sort_of cmp l l1 -> stable_sort_of cmp l l2 -> l1 = l2.
Proof.
  intros [S1 F1] [S2 F2]. apply sorted_classes_eq; auto.
  intros a. now rewrite F1, F2.
Qed.

End SortFacts.

(** ** Rounding *)

Section Properties.
Context {N64 : Number64}.

Lemma rnd_nonneg (x : Q) : 0 <= x -> 0 <= rnd x.
Proof. intros H. rewrite <- rnd_0. now apply rnd_mono. Qed.

Lemma rnd_nonpos (x : Q) : x <= 0 -> rnd x <= 0.
Proof. intros H. rewrite <- rnd_0. now apply rnd_mono. Qed.

Lemma rnd_le_1 (x : Q) : x <= 1 -> rnd x <= 1.
Proof. intros H. rewrite <- rnd_1. now apply rnd_mono. Qed.

Lemma rnd_ge_1 (x : Q) : 1 <= x -> 1 <= rnd x.
Proof. intros H. rewrite <- rnd_1. now apply rnd_mono. Qed.

Lemma rnd_unit (x : Q) : 0 <= x <= 1 -> 0 <= rnd x <= 1.
Proof. intros [H0 H1]. split; [now apply rnd_nonneg | now apply rnd_le_1]. Qed.

(** The sign of a difference of two Numbers is the sign of the exact
    difference. *)
Lemma fsub_nonpos_iff (x y : Q) : fsub (rnd x) (rnd y) <= 0 <-> rnd x <= rnd y.
Proof.
  unfold fsub. split; intros H.
  - destruct (Qlt_le_dec (rnd y) (rnd x)) as [Hlt | Hle]; [|exact Hle].
    exfalso.
    assert (H0 : 0 <= rnd (rnd x - rnd y)) by (apply rnd_nonneg; lra).
    assert (Hz : rnd (rnd x - rnd y) == 0) by lra.
    apply rnd_diff in Hz. lra.
  - apply rnd_nonpos. lra.
Qed.

(** A comparator [(a,b) => key(b) - key(a)] on Numbers is consistent. *)
Lemma desc_consistent {A : Type} (key : A -> Q) :
  consistent (fun a b => fsub (rnd (key b)) (rnd (key a))).
Proof.
  split.
  - intros a b. rewrite !fsub_nonpos_iff.
    destruct (Qlt_le_dec (rnd (key a)) (rnd (key b))); [right | left]; lra.
  - intros a b c. rewrite !fsub_nonpos_iff. lra.
Qed.

Lemma by_year_consistent : consistent by_year.
Proof.
  unfold by_year. split.
  - intros a b. change 0 with (inject_Z 0). rewrite <- !Zle_Qle. lia.
  - intros a b c. change 0 with (inject_Z 0). rewrite <- !Zle_Qle. lia.
Qed.

(** ** [toFixed] *)

Lemma toFixed2_unit (x : Q) :
  0 <= x <= 1 ->
  fx_neg (toFixed 2 x) = false /\ (0 <= fx_mag (toFixed 2 x) <= 100)%Z.
Proof.
  intros [H0 H1]. unfold toFixed. cbn [fx_neg fx_mag].
  assert (Hneg : js_lt x 0 = false) by now apply js_lt_false_iff.
  rewrite Hneg. split; [reflexivity|].
  change (pow10 2) with 100.
  assert (Hlo : (Qfloor 0 <= Qfloor (x * 100 + (1 # 2)))%Z)
    by (apply Qfloor_resp_le; lra).
  assert (Hhi : (Qfloor (x * 100 + (1 # 2)) <= Qfloor (100 + (1 # 2)))%Z)
    by (apply Qfloor_resp_le; lra).
  change (Qfloor 0) with 0%Z in Hlo.
  change (Qfloor (100 + (1 # 2))) with 100%Z in Hhi.
  split; assumption.
Qed.

Lemma fixed2_value_unit (s : Fixed) :
  fx_digits s = 2%nat -> fx_neg s = false -> (0 <= fx_mag s <= 100)%Z ->
  0 <= fixed_value s <= 1.
Proof.
  intros Hd Hn [H0 H1]. unfold fixed_value. rewrite Hd, Hn.
  change (pow10 2) with (inject_Z 100).
  rewrite Zle_Qle in H0, H1. change (inject_Z 0) with 0 in H0.
  change (inject_Z 100) with 100 in *.
  split.
  - apply Qle_shift_div_l; lra.
  - apply Qle_shift_div_r; lra.
Qed.

(** ** Groups *)

Lemma group_push_In (key : string) (d : Flow)
  (groups : list (string * list Flow)) (k : string) (recs : list Flow) :
  In (k, recs) (group_push key d groups) ->
  (recs = [d]) \/ In (k, recs) groups \/
  exists recs0, In (k, recs0) groups /\ recs = recs0 ++ [d].
Proof.
  induction groups as [|[k0 v0] groups IH]; simpl.
  - intros [H | []]. inversion H. now left.
  - destruct (String.eqb k0 key).
    + intros [H | H].
      * inversion H; subst. right. right. exists v0. split; [now left | reflexivity].
      * right. left. now right.
    + intros [H | H].
      * right. left. now left.
      * destruct (IH H) as [-> | [Hin | (recs0 & Hin & ->)]].
        -- now left.
        -- right. left. now right.
        -- right. right. exists recs0. split; [now right | reflexivity].
Qed.

(** Every group is non-empty and made of rows of the table. *)
Lemma groupByKey_In (data : list Flow) (k : string) (recs : list Flow) :
  In (k, recs) (groupByKey data) ->
  recs <> [] /\ forall d, In d recs -> In d data.
Proof.
  unfold groupByKey.
  assert (G : forall (l : list Flow) (groups : list (string * list Flow)),
             (forall k recs, In (k, recs) groups ->
                             recs <> [] /\ forall d, In d recs -> In d data) ->
             (forall d, In d l -> In d data) ->
             forall k recs,
               In (k, recs)
                  (fold_left (fun groups d =>
                                group_push (transitionKey d) d groups) l groups) ->
               recs <> [] /\ forall d, In d recs -> In d data).
  { induction l as [|d l IH]; intros groups Hg Hl k' recs' Hin; simpl in Hin.
    - now apply Hg in Hin.
    - apply IH in Hin; [exact Hin | | intros d' Hd'; apply Hl; now right].
      intros k1 recs1 H1. apply group_push_In in H1.
      destruct H1 as [-> | [H1 | (recs0 & H1 & ->)]].
      + split; [discriminate|]. intros d' [<- | []]. apply Hl. now left.
      + now apply Hg in H1.
      + apply Hg in H1. destruct H1 as [_ H1]. split.
        * intros E. apply app_eq_nil in E. destruct E. discriminate.
        * intros d' Hd'. apply in_app_or in Hd'.
          destruct Hd' as [Hd' | [<- | []]]; [now apply H1 | apply Hl; now left]. }
  apply G; [intros ? ? [] | auto].
Qed.

Lemma last_In {A : Type} (l : list A) (d : A) : l <> [] -> In (last l d) l.
Proof.
  induction l as [|x l IH]; [congruence|]. intros _.
  destruct l as [|y l]; [now left|].
  right. apply IH. discriminate.
Qed.

(** ** CPRI *)

Lemma Math_min2_unit (a : Q) : 0 <= a -> 0 <= Math_min2 a 1 <= 1.
Proof.
  intros Ha. unfold Math_min2. destruct (js_le a 1) eqn:E.
  - apply js_le_iff in E. lra.
  - lra.
Qed.

Lemma cpriRaw_unit (latest : Flow) (stable : bool) :
  0 <= fl_area latest -> 0 <= fl_confidence latest <= 1 ->
  0 <= cpriRaw latest stable <= 1.
Proof.
  intros Ha Hc. unfold cpriRaw, fmul, fdiv, fadd, num.
  set (lv := log10 (rnd (rnd (fl_area latest) + 1))).
  assert (Hlv : 0 <= lv).
  { apply log10_nonneg. apply rnd_ge_1.
    pose proof (rnd_nonneg _ Ha). lra. }
  assert (Hni : 0 <= Math_min2 (rnd (lv / 2)) 1 <= 1).
  { apply Math_min2_unit, rnd_nonneg. apply Qle_shift_div_l; lra. }
  set (ni := Math_min2 (rnd (lv / 2)) 1) in *.
  assert (Htf : 0 <= (if stable then 1 else rnd (8 # 10)) <= 1).
  { destruct stable; [lra | apply rnd_unit; lra]. }
  set (tf := if stable then 1 else rnd (8 # 10)) in *.
  assert (Hcf : 0 <= rnd (fl_confidence latest) <= 1) by now apply rnd_unit.
  set (cf := rnd (fl_confidence latest)) in *.
  assert (H1 : 0 <= rnd (ni * tf) <= 1) by (apply rnd_unit; nra).
  apply rnd_unit. nra.
Qed.

Lemma analyzeGroup_cpri_unit (data : list Flow) (k : string) (recs : list Flow) :
  (forall d, In d data -> 0 <= fl_area d /\ 0 <= fl_confidence d <= 1) ->
  In (k, recs) (groupByKey data) ->
  0 <= fixed_value (cpri (analyzeGroup k recs)) <= 1.
Proof.
  intros Hwf Hin. apply groupByKey_In in Hin. destruct Hin as [Hne Hsub].
  unfold analyzeGroup. cbn [cpri].
  set (sorted := js_sort by_year recs).
  assert (Hlatest : In (last sorted blankFlow) recs).
  { apply (js_sort_In by_year). apply last_In.
    intros E. apply Hne. apply length_zero_iff_nil.
    pose proof (js_sort_length by_year recs) as Hl.
    unfold sorted in E. rewrite E in Hl. now symmetry. }
  destruct (Hwf _ (Hsub _ Hlatest)) as [Ha Hc].
  match goal with |- context [toFixed 2 ?x] =>
    destruct (toFixed2_unit x) as [Hn Hm]; [now apply cpriRaw_unit|];
    apply fixed2_value_unit; [reflexivity | exact Hn | exact Hm]
  end.
Qed.

(** C1.  For every transition group that [analyzeTransitionEvolution]
    produces from rows with a non-negative area and a confidence in
    [0,1], the [cpri] string denotes a value in [0,1], and so does the
    Number it converts to. *)
Theorem cpri_in_unit_interval (data : list Flow) (e : Evolution) :
  (forall d, In d data -> 0 <= fl_area d /\ 0 <= fl_confidence d <= 1) ->
  In e (analyzeTransitionEvolution data) ->
  0 <= fixed_value (cpri e) <= 1 /\ 0 <= ToNumber (cpri e) <= 1.
Proof.
  intros Hwf Hin. unfold analyzeTransitionEvolution in Hin.
  apply js_sort_In in Hin. unfold evolutions in Hin.
  apply in_map_iff in Hin. destruct Hin as ([k recs] & <- & Hin).
  assert (H : 0 <= fixed_value (cpri (analyzeGroup k recs)) <= 1)
    by now apply (analyzeGroup_cpri_unit data).
  split; [exact H | now apply rnd_unit].
Qed.

(** ** Ranked evolutions *)

Lemma by_cpri_desc_consistent : consistent by_cpri_desc.
Proof. exact (desc_consistent (fun e => fixed_value (cpri e))). Qed.

Lemma StronglySorted_weaken {A : Type} (R S : A -> A -> Prop) (l : list A) :
  (forall a b, R a b -> S a b) -> StronglySorted R l -> StronglySorted S l.
Proof.
  intros HRS. induction 1 as [|x l Hs IH Hall]; constructor; auto.
  rewrite Forall_forall in *. auto.
Qed.

(** C2.  The list that [analyzeTransitionEvolution] returns is ordered by
    non-increasing [cpri] (every evolution precedes only evolutions whose
    [cpri] is not larger), and the evolutions that share a [cpri] stand in
    the order they had before the final sort, the order of their keys. *)
Theorem evolutions_sorted_by_cpri_stable (data : list Flow) :
  StronglySorted (fun a b => ToNumber (cpri b) <= ToNumber (cpri a))
                 (analyzeTransitionEvolution data) /\
  forall c : Q,
    filter (fun e => Qeq_bool (ToNumber (cpri e)) c)
           (analyzeTransitionEvolution data)
    = filter (fun e => Qeq_bool (ToNumber (cpri e)) c) (evolutions data).
Proof.
  unfold analyzeTransitionEvolution. split.
  - apply (StronglySorted_weaken (cmp_le by_cpri_desc)).
    + intros a b H. unfold cmp_le, by_cpri_desc, ToNumber in H.
      now apply fsub_nonpos_iff in H.
    + apply js_sort_sorted, by_cpri_desc_consistent.
  - intros c. apply js_sort_filter. intros a b Ha Hb.
    apply Qeq_bool_iff in Ha. apply Qeq_bool_iff in Hb.
    unfold by_cpri_desc, ToNumber in *. apply fsub_nonpos_iff. lra.
Qed.

(** ** Distinct years *)

Lemma existsb_eqb_In (x : Z) (l : list Z) :
  existsb (Z.eqb x) l = true <-> In x l.
Proof.
  rewrite existsb_exists. split.
  - intros (y & Hy & E). apply Z.eqb_eq in E. now subst.
  - intros H. exists x. split; [exact H | apply Z.eqb_refl].
Qed.

Lemma set_from_In (seen l : list Z) (x : Z) :
  In x (set_from Z.eqb seen l) <-> In x l /\ ~ In x seen.
Proof.
  revert seen; induction l as [|y l IH]; intros seen; simpl.
  - tauto.
  - destruct (existsb (Z.eqb y) seen) eqn:E.
    + apply existsb_eqb_In in E. rewrite IH. split.
      * tauto.
      * intros [[<- | H] Hn]; [contradiction | tauto].
    + assert (Hy : ~ In y seen).
      { intros H. apply existsb_eqb_In in H. congruence. }
      simpl. rewrite IH. simpl. split.
      * intros [<- | [H Hn]]; [tauto|]. split; [tauto|]. tauto.
      * intros [[<- | H] Hn]; [now left|].
        destruct (Z.eq_dec y x) as [<- | Hne]; [now left|]. right. tauto.
Qed.

Lemma set_from_NoDup (seen l : list Z) : NoDup (set_from Z.eqb seen l).
Proof.
  revert seen; induction l as [|y l IH]; intros seen; simpl.
  - constructor.
  - destruct (existsb (Z.eqb y) seen); [apply IH|].
    constructor; [|apply IH].
    rewrite set_from_In. simpl. tauto.
Qed.

(** [years] lists every year of the table once. *)
Lemma years_In (timeData : list TimeSeriesPoint) (y : Z) :
  In y (years timeData) <-> In y (map ts_year timeData).
Proof.
  unfold years, js_set. rewrite js_sort_In, set_from_In. simpl. tauto.
Qed.

Lemma years_NoDup (timeData : list TimeSeriesPoint) : NoDup (years timeData).
Proof.
  unfold years.
  eapply Permutation_NoDup; [apply js_sort_perm | apply set_from_NoDup].
Qed.

Lemma NoDup_two (l : list Z) :
  NoDup l ->
  ((2 <= length l)%nat <-> exists a b, a <> b /\ In a l /\ In b l).
Proof.
  intros Hnd. split.
  - destruct l as [|a [|b l]]; simpl; try lia. intros _.
    exists a, b. repeat split; [|now left | right; now left].
    inversion Hnd as [|? ? Hn _]; subst. intros ->. apply Hn. now left.
  - intros (a & b & Hab & Ha & Hb).
    destruct l as [|x [|y l]]; simpl in *; lia.
Qed.

(** Fewer than two entries in [years] means no two distinct years. *)
Lemma years_short_iff (timeData : list TimeSeriesPoint) :
  (length (years timeData) <? 2)%nat = true <->
  ~ exists y1 y2, y1 <> y2 /\ In y1 (map ts_year timeData)
                  /\ In y2 (map ts_year timeData).
Proof.
  rewrite Nat.ltb_lt.
  pose proof (NoDup_two _ (years_NoDup timeData)) as H.
  split.
  - intros Hlt (a & b & Hab & Ha & Hb).
    apply years_In in Ha. apply years_In in Hb.
    assert (2 <= length (years timeData))%nat by (apply H; eauto). lia.
  - intros Hn. destruct (Nat.lt_ge_cases (length (years timeData)) 2) as [|Hge];
      [assumption|].
    exfalso. apply Hn. apply H in Hge. destruct Hge as (a & b & Hab & Ha & Hb).
    exists a, b. rewrite <- !years_In. auto.
Qed.

(** ** Projection at intensity 0 *)

Lemma reduction_zero : fmul (fdiv 0 100) (num (6 # 10)) = 0.
Proof.
  unfold fmul, fdiv.
  rewrite (rnd_compat (0 / 100) 0) by reflexivity. rewrite rnd_0.
  rewrite (rnd_compat (0 * num (6 # 10)) 0) by ring. apply rnd_0.
Qed.

Lemma fsub_1_0 : fsub 1 0 = 1.
Proof. unfold fsub. rewrite (rnd_compat (1 - 0) 1) by ring. apply rnd_1. Qed.

Lemma fmul_fdiv_1 (a b : Q) : fmul (fdiv a b) 1 = fdiv a b.
Proof.
  unfold fmul, fdiv.
  rewrite (rnd_compat (rnd (a / b) * 1) (rnd (a / b))) by ring.
  apply rnd_idem.
Qed.

Lemma years_three (timeData : list TimeSeriesPoint) (y1 y2 y3 : Z) :
  y1 <> y2 -> y1 <> y3 -> y2 <> y3 ->
  In y1 (map ts_year timeData) -> In y2 (map ts_year timeData) ->
  In y3 (map ts_year timeData) ->
  (3 <= length (years timeData))%nat.
Proof.
  intros H12 H13 H23 I1 I2 I3.
  apply (NoDup_incl_length (l := [y1; y2; y3])).
  - constructor; [simpl; intuition congruence|].
    constructor; [simpl; intuition congruence|].
    constructor; [simpl; tauto | constructor].
  - intros y [<- | [<- | [<- | []]]]; now apply years_In.
Qed.

(** The time span of the projection is not zero. *)
Lemma years_span_nonzero (timeData : list TimeSeriesPoint) :
  (3 <= length (years timeData))%nat ->
  nth (length (years timeData) - 1) (years timeData) 0%Z
  <> nth (length (years timeData) - 3) (years timeData) 0%Z.
Proof.
  intros H3 E.
  apply (proj1 (NoDup_nth (years timeData) 0%Z) (years_NoDup timeData)) in E;
    lia.
Qed.

(** C3.  On a series with at least three distinct years, the projection
    at policy intensity 0 is the unmitigated baseline: the rate is the raw
    rate of the last three years, [projectedArea] and [increase] are those
    of the baseline, and [reduction] and [savedArea] are null. *)
Theorem projection_at_zero_is_baseline (timeData : list TimeSeriesPoint) :
  (exists y1 y2 y3,
     y1 <> y2 /\ y1 <> y3 /\ y2 <> y3 /\
     In y1 (map ts_year timeData) /\ In y2 (map ts_year timeData) /\
     In y3 (map ts_year timeData)) ->
  getFutureProjection 0 timeData = Some (baselineProjection timeData) /\
  reduction (baselineProjection timeData) = None /\
  savedArea (baselineProjection timeData) = None.
Proof.
  intros (y1 & y2 & y3 & H12 & H13 & H23 & I1 & I2 & I3).
  pose proof (years_three timeData y1 y2 y3 H12 H13 H23 I1 I2 I3) as H3.
  split; [|split; reflexivity].
  unfold getFutureProjection, baselineProjection.
  assert (Hlt : (length (years timeData) <? 3)%nat = false)
    by now apply Nat.ltb_ge.
  assert (Hle : (3 <=? length (years timeData))%nat = true)
    by now apply Nat.leb_le.
  cbv zeta. rewrite Hlt, Hle.
  rewrite reduction_zero, fsub_1_0, fmul_fdiv_1.
  reflexivity.
Qed.

(** ** Survey allocation *)

Lemma rel_index_le (len : nat) (k : Z) : (rel_index len k <= len)%nat.
Proof.
  unfold rel_index. destruct (k <? 0)%Z eqn:E; [|apply Nat.le_min_r].
  apply Z.ltb_lt in E. lia.
Qed.

Lemma rel_index_nonneg (len : nat) (k : Z) :
  (0 <= k)%Z -> (Z.of_nat (rel_index len k) <= k)%Z.
Proof.
  intros Hk. unfold rel_index.
  assert (E : (k <? 0)%Z = false) by now apply Z.ltb_ge.
  rewrite E. lia.
Qed.

Lemma slice_head_length {A : Type} (m : Z) (l : list A) :
  length (js_slice 0 (Some m) l) = rel_index (length l) m.
Proof.
  unfold js_slice. cbv zeta.
  assert (H0 : rel_index (length l) 0 = 0%nat) by reflexivity.
  rewrite H0. simpl skipn. rewrite Nat.sub_0_r, length_firstn.
  apply Nat.min_l, rel_index_le.
Qed.

Lemma slice_tail_length {A : Type} (m : Z) (l : list A) :
  length (js_slice m None l) = (length l - rel_index (length l) m)%nat.
Proof.
  unfold js_slice. cbv zeta.
  rewrite length_firstn, length_skipn. apply Nat.min_id.
Qed.

Lemma firstn_In {A : Type} (n : nat) (l : list A) (x : A) :
  In x (firstn n l) -> In x l.
Proof.
  intros H. rewrite <- (firstn_skipn n l). apply in_or_app. now left.
Qed.

Lemma skipn_In {A : Type} (n : nat) (l : list A) (x : A) :
  In x (skipn n l) -> In x l.
Proof.
  intros H. rewrite <- (firstn_skipn n l). apply in_or_app. now right.
Qed.

Lemma slice_head_In {A : Type} (m : Z) (l : list A) (x : A) :
  In x (js_slice 0 (Some m) l) -> In x l.
Proof.
  unfold js_slice. cbv zeta. intros H.
  apply firstn_In in H. now apply skipn_In in H.
Qed.

Lemma mapM_length {A B : Type} (f : A -> option B) (l : list A) (r : list B) :
  mapM f l = Some r -> length r = length l.
Proof.
  revert r; induction l as [|x l IH]; intros r; simpl.
  - intros H; inversion H; reflexivity.
  - destruct (f x); [|discriminate].
    destruct (mapM f l) as [ys|]; [|discriminate].
    intros H; inversion H; subst. simpl. f_equal. now apply IH.
Qed.

Lemma mapM_total {A B : Type} (f : A -> option B) (l : list A) :
  (forall x, In x l -> f x <> None) -> exists r, mapM f l = Some r.
Proof.
  induction l as [|x l IH]; intros H; simpl.
  - now exists [].
  - destruct (f x) as [y|] eqn:E.
    + destruct IH as [r Hr]; [intros z Hz; apply H; now right|].
      rewrite Hr. now exists (y :: r).
    + exfalso. apply (H x); [now left | exact E].
Qed.

Lemma surveyTask_total (s : Evolution) : history s <> [] -> surveyTask s <> None.
Proof.
  intros Hne. unfold surveyTask.
  destruct (rev (history s)) eqn:E; [|discriminate].
  exfalso. apply Hne. apply (f_equal (@rev Flow)) in E.
  now rewrite rev_involutive in E.
Qed.

Lemma maxSites_nonneg (budget : Q) : 0 <= budget -> (0 <= maxSites budget)%Z.
Proof.
  intros H. unfold maxSites, fdiv.
  change 0%Z with (Qfloor 0). apply Qfloor_resp_le, rnd_nonneg.
  apply Qle_shift_div_l; [reflexivity | now rewrite Qmult_0_l].
Qed.

Lemma maxSites_zero : maxSites 0 = 0%Z.
Proof.
  unfold maxSites, fdiv.
  rewrite (rnd_compat (0 / inject_Z surveyCostPerSite) 0) by reflexivity.
  now rewrite rnd_0.
Qed.

(** Every evolution that the analyzer returns has a history. *)
Lemma analyze_history_nonempty (data : list Flow) (e : Evolution) :
  In e (analyzeTransitionEvolution data) -> history e <> [].
Proof.
  intros Hin. unfold analyzeTransitionEvolution in Hin.
  apply js_sort_In in Hin. unfold evolutions in Hin.
  apply in_map_iff in Hin. destruct Hin as ([k recs] & <- & Hin).
  apply groupByKey_In in Hin. destruct Hin as [Hne _].
  unfold analyzeGroup. cbn [history fst snd]. intros E. apply Hne.
  apply length_zero_iff_nil. rewrite <- (js_sort_length by_year), E.
  reflexivity.
Qed.

(** C4, as amended.  For every list of evolutions with a history and
    every budget, the allocation is returned, the selected and the
    deferred sites add up to the candidates (the evolutions with
    [cpri < 0.45]) and the total cost is the number of selected sites times
    the cost per site; when the budget is not negative, the number of
    selected sites is at most [floor(budget / costPerSite)]. *)
Theorem survey_allocation_accounts (transitionTrends : list Evolution)
  (budget : Q) :
  (forall e, In e transitionTrends -> history e <> []) ->
  exists r,
    getBudgetOptimizedSurveys transitionTrends budget = Some r /\
    (0 <= budget -> (Z.of_nat (length (selected r)) <= maxSites budget)%Z) /\
    (length (selected r) + deferredCount r
     = length (candidates transitionTrends))%nat /\
    totalCost r = (Z.of_nat (length (selected r)) * surveyCostPerSite)%Z.
Proof.
  intros Hh. unfold getBudgetOptimizedSurveys. cbv zeta.
  set (ranked := js_sort by_flow_desc (candidates transitionTrends)).
  destruct (mapM_total surveyTask (js_slice 0 (Some (maxSites budget)) ranked))
    as [tasks Ht].
  { intros s Hs. apply surveyTask_total, Hh.
    apply slice_head_In in Hs. apply js_sort_In in Hs.
    unfold candidates in Hs. apply filter_In in Hs. tauto. }
  rewrite Ht. eexists; split; [reflexivity|]. cbn [selected deferredCount totalCost].
  pose proof (mapM_length _ _ _ Ht) as Hlen.
  rewrite Hlen, slice_head_length, slice_tail_length.
  assert (Hr : length ranked = length (candidates transitionTrends))
    by apply js_sort_length.
  pose proof (rel_index_le (length ranked) (maxSites budget)) as Hle.
  repeat split.
  - intros Hb. apply rel_index_nonneg, maxSites_nonneg, Hb.
  - lia.
Qed.

(** C5, as amended.  Whatever is typed into the budget field, the value
    that [setBudget] stores is not negative; when the entry is zero,
    negative or not a number, the stored budget is 0, and with it the
    allocation is returned and selects no site. *)
Theorem nonpositive_budget_selects_nothing (transitionTrends : list Evolution)
  (parsed : option Z) :
  0 <= setBudget parsed /\
  ((match parsed with Some n => (n <= 0)%Z | None => True end) ->
   setBudget parsed = 0 /\
   exists r,
     getBudgetOptimizedSurveys transitionTrends (setBudget parsed) = Some r /\
     selected r = []).
Proof.
  split.
  - unfold setBudget. change 0 with (inject_Z 0). rewrite <- Zle_Qle. lia.
  - intros Hn.
    assert (E : setBudget parsed = 0).
    { unfold setBudget. destruct parsed as [n|]; [|reflexivity].
      now rewrite Z.max_l by exact Hn. }
    split; [exact E|]. rewrite E.
    unfold getBudgetOptimizedSurveys. cbv zeta. rewrite maxSites_zero.
    assert (Hs : forall l : list Evolution, js_slice 0 (Some 0%Z) l = []).
    { intros l. apply length_zero_iff_nil. rewrite slice_head_length.
      reflexivity. }
    rewrite Hs. simpl. eexists; split; reflexivity.
Qed.

(** ** Ecological risk *)

Lemma eco_classify_spec (loss : Q) : fst (eco_classify loss) = spec_eco_trend loss.
Proof.
  unfold eco_classify, spec_eco_trend.
  destruct (js_gt loss 20) eqn:E1.
  { apply js_gt_iff in E1. destruct (Qlt_le_dec 20 loss); [reflexivity | lra]. }
  apply js_lt_false_iff in E1.
  destruct (Qlt_le_dec 20 loss); [lra|].
  destruct (js_gt loss 5) eqn:E2.
  { apply js_gt_iff in E2. destruct (Qlt_le_dec 5 loss); [reflexivity | lra]. }
  apply js_lt_false_iff in E2.
  destruct (Qlt_le_dec 5 loss); [lra|].
  destruct (js_lt loss (-1)) eqn:E3.
  { apply js_lt_iff in E3. destruct (Qlt_le_dec loss (-1)); [reflexivity | lra]. }
  apply js_lt_false_iff in E3.
  destruct (Qlt_le_dec loss (-1)); [lra | reflexivity].
Qed.

Lemma spec_eco_trend_compat (x y : Q) :
  x == y -> spec_eco_trend x = spec_eco_trend y.
Proof.
  intros E. unfold spec_eco_trend.
  destruct (Qlt_le_dec 20 x), (Qlt_le_dec 20 y); try lra; try reflexivity.
  destruct (Qlt_le_dec 5 x), (Qlt_le_dec 5 y); try lra; try reflexivity.
  destruct (Qlt_le_dec x (-1)), (Qlt_le_dec y (-1)); try lra; reflexivity.
Qed.

Lemma lossPct_zero_baseline (baseline loss : Q) :
  baseline == 0 -> lossPct baseline loss = 0.
Proof.
  intros E. unfold lossPct.
  assert (H : js_gt baseline 0 = false) by (apply js_lt_false_iff; lra).
  now rewrite H.
Qed.

(** C7.  [getEcoRiskAssessment] returns null exactly when the table has no
    two distinct years.  Otherwise the loss area is [totalEcoLoss], the sum
    of baseline minus current for Forest and for Water, and the trend is
    Rapid Degradation above 20, Declining above 5, Recovering below -1 and
    Stable otherwise: 25, 10, -2 and 0 give the four trends in this order.
    A class whose baseline is zero has the loss percentage 0.0. *)
Theorem eco_risk_assessment_spec (timeData : list TimeSeriesPoint) :
  (getEcoRiskAssessment timeData = None <->
   ~ exists y1 y2, y1 <> y2 /\ In y1 (map ts_year timeData)
                   /\ In y2 (map ts_year timeData)) /\
  (forall r, getEcoRiskAssessment timeData = Some r ->
     lossArea r = toFixed 1 (totalEcoLoss timeData) /\
     eco_trend r = spec_eco_trend (totalEcoLoss timeData) /\
     (totalEcoLoss timeData == 25 -> eco_trend r = RapidDegradation) /\
     (totalEcoLoss timeData == 10 -> eco_trend r = Declining) /\
     (totalEcoLoss timeData == -2 -> eco_trend r = Recovering) /\
     (totalEcoLoss timeData == 0 -> eco_trend r = EcoStable) /\
     (at_ (forestTrend timeData) 0 == 0 ->
      forestLossPct r = mkFixed false 0 1) /\
     (at_ (waterTrend timeData) 0 == 0 ->
      waterLossPct r = mkFixed false 0 1)).
Proof.
  split.
  - rewrite <- years_short_iff. unfold getEcoRiskAssessment.
    destruct (length (years timeData) <? 2)%nat; split;
      congruence || discriminate.
  - intros r Hr. unfold getEcoRiskAssessment in Hr.
    destruct (length (years timeData) <? 2)%nat; [discriminate|].
    cbv zeta in Hr. inversion Hr; subst r; clear Hr.
    cbn [lossArea eco_trend forestLossPct waterLossPct].
    fold (totalEcoLoss timeData). rewrite eco_classify_spec.
    repeat split.
    + intros E. now rewrite (spec_eco_trend_compat _ _ E).
    + intros E. now rewrite (spec_eco_trend_compat _ _ E).
    + intros E. now rewrite (spec_eco_trend_compat _ _ E).
    + intros E. now rewrite (spec_eco_trend_compat _ _ E).
    + intros E. now rewrite lossPct_zero_baseline.
    + intros E. now rewrite lossPct_zero_baseline.
Qed.

(** ** Priority ranking *)

(** The score is a function of the area, the confidence and the weight
    alone. *)
Lemma score_compat (a1 c1 w1 a2 c2 w2 : Q) :
  a1 == a2 -> c1 == c2 -> w1 == w2 -> score a1 c1 w1 = score a2 c2 w2.
Proof.
  intros Ea Ec Ew. unfold score, fmul, num.
  rewrite (rnd_compat a1 a2 Ea), (rnd_compat c1 c2 Ec).
  rewrite (rnd_compat (rnd (rnd a2 * rnd c2) * w1)
                      (rnd (rnd a2 * rnd c2) * w2)) by now rewrite Ew.
  reflexivity.
Qed.

Lemma by_impact_desc_consistent : consistent by_impact_desc.
Proof. exact (desc_consistent (fun p => fixed_value (impactScore p))). Qed.

Lemma by_area_desc_consistent : consistent by_area_desc.
Proof. exact (desc_consistent (fun p => tr_area_sq_km (pr_record p))). Qed.

Lemma by_confidence_desc_consistent : consistent by_confidence_desc.
Proof. exact (desc_consistent (fun p => tr_confidence (pr_record p))). Qed.

(** The embedded ranker is one of the evaluations. *)
Lemma getRankedData_run (activePersona : Persona) (minConfidence : Q)
  (activeScenario : Scenario) (rankMode : RankMode)
  (data : list TransitionRecord) :
  ranker_run activePersona minConfidence activeScenario rankMode data
    (getRankedData rankMode
       (prioritizedData activePersona minConfidence activeScenario data)).
Proof.
  exists (prioritizedData activePersona minConfidence activeScenario data).
  split.
  - apply js_sort_spec, by_impact_desc_consistent.
  - destruct rankMode; simpl.
    + reflexivity.
    + apply js_sort_spec, by_area_desc_consistent.
    + apply js_sort_spec, by_confidence_desc_consistent.
Qed.

(** C9.  Two rows with the same area, confidence and weight get the same
    impact score, whatever else differs; and two evaluations of the ranker
    on the same rows, persona, filters and rank mode return the same list,
    the one [getRankedData] computes, with the same scores in the same
    order. *)
Theorem priority_ranker_deterministic (activePersona : Persona)
  (minConfidence : Q) (activeScenario : Scenario) (rankMode : RankMode)
  (data : list TransitionRecord) (out1 out2 : list Prioritized) :
  ranker_run activePersona minConfidence activeScenario rankMode data out1 ->
  ranker_run activePersona minConfidence activeScenario rankMode data out2 ->
  out1 = out2 /\
  map impactScore out1 = map impactScore out2 /\
  out1 = getRankedData rankMode
           (prioritizedData activePersona minConfidence activeScenario data) /\
  forall (p1 p2 : Persona) (d1 d2 : TransitionRecord),
    tr_area_sq_km d1 == tr_area_sq_km d2 ->
    tr_confidence d1 == tr_confidence d2 ->
    getPolicyWeight p1 (tr_from d1) (tr_to d1)
    == getPolicyWeight p2 (tr_from d2) (tr_to d2) ->
    impactScore (prioritize p1 d1) = impactScore (prioritize p2 d2).
Proof.
  assert (U : forall o1 o2,
             ranker_run activePersona minConfidence activeScenario rankMode
                        data o1 ->
             ranker_run activePersona minConfidence activeScenario rankMode
                        data o2 -> o1 = o2).
  { intros o1 o2 (q1 & S1 & R1) (q2 & S2 & R2).
    assert (q1 = q2)
      by (eapply stable_sort_unique; eauto using by_impact_desc_consistent).
    subst q2. destruct rankMode.
    - congruence.
    - eapply stable_sort_unique; eauto using by_area_desc_consistent.
    - eapply stable_sort_unique; eauto using by_confidence_desc_consistent. }
  intros H1 H2. pose proof (U _ _ H1 H2) as E. subst out2.
  repeat split.
  - apply (U _ _ H1), getRankedData_run.
  - intros p1 p2 d1 d2 Ea Ec Ew. unfold prioritize. cbn [impactScore].
    now apply score_compat.
Qed.

(** ** Velocity *)

Lemma fsub_same (x y : Q) : x == y -> fsub x y = 0.
Proof.
  intros E. unfold fsub. rewrite (rnd_compat (x - y) 0) by lra. apply rnd_0.
Qed.

Lemma fdiv_0 (d : Q) : fdiv 0 d = 0.
Proof.
  unfold fdiv. rewrite (rnd_compat (0 / d) 0); [apply rnd_0|].
  unfold Qdiv. ring.
Qed.

Lemma ToNumber_zero (f : nat) : ToNumber (mkFixed false 0 f) = 0.
Proof.
  unfold ToNumber. rewrite (rnd_compat _ 0); [apply rnd_0|].
  unfold fixed_value. cbn [fx_neg fx_mag fx_digits]. unfold Qdiv. ring.
Qed.

(** C10, as amended.  On fewer than three points [getVelocityMetrics]
    returns the fixed sentinel with velocity 0, acceleration 0 and status
    Stable.  A series of three or more points whose last three areas are
    equal has velocity "0.0" and acceleration "0.00": the same status and
    colour as the sentinel and the same Numbers once converted, so that
    only the representation of the two fields tells them apart. *)
Theorem velocity_sentinel_matches_flat_trend :
  (forall trendValues yrs,
     (length trendValues < 3)%nat ->
     getVelocityMetrics trendValues yrs = velocitySentinel) /\
  (forall trendValues yrs,
     (3 <= length trendValues)%nat ->
     at_ trendValues (length trendValues - 1)
     == at_ trendValues (length trendValues - 2) ->
     at_ trendValues (length trendValues - 2)
     == at_ trendValues (length trendValues - 3) ->
     getVelocityMetrics trendValues yrs
     = {| velocity := JStr (mkFixed false 0 1);
          acceleration := JStr (mkFixed false 0 2);
          vm_status := vm_status velocitySentinel;
          vm_color := vm_color velocitySentinel |} /\
     value_of (velocity (getVelocityMetrics trendValues yrs))
     = value_of (velocity velocitySentinel) /\
     value_of (acceleration (getVelocityMetrics trendValues yrs))
     = value_of (acceleration velocitySentinel)).
Proof.
  split.
  - intros trendValues yrs H. unfold getVelocityMetrics.
    assert (E : (length trendValues <? 3)%nat = true) by now apply Nat.ltb_lt.
    now rewrite E.
  - intros trendValues yrs H E1 E2.
    assert (R : getVelocityMetrics trendValues yrs
                = {| velocity := JStr (mkFixed false 0 1);
                     acceleration := JStr (mkFixed false 0 2);
                     vm_status := VelStable;
                     vm_color := "#6B7280" |}).
    { unfold getVelocityMetrics.
      assert (E : (length trendValues <? 3)%nat = false) by now apply Nat.ltb_ge.
      rewrite E. cbv zeta.
      rewrite (fsub_same _ _ E1), (fsub_same _ _ E2), !fdiv_0.
      rewrite (fsub_same 0 0) by reflexivity. reflexivity. }
    rewrite R. cbn [velocity acceleration value_of velocitySentinel].
    repeat split; apply ToNumber_zero.
Qed.

(** ** Governance alerts *)

(** Only Rule 1 raises an alert with an ecological-risk title. *)
Lemma eco_alerts_are_rule1 (activePersona : Persona)
  (data : list TransitionRecord) (builtUp : list Q) (yrs : list Z) :
  filter is_eco_alert (generateGovernanceAlerts activePersona data builtUp yrs)
  = rule1 activePersona data.
Proof.
  unfold generateGovernanceAlerts. rewrite !filter_app.
  assert (H1 : filter is_eco_alert (rule1 activePersona data)
               = rule1 activePersona data).
  { unfold rule1. cbv zeta.
    destruct (0 <? length (filter ecoRisk data))%nat; [|reflexivity].
    destruct activePersona; reflexivity. }
  assert (H2 : filter is_eco_alert (rule2 activePersona data) = []).
  { unfold rule2. cbv zeta.
    match goal with |- context [js_gt ?x 5] => destruct (js_gt x 5) end;
      [|reflexivity].
    destruct activePersona; reflexivity. }
  assert (H3 : filter is_eco_alert (rule3 data) = []).
  { unfold rule3. cbv zeta.
    match goal with |- context [(2 <? ?n)%nat] => destruct (2 <? n)%nat end;
      reflexivity. }
  assert (H4 : filter is_eco_alert (rule4 builtUp yrs) = []).
  { unfold rule4. destruct (4 <=? length builtUp)%nat; [|reflexivity].
    cbv zeta.
    match goal with |- context [js_gt ?x (3 # 2)] =>
      destruct (js_gt x (3 # 2)); [reflexivity|];
      destruct (js_gt x (num (12 # 10))); reflexivity
    end. }
  now rewrite H1, H2, H3, H4, !app_nil_r.
Qed.

(** X3.  The ecological-risk alert is raised exactly when some row has
    origin "Forest" or "Water Body", destination "Built-up" or "Barren"
    and a confidence above 0.80; it is of high severity and lists exactly
    those rows. *)
Theorem eco_alert_characterised (activePersona : Persona)
  (data : list TransitionRecord) (builtUp : list Q) (yrs : list Z) :
  ((exists a, In a (generateGovernanceAlerts activePersona data builtUp yrs)
              /\ is_eco_alert a = true)
   <-> exists d, In d data /\ ecoRisk d = true) /\
  forall a, In a (generateGovernanceAlerts activePersona data builtUp yrs) ->
            is_eco_alert a = true ->
            al_type a = high /\ al_items a = filter ecoRisk data.
Proof.
  assert (F : forall a,
             (In a (generateGovernanceAlerts activePersona data builtUp yrs)
              /\ is_eco_alert a = true)
             <-> In a (rule1 activePersona data)).
  { intros a.
    rewrite <- (eco_alerts_are_rule1 activePersona data builtUp yrs), filter_In.
    tauto. }
  split.
  - split.
    + intros (a & Ha). apply F in Ha. unfold rule1 in Ha. cbv zeta in Ha.
      destruct (filter ecoRisk data) as [|d l] eqn:E; [destruct Ha|].
      exists d. apply filter_In. rewrite E. now left.
    + intros (d & Hd & Hp).
      assert (Hin : In d (filter ecoRisk data)) by (apply filter_In; auto).
      unfold rule1 in F. cbv zeta in F.
      destruct (filter ecoRisk data) as [|d0 l] eqn:E; [destruct Hin|].
      simpl in F. eexists. apply F. now left.
  - intros a Ha He. assert (H : In a (rule1 activePersona data)) by now apply F.
    unfold rule1 in H. cbv zeta in H.
    destruct (0 <? length (filter ecoRisk data))%nat; [|destruct H].
    destruct H as [<- | []]. split; reflexivity.
Qed.

(** The stated condition is the condition that the rule tests. *)
Lemma spec_ecoRisk_ecoRisk (d : TransitionRecord) :
  spec_ecoRisk d = ecoRisk d.
Proof.
  unfold spec_ecoRisk, ecoRisk, in_classes. cbn [existsb class_label].
  now rewrite !orb_false_r.
Qed.

(** C8.  The alert engine raises a high-severity ecological-risk alert
    exactly when at least one input row has an origin of class Forest or
    Water, a destination of class Built-up or Barren and a confidence
    above 0.80; there is at most one such alert, and it lists exactly the
    rows that meet this condition, in the order of the input. *)
Theorem eco_risk_alert_follows_stated_rule (activePersona : Persona)
  (data : list TransitionRecord) (builtUp : list Q) (yrs : list Z) :
  ((exists a, In a (generateGovernanceAlerts activePersona data builtUp yrs)
              /\ is_eco_alert a = true /\ al_type a = high)
   <-> exists d, In d data /\ spec_ecoRisk d = true) /\
  (forall a, In a (generateGovernanceAlerts activePersona data builtUp yrs) ->
             is_eco_alert a = true ->
             al_type a = high /\ al_items a = filter spec_ecoRisk data) /\
  (length (filter is_eco_alert
             (generateGovernanceAlerts activePersona data builtUp yrs))
   <= 1)%nat.
Proof.
  pose proof (eco_alerts_are_rule1 activePersona data builtUp yrs) as R.
  assert (F : forall a,
             (In a (generateGovernanceAlerts activePersona data builtUp yrs)
              /\ is_eco_alert a = true)
             <-> In a (rule1 activePersona data))
    by (intros a; rewrite <- R, filter_In; tauto).
  assert (S : forall d,
             (In d data /\ spec_ecoRisk d = true)
             <-> In d (filter ecoRisk data))
    by (intros d; rewrite filter_In, spec_ecoRisk_ecoRisk; tauto).
  rewrite (filter_ext _ _ spec_ecoRisk_ecoRisk data), R.
  unfold rule1 in F |- *. cbv zeta in F |- *.
  destruct (filter ecoRisk data) as [|d0 l] eqn:E; simpl in F |- *.
  - split; [split|split].
    + intros (a & Ha & He & _). destruct (proj1 (F a) (conj Ha He)).
    + intros (d & Hd). apply S in Hd. destruct Hd.
    + intros a Ha He. destruct (proj1 (F a) (conj Ha He)).
    + lia.
  - split; [split|split].
    + intros _. exists d0. apply S. now left.
    + intros _.
      match type of F with
      | forall a, _ <-> (?x = a \/ False) =>
          exists x; destruct (proj2 (F x) (or_introl eq_refl)) as [Ha He]
      end.
      split; [exact Ha|]. split; [exact He|reflexivity].
    + intros a Ha He. destruct (proj1 (F a) (conj Ha He)) as [<-|[]].
      split; reflexivity.
    + lia.
Qed.

(** ** Trend extraction *)

Lemma string_cmp_le_iff (s t : string) :
  string_cmp s t <= 0 <-> String_as_OT.compare s t <> Gt.
Proof.
  unfold string_cmp. destruct (String_as_OT.compare s t); split; intros H.
  - discriminate.
  - apply Qle_bool_imp_le. reflexivity.
  - discriminate.
  - apply Qle_bool_imp_le. reflexivity.
  - apply Qle_bool_iff in H. discriminate.
  - congruence.
Qed.

Lemma default_cmp_consistent : consistent default_cmp.
Proof.
  unfold default_cmp. split.
  - intros a b. rewrite !string_cmp_le_iff.
    destruct (String_as_OT.compare_spec (ToString a) (ToString b)) as [E|L|L].
    + left. discriminate.
    + left. discriminate.
    + right. unfold String_as_OT.lt in L. rewrite L. discriminate.
  - intros a b c. rewrite !string_cmp_le_iff. intros Hab Hbc.
    destruct (String_as_OT.compare_spec (ToString a) (ToString b)) as [E|L1|L1];
      [rewrite E; exact Hbc | | congruence].
    destruct (String_as_OT.compare_spec (ToString b) (ToString c)) as [E|L2|L2];
      [rewrite <- E; unfold String_as_OT.lt in L1; rewrite L1; discriminate
      | | congruence].
    assert (L : String_as_OT.lt (ToString a) (ToString c))
      by (etransitivity; eassumption).
    unfold String_as_OT.lt in L. rewrite L. discriminate.
Qed.

Lemma find_all_false {A : Type} (f : A -> bool) (l : list A) :
  (forall x, In x l -> f x = false) -> find f l = None.
Proof.
  induction l as [|x l IH]; intros H; simpl; [reflexivity|].
  rewrite (H x) by now left. apply IH. intros y Hy. apply H. now right.
Qed.

(** X1.  A class trend has one entry per entry of [years], and a year for
    which the table has no row of the class contributes the area 0. *)
Theorem classTrend_aligned_missing_zero (cls : string)
  (timeData : list TimeSeriesPoint) :
  length (classTrend cls timeData) = length (years timeData) /\
  forall (i : nat) (y : Z),
    nth_error (years timeData) i = Some y ->
    (forall d, In d timeData -> ts_year d = y -> ts_lulc_class d <> cls) ->
    nth_error (classTrend cls timeData) i = Some 0.
Proof.
  unfold classTrend. split; [apply length_map|].
  intros i y Hy Hmiss. rewrite nth_error_map, Hy. simpl. f_equal.
  rewrite find_all_false; [reflexivity|].
  intros d Hd. apply andb_false_iff.
  destruct (Z.eqb_spec (ts_year d) y) as [E|N]; [right | now left].
  apply String.eqb_neq. now apply Hmiss.
Qed.

(** X2.  [years] holds every year of the table once, ordered by the
    string renderings of the years. *)
Theorem years_sorted_by_rendering (timeData : list TimeSeriesPoint) :
  NoDup (years timeData) /\
  (forall y, In y (years timeData) <-> In y (map ts_year timeData)) /\
  StronglySorted
    (fun a b => String_as_OT.compare (ToString a) (ToString b) <> Gt)
    (years timeData).
Proof.
  split; [apply years_NoDup|]. split; [apply years_In|].
  apply (StronglySorted_weaken (cmp_le default_cmp)).
  - intros a b H. now apply string_cmp_le_iff.
  - apply js_sort_sorted, default_cmp_consistent.
Qed.

End Properties.

(** * The engine on concrete tables

    The runs below are in the exact arithmetic [Exact]. *)

Ltac q_le := apply Qle_bool_imp_le; vm_compute; reflexivity.

Lemma temporalTransitionData_typed (d : Flow) :
  In d temporalTransitionData ->
  0 <= fl_area d /\ 0 <= fl_confidence d <= 1.
Proof.
  intros Hd. simpl in Hd.
  repeat (destruct Hd as [<- | Hd]; [repeat split; q_le|]).
  destruct Hd.
Qed.

(** The CPRI of the three transitions of the shipped table: 0.58 for
    Agriculture to Built-up, 0.39 for Forest to Built-up, 0.11 for Water
    to Barren, in this order. *)
Example transitionTrends_cpri :
  map cpri transitionTrends
  = [mkFixed false 58 2; mkFixed false 39 2; mkFixed false 11 2].
Proof. vm_compute. reflexivity. Qed.

Lemma cpri_in_unit_interval_witness :
  (forall d, In d temporalTransitionData ->
             0 <= fl_area d /\ 0 <= fl_confidence d <= 1) /\
  Forall (fun e => 0 <= fixed_value (cpri e) <= 1
                   /\ 0 <= ToNumber (cpri e) <= 1) transitionTrends.
Proof.
  split; [exact temporalTransitionData_typed|].
  apply Forall_forall. intros e He.
  exact (cpri_in_unit_interval temporalTransitionData e
           temporalTransitionData_typed He).
Defined.

Lemma projection_at_zero_is_baseline_witness :
  (exists y1 y2 y3,
     y1 <> y2 /\ y1 <> y3 /\ y2 <> y3 /\
     In y1 (map ts_year threeYears) /\ In y2 (map ts_year threeYears) /\
     In y3 (map ts_year threeYears)) /\
  getFutureProjection 0 threeYears
  = Some {| targetYear := 2026;
            projectedArea := mkFixed false 588 1;
            increase := mkFixed false 63 1;
            riskLevel := RiskHigh;
            fp_color := "#F59E0B";
            reduction := None;
            savedArea := None |}.
Proof.
  assert (H : exists y1 y2 y3,
             y1 <> y2 /\ y1 <> y3 /\ y2 <> y3 /\
             In y1 (map ts_year threeYears) /\ In y2 (map ts_year threeYears) /\
             In y3 (map ts_year threeYears)).
  { exists 2020%Z, 2022%Z, 2024%Z. simpl. repeat split; auto; discriminate. }
  split; [exact H|].
  destruct (projection_at_zero_is_baseline threeYears H) as [E _].
  rewrite E. vm_compute. reflexivity.
Defined.

(** At intensity 50 the same series is projected lower, with the saved
    area reported. *)
Example projection_at_fifty :
  getFutureProjection 50 threeYears
  = Some {| targetYear := 2026;
            projectedArea := mkFixed false 569 1;
            increase := mkFixed false 44 1;
            riskLevel := RiskLow;
            fp_color := "#10B981";
            reduction := Some (mkFixed false 30 0);
            savedArea := Some (mkFixed false 19 1) |}.
Proof. vm_compute. reflexivity. Qed.

Lemma transitionTrends_histories (e : Evolution) :
  In e transitionTrends -> history e <> [].
Proof. apply analyze_history_nonempty. Qed.

Lemma survey_allocation_accounts_witness :
  (forall e, In e transitionTrends -> history e <> []) /\
  0 <= 5000 /\
  exists r,
    getBudgetOptimizedSurveys transitionTrends 5000 = Some r /\
    (Z.of_nat (length (selected r)) <= maxSites 5000)%Z /\
    (length (selected r) + deferredCount r
     = length (candidates transitionTrends))%nat /\
    totalCost r = (Z.of_nat (length (selected r)) * surveyCostPerSite)%Z.
Proof.
  split; [exact transitionTrends_histories|].
  assert (H0 : 0 <= 5000) by q_le.
  split; [exact H0|].
  destruct (survey_allocation_accounts transitionTrends 5000
              transitionTrends_histories) as (r & Hr & Hmax & Hsum & Hcost).
  exists r. repeat split; auto.
Defined.

(** C4 as stated fails at the budget -1, which the optimizer would see if
    the input did not clamp it: one site is selected, above
    [floor(-1 / 1200) = -1]. *)
Lemma negative_budget_exceeds_maxSites :
  exists r,
    getBudgetOptimizedSurveys transitionTrends (-1) = Some r /\
    maxSites (-1) = (-1)%Z /\
    length (selected r) = 1%nat /\
    ~ (Z.of_nat (length (selected r)) <= maxSites (-1))%Z.
Proof.
  eexists. split; [vm_compute; reflexivity|].
  split; [vm_compute; reflexivity|].
  split; [reflexivity|]. vm_compute. intros H. now apply H.
Qed.

Lemma nonpositive_budget_selects_nothing_witness :
  0 <= setBudget (Some (-1)%Z) /\
  setBudget (Some (-1)%Z) = 0 /\
  exists r,
    getBudgetOptimizedSurveys transitionTrends (setBudget (Some (-1)%Z))
    = Some r /\ selected r = [].
Proof.
  destruct (nonpositive_budget_selects_nothing transitionTrends
              (Some (-1)%Z)) as [H0 H].
  split; [exact H0|]. apply H. discriminate.
Defined.

(** C5 as stated fails on the optimizer itself: called with the budget -1
    it selects the Forest to Built-up site. *)
Lemma negative_budget_selects_a_site :
  -1 <= 0 /\
  exists r,
    getBudgetOptimizedSurveys transitionTrends (-1) = Some r /\
    map st_from (selected r) = ["Forest"%string] /\
    selected r <> [].
Proof.
  split; [q_le|].
  eexists. split; [vm_compute; reflexivity|].
  split; [reflexivity | discriminate].
Qed.

(** C6.  The code departs from the stated order on a series whose years
    are 9 and 10: the default sort puts 10 first, its rendering "10" being
    below "9" as a string, so that [years] is not ascending and the
    Built-up trend follows that order. *)
Theorem years_sorted_as_strings :
  years relativeYears = [10; 9]%Z /\
  ~ StronglySorted Z.le (years relativeYears) /\
  builtUpTrend relativeYears = [45; 40].
Proof.
  assert (E : years relativeYears = [10; 9]%Z) by (vm_compute; reflexivity).
  split; [exact E|]. split.
  - rewrite E. intros H. inversion H as [|? ? _ Hall]; subst.
    inversion Hall as [|? ? Hle _]; subst. lia.
  - vm_compute. reflexivity.
Qed.

Lemma eco_risk_assessment_spec_witness :
  (exists r, getEcoRiskAssessment (twoYears 100 80 10 5) = Some r /\
             totalEcoLoss (twoYears 100 80 10 5) == 25 /\
             eco_trend r = RapidDegradation) /\
  (exists r, getEcoRiskAssessment (twoYears 100 92 10 8) = Some r /\
             totalEcoLoss (twoYears 100 92 10 8) == 10 /\
             eco_trend r = Declining) /\
  (exists r, getEcoRiskAssessment (twoYears 100 101 10 11) = Some r /\
             totalEcoLoss (twoYears 100 101 10 11) == -2 /\
             eco_trend r = Recovering) /\
  (exists r, getEcoRiskAssessment (twoYears 0 0 10 10) = Some r /\
             totalEcoLoss (twoYears 0 0 10 10) == 0 /\
             eco_trend r = EcoStable /\
             forestLossPct r = mkFixed false 0 1).
Proof.
  assert (E1 : totalEcoLoss (twoYears 100 80 10 5) == 25) by reflexivity.
  assert (E2 : totalEcoLoss (twoYears 100 92 10 8) == 10) by reflexivity.
  assert (E3 : totalEcoLoss (twoYears 100 101 10 11) == -2) by reflexivity.
  assert (E4 : totalEcoLoss (twoYears 0 0 10 10) == 0) by reflexivity.
  repeat apply conj.
  - destruct (getEcoRiskAssessment (twoYears 100 80 10 5)) as [r|] eqn:Hr;
      [|vm_compute in Hr; discriminate].
    destruct (proj2 (eco_risk_assessment_spec (twoYears 100 80 10 5)) r Hr)
      as (_ & _ & H & _).
    exists r. auto.
  - destruct (getEcoRiskAssessment (twoYears 100 92 10 8)) as [r|] eqn:Hr;
      [|vm_compute in Hr; discriminate].
    destruct (proj2 (eco_risk_assessment_spec (twoYears 100 92 10 8)) r Hr)
      as (_ & _ & _ & H & _).
    exists r. auto.
  - destruct (getEcoRiskAssessment (twoYears 100 101 10 11)) as [r|] eqn:Hr;
      [|vm_compute in Hr; discriminate].
    destruct (proj2 (eco_risk_assessment_spec (twoYears 100 101 10 11)) r Hr)
      as (_ & _ & _ & _ & H & _).
    exists r. auto.
  - destruct (getEcoRiskAssessment (twoYears 0 0 10 10)) as [r|] eqn:Hr;
      [|vm_compute in Hr; discriminate].
    destruct (proj2 (eco_risk_assessment_spec (twoYears 0 0 10 10)) r Hr)
      as (_ & _ & _ & _ & _ & H & Hf & _).
    exists r. repeat split; auto.
Defined.

(** A table with a single year has no assessment. *)
Example eco_risk_single_year :
  getEcoRiskAssessment
    [mkPoint 2018 "Forest" 100 (9 # 10); mkPoint 2018 "Water" 10 (9 # 10)]
  = None.
Proof. vm_compute. reflexivity. Qed.

(** A Water to Barren row with a confidence of 0.90 raises the alert. *)
Example water_body_origin_raises_eco_alert :
  map al_title
      (generateGovernanceAlerts policy_maker
         [mkRecord 2023 "Water Body" "Barren" (13 # 10) (9 # 10)] [] [])
  = ["Ecological Risk"%string].
Proof. vm_compute. reflexivity. Qed.

Lemma priority_ranker_deterministic_witness :
  ranker_run policy_maker 0 scenario_all rank_area sampleRecords
    (getRankedData rank_area
       (prioritizedData policy_maker 0 scenario_all sampleRecords)) /\
  map impactScore
      (getRankedData rank_area
         (prioritizedData policy_maker 0 scenario_all sampleRecords))
  = [mkFixed false 218 1; mkFixed false 187 1;
     mkFixed false 23 1; mkFixed false 2 1].
Proof.
  pose proof (getRankedData_run policy_maker 0 scenario_all rank_area
                sampleRecords) as R.
  split; [exact R|].
  destruct (priority_ranker_deterministic policy_maker 0 scenario_all
              rank_area sampleRecords _ _ R R) as (_ & _ & E & _).
  vm_compute. reflexivity.
Defined.

Lemma velocity_sentinel_matches_flat_trend_witness :
  getVelocityMetrics [40; 40] [2022; 2024]%Z = velocitySentinel /\
  getVelocityMetrics [40; 40; 40] [2020; 2022; 2024]%Z
  = {| velocity := JStr (mkFixed false 0 1);
       acceleration := JStr (mkFixed false 0 2);
       vm_status := VelStable;
       vm_color := "#6B7280" |}.
Proof.
  destruct velocity_sentinel_matches_flat_trend as [Hshort Hflat].
  split.
  - apply Hshort. simpl. lia.
  - apply (Hflat [40; 40; 40] [2020; 2022; 2024]%Z); simpl;
      [lia | reflexivity | reflexivity].
Defined.

(** C10 as stated fails on a flat series of three points: status Stable,
    velocity and acceleration zero, and yet a result other than the
    sentinel, whose two fields are the Number 0 and not the strings "0.0"
    and "0.00". *)
Lemma flat_trend_differs_from_sentinel :
  vm_status (getVelocityMetrics [40; 40; 40] [2020; 2022; 2024]%Z)
  = VelStable /\
  value_of (velocity (getVelocityMetrics [40; 40; 40] [2020; 2022; 2024]%Z))
  == 0 /\
  value_of (acceleration (getVelocityMetrics [40; 40; 40] [2020; 2022; 2024]%Z))
  == 0 /\
  getVelocityMetrics [40; 40; 40] [2020; 2022; 2024]%Z
  <> getVelocityMetrics [40; 40] [2022; 2024]%Z.
Proof.
  repeat split; try reflexivity.
  vm_compute. discriminate.
Qed.

(** * Further properties of the engine *)

Section Coverage.
Context {N64 : Number64}.

Lemma js_ge_iff (x y : Q) : js_ge x y = true <-> y <= x.
Proof. apply js_le_iff. Qed.

(** ** [toFixed] is monotone *)

Lemma pow10_pos (f : nat) : 0 < pow10 f.
Proof.
  unfold pow10. change 0 with (inject_Z 0). rewrite <- Zlt_Qlt.
  apply Z.pow_pos_nonneg; lia.
Qed.

Lemma toFixed_mag_nonneg (f : nat) (x : Q) : (0 <= fx_mag (toFixed f x))%Z.
Proof.
  unfold toFixed. cbn [fx_mag]. pose proof (pow10_pos f) as Hp.
  assert (H : forall a, 0 <= a -> (0 <= Qfloor (a * pow10 f + (1 # 2)))%Z).
  { intros a Ha. apply (Qfloor_resp_le 0). nra. }
  apply H. destruct (js_lt x 0) eqn:E.
  - apply js_lt_iff in E. lra.
  - apply js_lt_false_iff in E. lra.
Qed.

Lemma toFixed_mono (f : nat) (x y : Q) :
  x <= y -> fixed_value (toFixed f x) <= fixed_value (toFixed f y).
Proof.
  intros Hxy. pose proof (pow10_pos f) as Hp.
  pose proof (toFixed_mag_nonneg f x) as Mx.
  pose proof (toFixed_mag_nonneg f y) as My.
  unfold fixed_value. unfold toFixed in *. cbn [fx_neg fx_mag fx_digits] in *.
  unfold Qdiv. apply Qmult_le_compat_r;
    [|apply Qinv_le_0_compat, Qlt_le_weak, Hp].
  rewrite Zle_Qle in Mx, My. change (inject_Z 0) with 0 in Mx, My.
  destruct (js_lt x 0) eqn:Ex, (js_lt y 0) eqn:Ey.
  - apply js_lt_iff in Ex. apply js_lt_iff in Ey.
    apply Qopp_le_compat. rewrite <- Zle_Qle. apply Qfloor_resp_le. nra.
  - lra.
  - apply js_lt_false_iff in Ex. apply js_lt_iff in Ey. lra.
  - rewrite <- Zle_Qle. apply Qfloor_resp_le. nra.
Qed.

(** ** The groups of the transition analyzer *)

Lemma group_push_keys (key : string) (d : Flow)
  (groups : list (string * list Flow)) (k : string) :
  In k (map fst (group_push key d groups)) <->
  k = key \/ In k (map fst groups).
Proof.
  induction groups as [|[k0 v0] groups IH]; simpl.
  - intuition.
  - destruct (String.eqb_spec k0 key) as [E|N]; simpl.
    + subst. intuition.
    + rewrite IH. intuition.
Qed.

Lemma group_push_NoDup (key : string) (d : Flow)
  (groups : list (string * list Flow)) :
  NoDup (map fst groups) -> NoDup (map fst (group_push key d groups)).
Proof.
  induction groups as [|[k0 v0] groups IH]; simpl; intros H.
  - repeat constructor. intros [].
  - inversion H as [|? ? Hn Hnd]; subst.
    destruct (String.eqb_spec k0 key) as [E|N]; simpl.
    + now constructor.
    + constructor; [|now apply IH].
      rewrite group_push_keys. intros [E | Hin]; [now subst|contradiction].
Qed.

Lemma group_push_perm (key : string) (d : Flow)
  (groups : list (string * list Flow)) :
  Permutation (flat_map snd (group_push key d groups))
              (d :: flat_map snd groups).
Proof.
  induction groups as [|[k0 v0] groups IH]; simpl.
  - apply Permutation_refl.
  - destruct (String.eqb k0 key); simpl.
    + rewrite <- app_assoc. simpl.
      apply Permutation_sym, Permutation_middle.
    + eapply perm_trans; [apply Permutation_app_head, IH|].
      apply Permutation_sym, Permutation_middle.
Qed.

Lemma group_push_keyed (key : string) (d : Flow)
  (groups : list (string * list Flow)) :
  transitionKey d = key ->
  (forall k recs, In (k, recs) groups ->
                  forall x, In x recs -> transitionKey x = k) ->
  forall k recs, In (k, recs) (group_push key d groups) ->
                 forall x, In x recs -> transitionKey x = k.
Proof.
  intros Hk Hg k recs Hin x Hx.
  induction groups as [|[k0 v0] groups IH]; simpl in Hin.
  - destruct Hin as [E | []]. inversion E; subst.
    destruct Hx as [<- | []]. reflexivity.
  - destruct (String.eqb_spec k0 key) as [E|N].
    + destruct Hin as [E' | Hin].
      * inversion E'; subst. apply in_app_or in Hx.
        destruct Hx as [Hx | [<- | []]]; [|reflexivity].
        eapply Hg; [left; reflexivity | exact Hx].
      * apply (Hg k recs); [now right | exact Hx].
    + destruct Hin as [E' | Hin].
      * apply (Hg k recs); [now left | exact Hx].
      * apply IH; [|exact Hin]. intros k' r' H'. apply Hg. now right.
Qed.

(** The groups partition the table by key. *)
Lemma groupByKey_spec (data : list Flow) :
  Permutation (flat_map snd (groupByKey data)) data /\
  NoDup (map fst (groupByKey data)) /\
  forall k recs, In (k, recs) (groupByKey data) ->
                 forall x, In x recs -> transitionKey x = k.
Proof.
  unfold groupByKey.
  assert (G : forall (l : list Flow) (groups : list (string * list Flow)),
             NoDup (map fst groups) ->
             (forall k recs, In (k, recs) groups ->
                             forall x, In x recs -> transitionKey x = k) ->
             let out := fold_left (fun groups d =>
                          group_push (transitionKey d) d groups) l groups in
             Permutation (flat_map snd out) (flat_map snd groups ++ l) /\
             NoDup (map fst out) /\
             forall k recs, In (k, recs) out ->
                            forall x, In x recs -> transitionKey x = k).
  { induction l as [|d l IH]; intros groups Hnd Hk; simpl.
    - rewrite app_nil_r. auto using Permutation_refl.
    - destruct (IH (group_push (transitionKey d) d groups)) as (P & N & K).
      + now apply group_push_NoDup.
      + now apply group_push_keyed.
      + split; [|split; assumption].
        eapply perm_trans; [exact P|].
        eapply perm_trans; [apply Permutation_app_tail, group_push_perm|].
        simpl. apply Permutation_middle. }
  destruct (G data [] (NoDup_nil _) (fun _ _ H => match H with end))
    as (P & N & K).
  simpl in P. auto.
Qed.

Lemma flat_map_history_evolutions (groups : list (string * list Flow)) :
  Permutation
    (flat_map history (map (fun g => analyzeGroup (fst g) (snd g)) groups))
    (flat_map snd groups).
Proof.
  induction groups as [|[k recs] groups IH]; simpl; [constructor|].
  apply Permutation_app; [|exact IH].
  apply Permutation_sym, js_sort_perm.
Qed.

(** X4.  The histories of the evolutions partition the table: every row
    is in the history of exactly one evolution, and no history holds
    anything else. *)
Theorem histories_partition_data (data : list Flow) :
  Permutation (flat_map history (analyzeTransitionEvolution data)) data.
Proof.
  unfold analyzeTransitionEvolution, evolutions.
  eapply perm_trans.
  - apply Permutation_flat_map, Permutation_sym, js_sort_perm.
  - eapply perm_trans; [apply flat_map_history_evolutions|].
    apply groupByKey_spec.
Qed.

(** X5.  Every evolution carries the key of all the rows of its history,
    its history is not empty and is ordered by year, its latest flow is
    the area of the last row, and no two evolutions share a key. *)
Theorem evolutions_keyed_and_ordered (data : list Flow) :
  NoDup (map transition (analyzeTransitionEvolution data)) /\
  forall e, In e (analyzeTransitionEvolution data) ->
    history e <> [] /\
    (forall d, In d (history e) -> transitionKey d = transition e) /\
    StronglySorted (fun a b => (fl_year a <= fl_year b)%Z) (history e) /\
    latestFlow e = num (fl_area (last (history e) blankFlow)).
Proof.
  destruct (groupByKey_spec data) as (_ & Hnd & Hkey).
  split.
  - unfold analyzeTransitionEvolution.
    eapply Permutation_NoDup;
      [apply Permutation_map, js_sort_perm|].
    unfold evolutions. rewrite map_map. exact Hnd.
  - intros e He. split; [now apply (analyze_history_nonempty data)|].
    unfold analyzeTransitionEvolution in He. apply js_sort_In in He.
    unfold evolutions in He. apply in_map_iff in He.
    destruct He as ([k recs] & <- & Hin).
    unfold analyzeGroup. cbn [history transition latestFlow fst snd].
    repeat split.
    + intros d Hd. apply js_sort_In in Hd. exact (Hkey k recs Hin d Hd).
    + apply (StronglySorted_weaken (cmp_le by_year)).
      * intros a b H. unfold cmp_le, by_year in H.
        change 0 with (inject_Z 0) in H. rewrite <- Zle_Qle in H. lia.
      * apply js_sort_sorted, by_year_consistent.
Qed.

Lemma fdiv_self (x : Q) : 0 < x -> fdiv x x = 1.
Proof.
  intros Hx. unfold fdiv. rewrite (rnd_compat (x / x) 1); [apply rnd_1|].
  apply Qmult_inv_r. lra.
Qed.

Lemma js_sort_singleton {A : Type} (cmp : A -> A -> Q) (l : list A) (d : A) :
  js_sort cmp l = [d] -> l = [d].
Proof.
  intros H. pose proof (js_sort_length cmp l) as Hl. rewrite H in Hl.
  destruct l as [|x [|y l]]; simpl in Hl; try discriminate.
  simpl in H. exact H.
Qed.

(** X6.  A transition seen in a single year has the deviation ratio 1.0,
    no anomaly and a Stable trend. *)
Theorem single_year_transition_is_normal (data : list Flow)
  (e : Evolution) (d : Flow) :
  In e (analyzeTransitionEvolution data) ->
  history e = [d] ->
  deviationRatio e = mkFixed false 10 1 /\
  anomaly e = Normal /\
  trend e = TrendStable.
Proof.
  intros He Hh. unfold analyzeTransitionEvolution in He.
  apply js_sort_In in He. unfold evolutions in He. apply in_map_iff in He.
  destruct He as ([k recs] & <- & _). cbn [fst snd] in *.
  unfold analyzeGroup in Hh. cbn [history] in Hh.
  apply js_sort_singleton in Hh. subst recs.
  unfold analyzeGroup. cbn [deviationRatio anomaly trend].
  change (js_sort by_year [d]) with [d].
  change (last [d] blankFlow) with d.
  change (js_slice 0 (Some (Z.of_nat (length [d]) - 1)%Z) [d])
    with (@nil Flow).
  change (0 <? length (@nil Flow))%nat with false. cbv iota.
  assert (R : (if js_gt (num (fl_area d)) 0
               then fdiv (num (fl_area d)) (num (fl_area d)) else 1) = 1).
  { destruct (js_gt (num (fl_area d)) 0) eqn:E; [|reflexivity].
    apply js_gt_iff in E. now apply fdiv_self. }
  rewrite R. split; [reflexivity|]. split; [|reflexivity].
  unfold anomaly_classify.
  change (js_gt 1 2) with false. cbv iota.
  assert (F : js_gt 1 (num (13 # 10)) = false).
  { apply js_lt_false_iff. unfold num. apply rnd_ge_1. lra. }
  now rewrite F.
Qed.

Lemma readiness_field_iff (c : Fixed) :
  js_lt (ToNumber c) (num (45 # 100))
  = match fst (readiness_classify c) with
    | FieldValidation => true
    | _ => false
    end.
Proof.
  unfold readiness_classify.
  assert (M : num (45 # 100) <= num (75 # 100))
    by (unfold num; apply rnd_mono; lra).
  destruct (js_ge (ToNumber c) (num (75 # 100))) eqn:E1.
  - apply js_ge_iff in E1. cbn [fst]. apply js_lt_false_iff. lra.
  - destruct (js_ge (ToNumber c) (num (45 # 100))) eqn:E2; cbn [fst].
    + apply js_ge_iff in E2. now apply js_lt_false_iff.
    + unfold js_ge, js_le in E2. unfold js_lt. now rewrite E2.
Qed.

(** X7.  The survey candidates are exactly the evolutions that the
    analyzer labels Field Validation, in the same order. *)
Theorem candidates_are_field_validation (data : list Flow) :
  candidates (analyzeTransitionEvolution data)
  = filter (fun e => match readiness e with
                     | FieldValidation => true
                     | _ => false
                     end)
           (analyzeTransitionEvolution data).
Proof.
  unfold candidates. apply filter_ext_in. intros e He.
  unfold analyzeTransitionEvolution in He. apply js_sort_In in He.
  unfold evolutions in He. apply in_map_iff in He.
  destruct He as ([k recs] & <- & _).
  unfold analyzeGroup. cbn [cpri readiness]. apply readiness_field_iff.
Qed.

(** ** The order of the survey selection *)

Lemma mapM_Forall2 {A B : Type} (f : A -> option B) (l : list A) (r : list B) :
  mapM f l = Some r -> Forall2 (fun x y => f x = Some y) l r.
Proof.
  revert r; induction l as [|x l IH]; intros r; simpl.
  - intros H; inversion H; constructor.
  - destruct (f x) eqn:E; [|discriminate].
    destruct (mapM f l) as [ys|]; [|discriminate].
    intros H; inversion H; subst. constructor; auto.
Qed.

Lemma Forall2_In_r {A B : Type} (R : A -> B -> Prop) (l : list A)
  (r : list B) (y : B) :
  Forall2 R l r -> In y r -> exists x, In x l /\ R x y.
Proof.
  induction 1 as [|a b l r Hab _ IH]; intros Hy; [destruct Hy|].
  destruct Hy as [<- | Hy].
  - exists a. split; [now left | exact Hab].
  - destruct (IH Hy) as (x & Hx & HR). exists x. split; [now right | exact HR].
Qed.

Lemma Forall2_In_l {A B : Type} (R : A -> B -> Prop) (l : list A)
  (r : list B) (x : A) :
  Forall2 R l r -> In x l -> exists y, In y r /\ R x y.
Proof.
  induction 1 as [|a b l r Hab _ IH]; intros Hx; [destruct Hx|].
  destruct Hx as [<- | Hx].
  - exists b. split; [now left | exact Hab].
  - destruct (IH Hx) as (y & Hy & HR). exists y. split; [now right | exact HR].
Qed.

Lemma Forall2_sorted {A B : Type} (R : A -> B -> Prop)
  (S : A -> A -> Prop) (T : B -> B -> Prop) (l : list A) (r : list B) :
  (forall a b a' b', R a b -> R a' b' -> S a a' -> T b b') ->
  Forall2 R l r -> StronglySorted S l -> StronglySorted T r.
Proof.
  intros HT H. induction H as [|a b l r Hab H IH]; intros Hs; [constructor|].
  inversion Hs as [|? ? Hs' Hall]; subst.
  constructor; [now apply IH|].
  rewrite Forall_forall in *. intros b' Hb'.
  destruct (Forall2_In_r _ _ _ _ H Hb') as (a' & Ha' & HR). eauto.
Qed.

Lemma sorted_app_inv {A : Type} (R : A -> A -> Prop) (l1 l2 : list A) :
  StronglySorted R (l1 ++ l2) ->
  StronglySorted R l1 /\ forall a b, In a l1 -> In b l2 -> R a b.
Proof.
  induction l1 as [|x l1 IH]; simpl; intros H.
  - split; [constructor | intros a b []].
  - inversion H as [|? ? Hs Hall]; subst.
    destruct (IH Hs) as [S1 Hab]. rewrite Forall_forall in Hall. split.
    + constructor; [exact S1|]. rewrite Forall_forall. intros y Hy.
      apply Hall, in_or_app. now left.
    + intros a b [<- | Ha] Hb; [apply Hall, in_or_app; now right | auto].
Qed.

Lemma slice_head_firstn {A : Type} (m : Z) (l : list A) :
  js_slice 0 (Some m) l = firstn (rel_index (length l) m) l.
Proof.
  unfold js_slice. cbv zeta.
  assert (H0 : rel_index (length l) 0 = 0%nat) by reflexivity.
  rewrite H0. simpl skipn. now rewrite Nat.sub_0_r.
Qed.

Lemma surveyTask_fields (s : Evolution) (t : SurveyTask) :
  surveyTask s = Some t ->
  st_id t = transition s /\ st_area_sq_km t = latestFlow s.
Proof.
  unfold surveyTask. destruct (rev (history s)); [discriminate|].
  intros H; inversion H; subst. split; reflexivity.
Qed.

Lemma by_flow_desc_consistent : consistent by_flow_desc.
Proof. exact (desc_consistent latestFlow). Qed.

(** X8.  The selected sites are candidates, listed by decreasing flow; a
    candidate with a larger flow than a selected site is selected too;
    and when the budget pays for all the candidates none is deferred. *)
Theorem selected_sites_are_top_candidates (transitionTrends : list Evolution)
  (budget : Q) (r : SurveyAllocation) :
  getBudgetOptimizedSurveys transitionTrends budget = Some r ->
  (forall t, In t (selected r) ->
     exists e, In e (candidates transitionTrends) /\
               st_id t = transition e /\ st_area_sq_km t = latestFlow e) /\
  StronglySorted
    (fun a b => num (st_area_sq_km b) <= num (st_area_sq_km a))
    (selected r) /\
  (forall t e, In t (selected r) -> In e (candidates transitionTrends) ->
     num (st_area_sq_km t) < num (latestFlow e) ->
     exists t', In t' (selected r) /\
                st_id t' = transition e /\ st_area_sq_km t' = latestFlow e) /\
  ((Z.of_nat (length (candidates transitionTrends)) <= maxSites budget)%Z ->
   deferredCount r = 0%nat /\
   length (selected r) = length (candidates transitionTrends)).
Proof.
  unfold getBudgetOptimizedSurveys. cbv zeta.
  set (ranked := js_sort by_flow_desc (candidates transitionTrends)).
  destruct (mapM surveyTask (js_slice 0 (Some (maxSites budget)) ranked))
    as [tasks|] eqn:Ht; [|discriminate].
  intros H; inversion H; subst r; clear H.
  cbn [selected deferredCount].
  pose proof (mapM_Forall2 _ _ _ Ht) as F2.
  pose proof (mapM_length _ _ _ Ht) as Hlen.
  rewrite slice_head_firstn in F2, Hlen.
  set (k := rel_index (length ranked) (maxSites budget)) in *.
  assert (Hs : StronglySorted (cmp_le by_flow_desc) ranked)
    by apply js_sort_sorted, by_flow_desc_consistent.
  rewrite <- (firstn_skipn k ranked) in Hs.
  apply sorted_app_inv in Hs. destruct Hs as [Hs1 Hs12].
  assert (Hle : forall a b, cmp_le by_flow_desc a b ->
                            num (latestFlow b) <= num (latestFlow a)).
  { intros a b Hab. unfold cmp_le, by_flow_desc, num in Hab.
    now apply fsub_nonpos_iff in Hab. }
  repeat split.
  - intros t Ht'. destruct (Forall2_In_r _ _ _ _ F2 Ht') as (e & He & Hf).
    exists e. split; [|now apply surveyTask_fields].
    apply firstn_In in He. now apply js_sort_In in He.
  - eapply Forall2_sorted; [|exact F2|exact Hs1].
    intros a b a' b' Hab Hab' Haa'. cbv beta in *.
    apply surveyTask_fields in Hab. apply surveyTask_fields in Hab'.
    destruct Hab as [_ ->]. destruct Hab' as [_ ->]. now apply Hle.
  - intros t e Ht' He Hlt.
    destruct (Forall2_In_r _ _ _ _ F2 Ht') as (s & Hs & Hf).
    apply surveyTask_fields in Hf. destruct Hf as [_ Hf]. rewrite Hf in Hlt.
    assert (Hin : In e ranked) by now apply js_sort_In.
    rewrite <- (firstn_skipn k ranked) in Hin. apply in_app_or in Hin.
    destruct Hin as [Hin | Hin].
    + destruct (Forall2_In_l _ _ _ _ F2 Hin) as (t' & Ht'' & Hf').
      exists t'. split; [exact Ht''|now apply surveyTask_fields].
    + pose proof (Hle _ _ (Hs12 _ _ Hs Hin)) as Hc. lra.
  - rewrite slice_tail_length. fold k.
    assert (Hk : k = length ranked).
    { unfold k, rel_index.
      assert (Hr : length ranked = length (candidates transitionTrends))
        by apply js_sort_length.
      destruct (maxSites budget <? 0)%Z eqn:E; [apply Z.ltb_lt in E; lia|].
      apply Nat.min_r. lia. }
    lia.
  - rewrite Hlen, length_firstn. fold k.
    assert (Hr : length ranked = length (candidates transitionTrends))
      by apply js_sort_length.
    unfold k, rel_index.
    destruct (maxSites budget <? 0)%Z eqn:E; [apply Z.ltb_lt in E; lia|].
    lia.
Qed.

(** ** Alerts *)

Lemma filter_all_false {A : Type} (f : A -> bool) (l : list A) :
  (forall x, In x l -> f x = false) -> filter f l = [].
Proof.
  induction l as [|x l IH]; intros H; simpl; [reflexivity|].
  rewrite (H x) by now left. apply IH. intros y Hy. apply H. now right.
Qed.

Lemma rule1_spec (activePersona : Persona) (data : list TransitionRecord)
  (a : Alert) :
  In a (rule1 activePersona data) ->
  al_type a = high /\ is_eco_alert a = true /\ incl (al_items a) data.
Proof.
  unfold rule1. cbv zeta.
  destruct (0 <? length (filter ecoRisk data))%nat; [|intros []].
  intros [<- | []]. cbn [al_type al_items].
  split; [reflexivity|]. split; [destruct activePersona; reflexivity|].
  intros d Hd. apply filter_In in Hd. tauto.
Qed.

Lemma rule2_spec (activePersona : Persona) (data : list TransitionRecord)
  (a : Alert) :
  In a (rule2 activePersona data) ->
  al_type a = medium /\ is_sprawl_alert a = true /\ incl (al_items a) data.
Proof.
  unfold rule2. cbv zeta.
  match goal with |- context [js_gt ?x 5] => destruct (js_gt x 5) end;
    [|intros []].
  intros [<- | []]. cbn [al_type al_items].
  split; [reflexivity|]. split; [destruct activePersona; reflexivity|].
  intros d Hd. apply filter_In in Hd. tauto.
Qed.

Lemma rule3_spec (data : list TransitionRecord) (a : Alert) :
  In a (rule3 data) ->
  al_type a = low /\ is_gap_alert a = true /\ incl (al_items a) data.
Proof.
  unfold rule3. cbv zeta.
  match goal with |- context [(2 <? ?n)%nat] => destruct (2 <? n)%nat end;
    [|intros []].
  intros [<- | []]. cbn [al_type al_items].
  split; [reflexivity|]. split; [reflexivity|].
  intros d Hd. apply filter_In in Hd. tauto.
Qed.

Lemma rule4_spec (vals : list Q) (yrs : list Z) (a : Alert) :
  In a (rule4 vals yrs) ->
  (4 <= length vals)%nat /\ is_growth_alert a = true /\ al_items a = [].
Proof.
  unfold rule4. destruct (4 <=? length vals)%nat eqn:E4; [|intros []].
  apply Nat.leb_le in E4. cbv zeta.
  match goal with |- context [js_gt ?x (3 # 2)] =>
    destruct (js_gt x (3 # 2));
      [|destruct (js_gt x (num (12 # 10))); [|intros []]]
  end; intros [<- | []]; auto.
Qed.

Lemma rule_lengths (activePersona : Persona) (data : list TransitionRecord)
  (vals : list Q) (yrs : list Z) :
  (length (rule1 activePersona data) <= 1)%nat /\
  (length (rule2 activePersona data) <= 1)%nat /\
  (length (rule3 data) <= 1)%nat /\
  (length (rule4 vals yrs) <= 1)%nat.
Proof.
  repeat split.
  - unfold rule1. cbv zeta.
    destruct (0 <? length (filter ecoRisk data))%nat; simpl; lia.
  - unfold rule2. cbv zeta.
    match goal with |- context [js_gt ?x 5] => destruct (js_gt x 5) end;
      simpl; lia.
  - unfold rule3. cbv zeta.
    match goal with |- context [(2 <? ?n)%nat] => destruct (2 <? n)%nat end;
      simpl; lia.
  - unfold rule4. destruct (4 <=? length vals)%nat; [|simpl; lia]. cbv zeta.
    match goal with |- context [js_gt ?x (3 # 2)] =>
      destruct (js_gt x (3 # 2));
        [|destruct (js_gt x (num (12 # 10)))]
    end; simpl; lia.
Qed.

(** X9.  The alert engine raises at most four alerts; every row that an
    alert lists is a row of its input; an ecological alert is of high
    severity, a sprawl alert of medium and a data-gap alert of low
    severity; a growth alert lists no row and needs a Built-up trend of
    four points. *)
Theorem alerts_are_bounded_and_list_input_rows (activePersona : Persona)
  (data : list TransitionRecord) (builtUp : list Q) (yrs : list Z) :
  (length (generateGovernanceAlerts activePersona data builtUp yrs) <= 4)%nat /\
  forall a, In a (generateGovernanceAlerts activePersona data builtUp yrs) ->
    incl (al_items a) data /\
    (is_eco_alert a = true /\ al_type a = high \/
     is_sprawl_alert a = true /\ al_type a = medium \/
     is_gap_alert a = true /\ al_type a = low \/
     is_growth_alert a = true /\ al_items a = []
     /\ (4 <= length builtUp)%nat).
Proof.
  unfold generateGovernanceAlerts. split.
  - rewrite !length_app.
    destruct (rule_lengths activePersona data builtUp yrs) as (A & B & C & D).
    lia.
  - intros a Ha. apply in_app_or in Ha. destruct Ha as [Ha | Ha].
    { apply rule1_spec in Ha. tauto. }
    apply in_app_or in Ha. destruct Ha as [Ha | Ha].
    { apply rule2_spec in Ha. tauto. }
    apply in_app_or in Ha. destruct Ha as [Ha | Ha].
    { apply rule3_spec in Ha. tauto. }
    apply rule4_spec in Ha. destruct Ha as (H4 & Hg & Hi).
    split; [rewrite Hi; intros x []|]. tauto.
Qed.

Lemma filteredData_In (minConfidence : Q) (activeScenario : Scenario)
  (data : list TransitionRecord) (d : TransitionRecord) :
  In d (filteredData minConfidence activeScenario data) ->
  In d data /\ minConfidence <= num (tr_confidence d) /\
  (activeScenario = scenario_urban -> tr_to d = "Built-up"%string) /\
  (activeScenario = scenario_eco ->
   (tr_from d = "Forest"%string \/ tr_from d = "Water Body"%string) /\
   (tr_to d = "Built-up"%string \/ tr_to d = "Barren"%string)).
Proof.
  unfold filteredData. intros H. apply filter_In in H. destruct H as [Hin Hp].
  split; [exact Hin|].
  destruct (js_lt (num (tr_confidence d)) minConfidence) eqn:E;
    [discriminate|].
  apply js_lt_false_iff in E. split; [exact E|].
  destruct activeScenario; split; intros Hs; try discriminate.
  - now apply String.eqb_eq.
  - apply andb_true_iff in Hp. destruct Hp as [Hf Ht].
    apply orb_true_iff in Hf. apply orb_true_iff in Ht.
    rewrite !String.eqb_eq in Hf, Ht. tauto.
Qed.

(** X10.  The alerts are computed from the filtered rows: with a minimum
    confidence of 0.60 or more no data-gap alert is raised, and in the
    ecological scenario no sprawl alert is raised. *)
Theorem filters_silence_alerts (activePersona : Persona) (minConfidence : Q)
  (activeScenario : Scenario) (data : list TransitionRecord)
  (builtUp : list Q) (yrs : list Z) :
  (num (6 # 10) <= minConfidence ->
   forall a,
     In a (generateGovernanceAlerts activePersona
             (filteredData minConfidence activeScenario data) builtUp yrs) ->
     is_gap_alert a = false) /\
  (activeScenario = scenario_eco ->
   forall a,
     In a (generateGovernanceAlerts activePersona
             (filteredData minConfidence activeScenario data) builtUp yrs) ->
     is_sprawl_alert a = false).
Proof.
  set (rows := filteredData minConfidence activeScenario data).
  split.
  - intros Hmin a Ha.
    assert (R3 : rule3 rows = []).
    { unfold rule3. cbv zeta.
      assert (E : filter (fun d => js_lt (num (tr_confidence d))
                                         (num (6 # 10))) rows = []).
      { apply filter_all_false. intros d Hd.
        apply filteredData_In in Hd. destruct Hd as (_ & Hc & _).
        apply js_lt_false_iff. lra. }
      now rewrite E. }
    unfold generateGovernanceAlerts in Ha. rewrite R3 in Ha. simpl in Ha.
    apply in_app_or in Ha. destruct Ha as [Ha | Ha].
    { unfold rule1 in Ha. cbv zeta in Ha.
      destruct (0 <? length (filter ecoRisk rows))%nat; [|destruct Ha].
      destruct Ha as [<- | []]. destruct activePersona; reflexivity. }
    apply in_app_or in Ha. destruct Ha as [Ha | Ha].
    { unfold rule2 in Ha. cbv zeta in Ha.
      match type of Ha with context [js_gt ?x 5] => destruct (js_gt x 5) end;
        [|destruct Ha].
      destruct Ha as [<- | []]. destruct activePersona; reflexivity. }
    unfold rule4 in Ha. destruct (4 <=? length builtUp)%nat; [|destruct Ha].
    cbv zeta in Ha.
    match type of Ha with context [js_gt ?x (3 # 2)] =>
      destruct (js_gt x (3 # 2));
        [|destruct (js_gt x (num (12 # 10))); [|destruct Ha]]
    end; destruct Ha as [<- | []]; reflexivity.
  - intros Hs a Ha.
    assert (R2 : rule2 activePersona rows = []).
    { unfold rule2. cbv zeta.
      assert (E : filter (fun d => String.eqb (tr_from d) "Agriculture"
                                   && String.eqb (tr_to d) "Built-up") rows = []).
      { apply filter_all_false. intros d Hd.
        apply filteredData_In in Hd. destruct Hd as (_ & _ & _ & He).
        destruct (He Hs) as [[Hf | Hf] _]; rewrite Hf; reflexivity. }
      rewrite E. reflexivity. }
    unfold generateGovernanceAlerts in Ha. rewrite R2 in Ha. simpl in Ha.
    apply in_app_or in Ha. destruct Ha as [Ha | Ha].
    { unfold rule1 in Ha. cbv zeta in Ha.
      destruct (0 <? length (filter ecoRisk rows))%nat; [|destruct Ha].
      destruct Ha as [<- | []]. destruct activePersona; reflexivity. }
    apply in_app_or in Ha. destruct Ha as [Ha | Ha].
    { unfold rule3 in Ha. cbv zeta in Ha.
      match type of Ha with context [(2 <? ?n)%nat] =>
        destruct (2 <? n)%nat end; [|destruct Ha].
      destruct Ha as [<- | []]. reflexivity. }
    unfold rule4 in Ha. destruct (4 <=? length builtUp)%nat; [|destruct Ha].
    cbv zeta in Ha.
    match type of Ha with context [js_gt ?x (3 # 2)] =>
      destruct (js_gt x (3 # 2));
        [|destruct (js_gt x (num (12 # 10))); [|destruct Ha]]
    end; destruct Ha as [<- | []]; reflexivity.
Qed.

(** ** Ranking *)

Lemma getRankedData_perm (rankMode : RankMode) (l : list Prioritized) :
  Permutation l (getRankedData rankMode l).
Proof.
  destruct rankMode; simpl;
    [apply Permutation_refl | apply js_sort_perm | apply js_sort_perm].
Qed.

Lemma map_record_prioritize (activePersona : Persona)
  (l : list TransitionRecord) :
  map pr_record (map (prioritize activePersona) l) = l.
Proof.
  rewrite map_map. unfold prioritize. cbn [pr_record]. apply map_id.
Qed.

(** X11.  Whatever the rank mode, the ranked list holds exactly the rows
    that pass the filters, each once and each with the score and weight
    of the persona; in particular no row below the minimum confidence is
    ranked. *)
Theorem ranking_keeps_the_filtered_rows (activePersona : Persona)
  (minConfidence : Q) (activeScenario : Scenario) (rankMode : RankMode)
  (data : list TransitionRecord) :
  Permutation
    (map pr_record
       (getRankedData rankMode
          (prioritizedData activePersona minConfidence activeScenario data)))
    (filteredData minConfidence activeScenario data) /\
  forall p,
    In p (getRankedData rankMode
            (prioritizedData activePersona minConfidence activeScenario data)) ->
    p = prioritize activePersona (pr_record p) /\
    In (pr_record p) data /\
    minConfidence <= num (tr_confidence (pr_record p)).
Proof.
  assert (P : Permutation
                (getRankedData rankMode
                   (prioritizedData activePersona minConfidence
                                    activeScenario data))
                (map (prioritize activePersona)
                     (filteredData minConfidence activeScenario data))).
  { apply Permutation_sym. eapply perm_trans; [|apply getRankedData_perm].
    unfold prioritizedData. apply js_sort_perm. }
  split.
  - pose proof (Permutation_map pr_record P) as Q.
    now rewrite map_record_prioritize in Q.
  - intros p Hp. apply (Permutation_in _ P) in Hp.
    apply in_map_iff in Hp. destruct Hp as (d & <- & Hd).
    split; [reflexivity|]. cbn [prioritize pr_record].
    apply filteredData_In in Hd. tauto.
Qed.

Lemma StronglySorted_filter {A : Type} (R : A -> A -> Prop) (f : A -> bool)
  (l : list A) :
  StronglySorted R l -> StronglySorted R (filter f l).
Proof.
  induction 1 as [|x l Hs IH Hall]; simpl; [constructor|].
  destruct (f x); [|exact IH].
  constructor; [exact IH|].
  rewrite Forall_forall in *. intros y Hy. apply filter_In in Hy.
  apply Hall. tauto.
Qed.

Lemma prioritized_sorted (activePersona : Persona) (minConfidence : Q)
  (activeScenario : Scenario) (data : list TransitionRecord) :
  StronglySorted
    (fun a b => ToNumber (impactScore b) <= ToNumber (impactScore a))
    (prioritizedData activePersona minConfidence activeScenario data).
Proof.
  unfold prioritizedData.
  apply (StronglySorted_weaken (cmp_le by_impact_desc)).
  - intros a b H. unfold cmp_le, by_impact_desc, ToNumber in H.
    now apply fsub_nonpos_iff in H.
  - apply js_sort_sorted, by_impact_desc_consistent.
Qed.

(** X12.  The default ranking is by non-increasing impact score.  The
    ranking by area is by non-increasing area, and rows of equal area stay
    in the order of their impact scores; likewise for the ranking by
    confidence. *)
Theorem rankings_are_ordered (activePersona : Persona) (minConfidence : Q)
  (activeScenario : Scenario) (data : list TransitionRecord) :
  StronglySorted
    (fun a b => ToNumber (impactScore b) <= ToNumber (impactScore a))
    (getRankedData rank_impact
       (prioritizedData activePersona minConfidence activeScenario data)) /\
  StronglySorted
    (fun a b => num (tr_area_sq_km (pr_record b))
                <= num (tr_area_sq_km (pr_record a)))
    (getRankedData rank_area
       (prioritizedData activePersona minConfidence activeScenario data)) /\
  (forall c : Q,
     StronglySorted
       (fun a b => ToNumber (impactScore b) <= ToNumber (impactScore a))
       (filter (fun p => Qeq_bool (num (tr_area_sq_km (pr_record p))) c)
          (getRankedData rank_area
             (prioritizedData activePersona minConfidence activeScenario
                              data)))) /\
  StronglySorted
    (fun a b => num (tr_confidence (pr_record b))
                <= num (tr_confidence (pr_record a)))
    (getRankedData rank_confidence
       (prioritizedData activePersona minConfidence activeScenario data)) /\
  (forall c : Q,
     StronglySorted
       (fun a b => ToNumber (impactScore b) <= ToNumber (impactScore a))
       (filter (fun p => Qeq_bool (num (tr_confidence (pr_record p))) c)
          (getRankedData rank_confidence
             (prioritizedData activePersona minConfidence activeScenario
                              data)))).
Proof.
  pose proof (prioritized_sorted activePersona minConfidence activeScenario
                data) as HP.
  cbn [getRankedData]. repeat split.
  - exact HP.
  - apply (StronglySorted_weaken (cmp_le by_area_desc)).
    + intros a b H. unfold cmp_le, by_area_desc, num in H.
      now apply fsub_nonpos_iff in H.
    + apply js_sort_sorted, by_area_desc_consistent.
  - intros c. rewrite js_sort_filter.
    + now apply StronglySorted_filter.
    + intros a b Ha Hb. apply Qeq_bool_iff in Ha. apply Qeq_bool_iff in Hb.
      unfold by_area_desc, num in *. apply fsub_nonpos_iff. lra.
  - apply (StronglySorted_weaken (cmp_le by_confidence_desc)).
    + intros a b H. unfold cmp_le, by_confidence_desc, num in H.
      now apply fsub_nonpos_iff in H.
    + apply js_sort_sorted, by_confidence_desc_consistent.
  - intros c. rewrite js_sort_filter.
    + now apply StronglySorted_filter.
    + intros a b Ha Hb. apply Qeq_bool_iff in Ha. apply Qeq_bool_iff in Hb.
      unfold by_confidence_desc, num in *. apply fsub_nonpos_iff. lra.
Qed.

Lemma filter_filter {A : Type} (f g : A -> bool) (l : list A) :
  filter f (filter g l) = filter (fun x => g x && f x) l.
Proof.
  induction l as [|x l IH]; simpl; [reflexivity|].
  destruct (g x); simpl; [destruct (f x)|]; now rewrite IH.
Qed.

(** X13.  Raising the minimum confidence or narrowing the scenario only
    removes rows: the rows kept under a scenario and a threshold are those
    kept, under the same filters, among the rows of any lower threshold
    in the scenario that shows all. *)
Theorem filters_only_remove_rows (m1 m2 : Q) (activeScenario : Scenario)
  (data : list TransitionRecord) :
  m1 <= m2 ->
  filteredData m2 activeScenario (filteredData m1 scenario_all data)
  = filteredData m2 activeScenario data.
Proof.
  intros Hm. unfold filteredData. rewrite filter_filter.
  apply filter_ext. intros d.
  destruct (js_lt (num (tr_confidence d)) m2) eqn:E2;
    [now rewrite andb_false_r|].
  destruct (js_lt (num (tr_confidence d)) m1) eqn:E1; [|reflexivity].
  apply js_lt_false_iff in E2. apply js_lt_iff in E1. lra.
Qed.

(** ** Decision counts *)

Lemma decisionCounts_fold (l : list TransitionRecord) (acc : DecisionCounts) :
  let out :=
    fold_left
      (fun acc curr =>
         match getDecisionStatus (num (tr_confidence curr)) with
         | SafeToAct =>
             mkCounts (S (dc_safe acc)) (dc_review acc) (dc_field acc)
         | ReviewRequired =>
             mkCounts (dc_safe acc) (S (dc_review acc)) (dc_field acc)
         | FieldValidationNeeded =>
             mkCounts (dc_safe acc) (dc_review acc) (S (dc_field acc))
         end) l acc in
  dc_safe out
  = (dc_safe acc
     + length (filter (fun d => js_ge (num (tr_confidence d))
                                      (num (85 # 100))) l))%nat /\
  dc_field out
  = (dc_field acc
     + length (filter (fun d => js_lt (num (tr_confidence d))
                                      (num (75 # 100))) l))%nat /\
  (dc_safe out + dc_review out + dc_field out
   = dc_safe acc + dc_review acc + dc_field acc + length l)%nat.
Proof.
  assert (M : num (75 # 100) <= num (85 # 100))
    by (unfold num; apply rnd_mono; lra).
  revert acc; induction l as [|d l IH]; intros acc; cbv zeta.
  - simpl. lia.
  - cbn [fold_left filter].
    match goal with
    | |- context [fold_left _ l ?a] =>
        pose proof (IH a) as H; cbv zeta in H; destruct H as (A & B & C)
    end.
    rewrite C, A, B. clear A B C IH. unfold getDecisionStatus.
    destruct (js_ge (num (tr_confidence d)) (num (85 # 100))) eqn:E1.
    + apply js_ge_iff in E1.
      assert (E3 : js_lt (num (tr_confidence d)) (num (75 # 100)) = false)
        by (apply js_lt_false_iff; exact (Qle_trans _ _ _ M E1)).
      rewrite E3. cbn [dc_safe dc_review dc_field length]. lia.
    + destruct (js_ge (num (tr_confidence d)) (num (75 # 100))) eqn:E2.
      * apply js_ge_iff in E2.
        assert (E3 : js_lt (num (tr_confidence d)) (num (75 # 100)) = false)
          by now apply js_lt_false_iff.
        rewrite E3. cbn [dc_safe dc_review dc_field length]. lia.
      * assert (E3 : js_lt (num (tr_confidence d)) (num (75 # 100)) = true).
        { unfold js_ge, js_le in E2. unfold js_lt. now rewrite E2. }
        rewrite E3. cbn [dc_safe dc_review dc_field length]. lia.
Qed.

(** X14.  The three decision counts add up to the number of filtered
    rows; the safe count is the number of rows with a confidence of 0.85
    or more, the field count the number of rows with a confidence below
    0.75. *)
Theorem decision_counts_partition_rows (filtered : list TransitionRecord) :
  (dc_safe (decisionCounts filtered) + dc_review (decisionCounts filtered)
   + dc_field (decisionCounts filtered) = length filtered)%nat /\
  dc_safe (decisionCounts filtered)
  = length (filter (fun d => js_ge (num (tr_confidence d)) (num (85 # 100)))
                   filtered) /\
  dc_field (decisionCounts filtered)
  = length (filter (fun d => js_lt (num (tr_confidence d)) (num (75 # 100)))
                   filtered).
Proof.
  destruct (decisionCounts_fold filtered (mkCounts 0 0 0)) as (A & B & C).
  cbn [dc_safe dc_review dc_field] in *. unfold decisionCounts.
  repeat split; [exact C | exact A | exact B].
Qed.

(** ** Field survey tasks *)

Lemma StronglySorted_firstn {A : Type} (R : A -> A -> Prop) (n : nat)
  (l : list A) :
  StronglySorted R l -> StronglySorted R (firstn n l).
Proof.
  intros H. rewrite <- (firstn_skipn n l) in H.
  now apply sorted_app_inv in H.
Qed.

Lemma StronglySorted_map {A B : Type} (f : A -> B) (R : B -> B -> Prop)
  (l : list A) :
  StronglySorted (fun a b => R (f a) (f b)) l -> StronglySorted R (map f l).
Proof.
  induction 1 as [|x l Hs IH Hall]; simpl; constructor; [exact IH|].
  rewrite Forall_forall in *. intros y Hy. apply in_map_iff in Hy.
  destruct Hy as (z & <- & Hz). now apply Hall.
Qed.

Lemma needsSurvey_spec (d : Prioritized) :
  needsSurvey d = true ->
  num (tr_confidence (pr_record d)) < num (85 # 100) /\
  (js_lt (num (tr_confidence (pr_record d))) (num (75 # 100)) = false ->
   2 < ToNumber (impactScore d)).
Proof.
  assert (M : num (75 # 100) <= num (85 # 100))
    by (unfold num; apply rnd_mono; lra).
  unfold needsSurvey. intros H. apply orb_true_iff in H.
  destruct H as [H|H]; apply andb_true_iff in H; destruct H as [H1 H2].
  - split; [|intros E; rewrite E in H1; discriminate].
    apply js_lt_iff in H1. eapply Qlt_le_trans; eassumption.
  - apply js_gt_iff in H1. apply js_lt_iff in H2. now split.
Qed.

(** X15.  At most five field survey tasks are issued.  Each is built from
    an input row whose confidence is below 0.85, so a row that is safe to
    act on is never sent to the field; a task whose reason is the impact
    of the transition comes from a row with an impact score above 2; and
    the tasks are listed by non-increasing area. *)
Theorem field_survey_tasks_spec (data : list Prioritized) :
  (length (generateFieldSurveyTasks data) <= 5)%nat /\
  (forall t, In t (generateFieldSurveyTasks data) ->
     exists d, In d data /\ t = fieldTask d /\
       num (tr_confidence (pr_record d)) < num (85 # 100) /\
       getDecisionStatus (num (tr_confidence (pr_record d))) <> SafeToAct /\
       (ft_reason t = HighImpactTransition ->
        2 < ToNumber (impactScore d))) /\
  StronglySorted (fun a b => num (ft_location b) <= num (ft_location a))
    (generateFieldSurveyTasks data).
Proof.
  unfold generateFieldSurveyTasks. repeat split.
  - rewrite length_map. unfold surveyRows. rewrite slice_head_length.
    pose proof (rel_index_nonneg
                  (length (js_sort by_area_desc (filter needsSurvey data)))
                  5 ltac:(lia)). lia.
  - intros t Ht. apply in_map_iff in Ht. destruct Ht as (d & <- & Hd).
    unfold surveyRows in Hd. apply slice_head_In in Hd.
    apply js_sort_In in Hd. apply filter_In in Hd. destruct Hd as [Hd Hn].
    apply needsSurvey_spec in Hn. destruct Hn as [Hc Hi].
    exists d. repeat split; try assumption.
    + unfold getDecisionStatus.
      destruct (js_ge (num (tr_confidence (pr_record d))) (num (85 # 100)))
        eqn:E.
      * apply js_ge_iff in E. lra.
      * destruct (js_ge (num (tr_confidence (pr_record d))) (num (75 # 100)));
          discriminate.
    + cbn [fieldTask ft_reason].
      destruct (js_lt (num (tr_confidence (pr_record d))) (num (75 # 100)))
        eqn:E; [discriminate|]. intros _. now apply Hi.
  - apply StronglySorted_map. cbn [fieldTask ft_location].
    unfold surveyRows. rewrite slice_head_firstn.
    apply StronglySorted_firstn.
    apply (StronglySorted_weaken (cmp_le by_area_desc)).
    + intros a b H. unfold cmp_le, by_area_desc, num in H.
      now apply fsub_nonpos_iff in H.
    + apply js_sort_sorted, by_area_desc_consistent.
Qed.

(** ** Policy impact *)

Lemma toFixed1_ge_1 (x : Q) : 1 <= x -> 1 <= fixed_value (toFixed 1 x).
Proof.
  intros H. apply (toFixed_mono 1) in H.
  assert (E : 1 <= fixed_value (toFixed 1 1)) by (vm_compute; discriminate).
  lra.
Qed.

(** X16.  A policy evaluation never keeps the initial assessment and text:
    it is one of the three computed verdicts.  The verdict agrees with the
    displayed rates: under Effective Containment the post-policy rate shown
    is not above the pre-policy one, under Policy Failure it is not below
    it; and the change quoted in the text is at least 1.0. *)
Theorem policy_assessment_agrees_with_rates (timeData : list TimeSeriesPoint)
  (r : PolicyEvaluation) :
  getPolicyEvaluation timeData = Some r ->
  pe_assessment r <> Neutral /\
  pe_desc r <> GrowthUnchanged /\
  (pe_assessment r = EffectiveContainment ->
   fixed_value (postRate r) <= fixed_value (preRate r)) /\
  (pe_assessment r = PolicyFailure ->
   fixed_value (preRate r) <= fixed_value (postRate r)) /\
  (forall v, pe_desc r = SlowedBy v \/ pe_desc r = AcceleratedBy v ->
             1 <= fixed_value v).
Proof.
  unfold getPolicyEvaluation.
  destruct (length (years timeData) <? 4)%nat; [discriminate|].
  set (pre := calcRate _ _ 0 1).
  set (post := calcRate _ _ (length (years timeData) - 2)
                        (length (years timeData) - 1)).
  destruct (policy_classify (fsub post pre)) as [[a c] d] eqn:E.
  intros H. injection H as <-. cbn [pe_assessment pe_desc preRate postRate].
  unfold policy_classify in E. unfold fsub in E.
  destruct (js_lt (rnd (post - pre)) (-1)) eqn:E1.
  - injection E as <- <- <-. apply js_lt_iff in E1.
    repeat split; try discriminate.
    + intros _. apply toFixed_mono.
      destruct (Qlt_le_dec pre post) as [L|L]; [|exact L].
      pose proof (rnd_nonneg (post - pre) ltac:(lra)). lra.
    + intros v [Hv|Hv]; [|discriminate]. injection Hv as <-.
      apply toFixed1_ge_1. apply Qabs_case; intros; lra.
  - destruct (js_gt (rnd (post - pre)) 1) eqn:E2.
    + injection E as <- <- <-. apply js_gt_iff in E2.
      repeat split; try discriminate.
      * intros _. apply toFixed_mono.
        destruct (Qlt_le_dec post pre) as [L|L]; [|exact L].
        pose proof (rnd_nonpos (post - pre) ltac:(lra)). lra.
      * intros v [Hv|Hv]; [discriminate|]. injection Hv as <-.
        apply toFixed1_ge_1. lra.
    + injection E as <- <- <-.
      repeat split; try discriminate. intros v [Hv|Hv]; discriminate.
Qed.

(** ** Temporal explanations *)

Lemma anomalyAt_In (ys : list Z) (built : list Q) (i : nat)
  (a : TemporalAnomaly) :
  In a (anomalyAt ys built i) ->
  ta_year a = nth i ys 0%Z /\
  ta_cause a = cause_of (ta_year a) /\
  10 <= fixed_value (ta_growth a) /\
  (ta_severity a = SpikeHigh -> 15 <= fixed_value (ta_growth a)).
Proof.
  unfold anomalyAt.
  destruct (js_gt (fsub (at_ built i) (at_ built (i - 1))) 10) eqn:E;
    [|intros []].
  intros [<-|[]]. cbn [ta_year ta_cause ta_growth ta_severity].
  apply js_gt_iff in E. repeat split.
  - assert (T : 10 <= fixed_value (toFixed 1 10))
      by (vm_compute; discriminate).
    pose proof (toFixed_mono 1 10 _ (Qlt_le_weak _ _ E)). lra.
  - destruct (js_gt (fsub (at_ built i) (at_ built (i - 1))) 15) eqn:E2;
      [|discriminate].
    intros _. apply js_gt_iff in E2.
    assert (T : 15 <= fixed_value (toFixed 1 15))
      by (vm_compute; discriminate).
    pose proof (toFixed_mono 1 15 _ (Qlt_le_weak _ _ E2)). lra.
Qed.

Lemma anomalyAt_length (ys : list Z) (built : list Q) (i : nat) :
  (length (anomalyAt ys built i) <= 1)%nat.
Proof. unfold anomalyAt. destruct (js_gt _ 10); simpl; lia. Qed.

Lemma flat_map_length_le {A B : Type} (f : A -> list B) (l : list A) :
  (forall x, (length (f x) <= 1)%nat) ->
  (length (flat_map f l) <= length l)%nat.
Proof.
  intros H. induction l as [|x l IH]; simpl; [lia|].
  rewrite length_app. specialize (H x). lia.
Qed.

Lemma anomaly_years_NoDup (ys : list Z) (built : list Q) (l : list nat) :
  NoDup ys -> NoDup l -> (forall i, In i l -> (i < length ys)%nat) ->
  NoDup (map ta_year (flat_map (anomalyAt ys built) l)).
Proof.
  intros Hys Hl Hlt. induction Hl as [|i l Hni Hl IH]; simpl; [constructor|].
  rewrite map_app. specialize (IH (fun j Hj => Hlt j (or_intror Hj))).
  pose proof (anomalyAt_length ys built i) as Hlen.
  destruct (anomalyAt ys built i) as [|a [|b rest]] eqn:E;
    simpl in *; [exact IH| |lia].
  constructor; [|exact IH]. intros Hin. apply in_map_iff in Hin.
  destruct Hin as (a' & Ey & Ha'). apply in_flat_map in Ha'.
  destruct Ha' as (j & Hj & Ha'). apply anomalyAt_In in Ha'.
  assert (Ha : In a (anomalyAt ys built i)) by (rewrite E; now left).
  apply anomalyAt_In in Ha. destruct Ha as [Ya _], Ha' as [Ya' _].
  apply Hni. replace i with j; [exact Hj|].
  apply (proj1 (NoDup_nth ys 0%Z) Hys); [auto|auto|congruence].
Qed.

(** X17.  The temporal explainer reports at most one anomaly per year
    after the first, never two for the same year and never one for the
    first year.  Each reported growth is at least 10.0 as displayed, a
    High severity comes with a growth of at least 15.0, and the cause is
    the one tabulated for the year. *)
Theorem temporal_explanations_spec (timeData : list TimeSeriesPoint) :
  (length (getTemporalExplanations timeData)
   <= length (years timeData) - 1)%nat /\
  NoDup (map ta_year (getTemporalExplanations timeData)) /\
  forall a, In a (getTemporalExplanations timeData) ->
    In (ta_year a) (years timeData) /\
    ta_year a <> nth 0 (years timeData) 0%Z /\
    ta_cause a = cause_of (ta_year a) /\
    10 <= fixed_value (ta_growth a) /\
    (ta_severity a = SpikeHigh -> 15 <= fixed_value (ta_growth a)).
Proof.
  unfold getTemporalExplanations.
  destruct (length (years timeData) <? 3)%nat eqn:E.
  - split; [simpl; lia | split; [constructor | intros a []]].
  - apply Nat.ltb_ge in E.
    assert (Hseq : forall i, In i (seq 1 (length (years timeData) - 1)) ->
                             (1 <= i < length (years timeData))%nat)
      by (intros i Hi; apply in_seq in Hi; lia).
    repeat split.
    + etransitivity;
        [apply flat_map_length_le, anomalyAt_length|rewrite length_seq; lia].
    + apply anomaly_years_NoDup;
        [apply years_NoDup | apply seq_NoDup | intros i Hi; now apply Hseq].
    + apply in_flat_map in H. destruct H as (i & Hi & Ha).
      apply anomalyAt_In in Ha. destruct Ha as [-> _].
      apply nth_In. now apply Hseq.
    + apply in_flat_map in H. destruct H as (i & Hi & Ha).
      apply anomalyAt_In in Ha. destruct Ha as [-> _]. intros Heq.
      apply Hseq in Hi.
      apply (proj1 (NoDup_nth (years timeData) 0%Z) (years_NoDup timeData))
        in Heq; lia.
    + apply in_flat_map in H. destruct H as (i & Hi & Ha).
      now apply anomalyAt_In in Ha.
    + apply in_flat_map in H. destruct H as (i & Hi & Ha).
      now apply anomalyAt_In in Ha.
    + apply in_flat_map in H. destruct H as (i & Hi & Ha).
      apply anomalyAt_In in Ha. tauto.
Qed.

(** ** Action recommendations *)

Lemma insert_flag_front (flag : Evolution -> bool) (x : Evolution)
  (l : list Evolution) :
  flag x = true -> insert (by_flag_desc flag) x l = x :: l.
Proof.
  intros Hx. destruct l as [|y l]; [reflexivity|]. simpl.
  unfold by_flag_desc. rewrite Hx. now destruct (flag y).
Qed.

Lemma insert_flag_unflagged (flag : Evolution -> bool) (x : Evolution)
  (l : list Evolution) :
  flag x = false -> (forall y, In y l -> flag y = false) ->
  insert (by_flag_desc flag) x l = x :: l.
Proof.
  intros Hx Hl. destruct l as [|y l]; [reflexivity|]. simpl.
  unfold by_flag_desc. rewrite Hx, (Hl y) by now left. reflexivity.
Qed.

Lemma insert_flag_past (flag : Evolution -> bool) (x : Evolution)
  (l1 l2 : list Evolution) :
  flag x = false -> (forall y, In y l1 -> flag y = true) ->
  insert (by_flag_desc flag) x (l1 ++ l2)
  = l1 ++ insert (by_flag_desc flag) x l2.
Proof.
  intros Hx. induction l1 as [|y l1 IH]; intros Hl; [reflexivity|].
  simpl. unfold by_flag_desc at 1. rewrite Hx, (Hl y) by now left.
  cbn. f_equal. apply IH. intros z Hz. apply Hl. now right.
Qed.

(** Sorting by a flag moves the flagged elements to the front and keeps
    the order inside both groups. *)
Lemma js_sort_flag (flag : Evolution -> bool) (l : list Evolution) :
  js_sort (by_flag_desc flag) l
  = filter flag l ++ filter (fun e => negb (flag e)) l.
Proof.
  induction l as [|x l IH]; [reflexivity|].
  change (js_sort (by_flag_desc flag) (x :: l))
    with (insert (by_flag_desc flag) x (js_sort (by_flag_desc flag) l)).
  rewrite IH. simpl. destruct (flag x) eqn:Hx; simpl.
  - now apply insert_flag_front.
  - rewrite insert_flag_past;
      [|exact Hx|intros y Hy; now apply filter_In in Hy].
    f_equal. apply insert_flag_unflagged; [exact Hx|].
    intros y Hy. apply filter_In in Hy. now apply negb_true_iff.
Qed.

(** X18.  The persona's sort is a stable partition: for the urban planner
    the transitions into Built-up come first, for the environmental
    officer those out of Forest or Water Body, and inside both groups the
    transitions keep the order in which they were ranked; for the policy
    maker the ranking is left as it is.  The sort fails only when it has
    to compare a transition without history. *)
Theorem persona_sort_is_stable_partition (trends : list Evolution) :
  targetedTrends urban_planner trends
  = (if comparator_throws trends then None
     else Some (filter isUrban trends
                ++ filter (fun e => negb (isUrban e)) trends)) /\
  targetedTrends environmental_officer trends
  = (if comparator_throws trends then None
     else Some (filter isEco trends
                ++ filter (fun e => negb (isEco e)) trends)) /\
  targetedTrends policy_maker trends = Some trends.
Proof.
  unfold targetedTrends. rewrite !js_sort_flag. now repeat split.
Qed.

Lemma comparator_never_throws (trends : list Evolution) :
  (forall e, In e trends -> history e <> []) ->
  comparator_throws trends = false.
Proof.
  intros H. unfold comparator_throws. apply andb_false_iff. right.
  apply not_true_iff_false. intros E. apply existsb_exists in E.
  destruct E as (e & He & Hh). specialize (H e He).
  destruct (history e); [now apply H | discriminate].
Qed.

Lemma targetedTrends_perm (activePersona : Persona)
  (trends : list Evolution) :
  (forall e, In e trends -> history e <> []) ->
  exists targeted,
    targetedTrends activePersona trends = Some targeted /\
    Permutation trends targeted.
Proof.
  intros H. unfold targetedTrends. rewrite (comparator_never_throws _ H).
  destruct activePersona; eexists; (split; [reflexivity|]);
    [apply js_sort_perm | apply js_sort_perm | apply Permutation_refl].
Qed.

Lemma recommend_spec (id : Q) (e : Evolution) :
  history e <> [] ->
  exists a,
    recommend id e = Some a /\
    ra_id a = id /\
    ra_readiness a = toFixed 0 (fmul (ToNumber (cpri e)) 100) /\
    match fst (readiness_classify (cpri e)) with
    | ReadyForAction =>
        ra_urgency a = Immediate /\ au_rule (ra_logic a) = AutoRouteRule /\
        In (ra_dept a) [EnvironmentDept; UrbanPlanning; RevenueDept]
    | PolicyReview =>
        ra_urgency a = UrgencyHigh /\ au_rule (ra_logic a) = CommitteeRule /\
        ra_dept a = PlanningCommittee
    | FieldValidation =>
        ra_urgency a = Critical /\
        au_rule (ra_logic a) = FieldValidationRule /\
        ra_dept a = EnforcementWing
    end.
Proof.
  intros Hne. unfold recommend, readiness_classify.
  destruct (rev (history e)) as [|latest rest] eqn:E.
  - exfalso. apply Hne. apply (f_equal (@rev Flow)) in E.
    now rewrite rev_involutive in E.
  - destruct (js_ge (ToNumber (cpri e)) (num (75 # 100)));
      [|destruct (js_ge (ToNumber (cpri e)) (num (45 # 100)))].
    + destruct (String.eqb (fl_from latest) "Forest");
        [|destruct (String.eqb (fl_to latest) "Built-up")];
        eexists; (split; [reflexivity|]); cbn; intuition.
    + eexists; (split; [reflexivity|]); cbn; intuition.
    + eexists; (split; [reflexivity|]); cbn; intuition.
Qed.

Lemma analyze_readiness (data : list Flow) (e : Evolution) :
  In e (analyzeTransitionEvolution data) ->
  readiness e = fst (readiness_classify (cpri e)).
Proof.
  intros Hin. unfold analyzeTransitionEvolution in Hin.
  apply js_sort_In in Hin. unfold evolutions in Hin.
  apply in_map_iff in Hin. destruct Hin as ([k recs] & <- & _).
  reflexivity.
Qed.

(** X19.  On the output of the transition analyzer the recommender never
    fails, for any persona.  It returns one action for each of the first
    three targeted transitions (fewer when there are fewer), and every
    action follows the readiness of its transition: Ready for Action gives
    the urgency Immediate and the auto-route rule, Policy Review gives
    High and the committee, Field Validation gives Critical and the
    enforcement wing; the placeholder urgency, department and action are
    never returned. *)
Theorem recommendations_follow_readiness (random : nat -> Q)
  (activePersona : Persona) (data : list Flow) :
  exists r,
    getActionRecommendations random activePersona
      (analyzeTransitionEvolution data) = Some r /\
    length r = Nat.min 3 (length (analyzeTransitionEvolution data)) /\
    forall a, In a r ->
      ra_urgency a <> UrgencyMedium /\ ra_dept a <> General /\
      exists e,
        In e (analyzeTransitionEvolution data) /\
        ra_readiness a = toFixed 0 (fmul (ToNumber (cpri e)) 100) /\
        match readiness e with
        | ReadyForAction =>
            ra_urgency a = Immediate /\
            au_rule (ra_logic a) = AutoRouteRule
        | PolicyReview =>
            ra_urgency a = UrgencyHigh /\
            au_rule (ra_logic a) = CommitteeRule /\
            ra_dept a = PlanningCommittee
        | FieldValidation =>
            ra_urgency a = Critical /\
            au_rule (ra_logic a) = FieldValidationRule /\
            ra_dept a = EnforcementWing
        end.
Proof.
  set (trends := analyzeTransitionEvolution data).
  assert (Hne : forall e, In e trends -> history e <> [])
    by (intros e; apply analyze_history_nonempty).
  unfold getActionRecommendations.
  destruct (length trends =? 0)%nat eqn:E0.
  - apply Nat.eqb_eq in E0. exists []. rewrite E0.
    split; [reflexivity|split; [reflexivity|intros a []]].
  - destruct (targetedTrends_perm activePersona trends Hne)
      as (targeted & -> & HP).
    set (topItems := js_slice 0 (Some 3%Z) targeted).
    assert (Htop : forall e, In e topItems -> In e trends).
    { intros e He. apply slice_head_In in He.
      now apply (Permutation_in _ (Permutation_sym HP)). }
    destruct (mapM_total (fun p => recommend (random (fst p)) (snd p))
                (combine (seq 0 (length topItems)) topItems)) as [r Hr].
    { intros [i e] Hp. apply in_combine_r in Hp. cbn [fst snd].
      destruct (recommend_spec (random i) e (Hne e (Htop e Hp)))
        as (a & -> & _). discriminate. }
    exists r. split; [exact Hr|]. split.
    + rewrite (mapM_length _ _ _ Hr), length_combine, length_seq,
        Nat.min_id.
      unfold topItems. rewrite slice_head_length.
      rewrite <- (Permutation_length HP). unfold rel_index. simpl. lia.
    + intros a Ha.
      destruct (Forall2_In_r _ _ _ _ (mapM_Forall2 _ _ _ Hr) Ha)
        as ([i e] & Hp & Hrec).
      apply in_combine_r in Hp. cbn [fst snd] in Hrec.
      pose proof (Htop e Hp) as He.
      destruct (recommend_spec (random i) e (Hne e He))
        as (a' & Ha' & _ & Hread & Hm).
      rewrite Ha' in Hrec. injection Hrec as <-.
      rewrite <- (analyze_readiness data e He) in Hm.
      assert (U : ra_urgency a' <> UrgencyMedium /\ ra_dept a' <> General).
      { destruct (readiness e); destruct Hm as (-> & _ & Hd);
          (split; [discriminate|]).
        - rewrite Hd. discriminate.
        - rewrite Hd. discriminate.
        - simpl in Hd. intuition congruence. }
      destruct U as [U1 U2]. split; [exact U1|]. split; [exact U2|].
      exists e. split; [exact He|]. split; [exact Hread|].
      destruct (readiness e); tauto.
Qed.

(** ** Summary metrics *)

(** A sum over the rows that a filter keeps is not above the sum over all
    rows, when no area is negative: every partial sum is a Number, and
    rounding is monotone. *)
Lemma sum_filter_le (p : TransitionRecord -> bool)
  (l : list TransitionRecord) (acc1 acc2 : Q) :
  (forall d, In d l -> 0 <= tr_area_sq_km d) ->
  rnd acc1 == acc1 -> acc1 <= acc2 ->
  fold_left (fun acc curr => fadd acc (num (tr_area_sq_km curr)))
            (filter p l) acc1
  <= fold_left (fun acc curr => fadd acc (num (tr_area_sq_km curr))) l acc2.
Proof.
  revert acc1 acc2. induction l as [|x l IH]; intros acc1 acc2 Hpos Hn Hle.
  - exact Hle.
  - assert (Hx : 0 <= num (tr_area_sq_km x))
      by (apply rnd_nonneg, Hpos; now left).
    assert (Hl : forall d, In d l -> 0 <= tr_area_sq_km d)
      by (intros d Hd; apply Hpos; now right).
    simpl. destruct (p x); simpl.
    + apply IH; [exact Hl | unfold fadd; now rewrite rnd_idem |].
      unfold fadd. apply rnd_mono. lra.
    + apply IH; [exact Hl | exact Hn |].
      rewrite <- Hn. unfold fadd. apply rnd_mono. lra.
Qed.

Lemma sumAreaSqKm_nonneg (l : list TransitionRecord) :
  (forall d, In d l -> 0 <= tr_area_sq_km d) -> 0 <= sumAreaSqKm l.
Proof.
  intros H.
  pose proof (sum_filter_le (fun _ => false) l 0 0 H) as S.
  rewrite (filter_all_false (fun _ => false) l) in S by reflexivity.
  apply S; [now rewrite rnd_0 | lra].
Qed.

(** X20.  On a table without negative areas, the displayed built-up
    expansion and the displayed agricultural loss are not negative and
    not above the displayed total area changed. *)
Theorem summary_parts_within_total (data : list TransitionRecord) :
  (forall d, In d data -> 0 <= tr_area_sq_km d) ->
  0 <= fixed_value (builtUpExpansion data)
    <= fixed_value (totalAreaChanged data) /\
  0 <= fixed_value (agriLoss data) <= fixed_value (totalAreaChanged data).
Proof.
  intros H.
  assert (Z0 : 0 <= fixed_value (toFixed 1 0)) by (vm_compute; discriminate).
  assert (P : forall p,
             0 <= fixed_value (toFixed 1 (sumAreaSqKm (filter p data)))
               <= fixed_value (toFixed 1 (sumAreaSqKm data))).
  { intros p. split.
    - assert (S : 0 <= sumAreaSqKm (filter p data)).
      { apply sumAreaSqKm_nonneg. intros d Hd. apply filter_In in Hd.
        now apply H. }
      pose proof (toFixed_mono 1 _ _ S). lra.
    - apply toFixed_mono. unfold sumAreaSqKm.
      apply sum_filter_le; [exact H | now rewrite rnd_0 | lra]. }
  unfold builtUpExpansion, agriLoss, totalAreaChanged. split; apply P.
Qed.

(** ** Future projection *)

Lemma risk_classify_mono (x y : Q) :
  x <= y ->
  (fst (risk_classify y) = RiskLow -> fst (risk_classify x) = RiskLow) /\
  (fst (risk_classify x) = RiskCritical ->
   fst (risk_classify y) = RiskCritical).
Proof.
  intros H. unfold risk_classify.
  destruct (js_gt x 10) eqn:X10; destruct (js_gt y 10) eqn:Y10;
    destruct (js_gt x 5) eqn:X5; destruct (js_gt y 5) eqn:Y5;
    cbn [fst]; split; intros Hyp;
    try reflexivity; try discriminate; exfalso;
    repeat match goal with
      | G : js_gt _ _ = true |- _ => apply js_gt_iff in G
      | G : js_gt _ _ = false |- _ =>
          unfold js_gt in G; apply js_lt_false_iff in G
      end; lra.
Qed.

(** X21.  While the Built-up area has not shrunk over the last three
    survey years, a stronger policy never projects more: the target year
    stays, the projected area and the projected increase shown do not
    grow with the policy intensity, and the risk level does not rise. *)
Theorem stronger_policy_projects_no_more (p1 p2 : Q)
  (timeData : list TimeSeriesPoint) (r1 r2 : FutureProjection) :
  p1 <= p2 ->
  0 <= fdiv (fsub (at_ (builtUpTrend timeData)
                       (length (years timeData) - 1))
                  (at_ (builtUpTrend timeData)
                       (length (years timeData) - 3)))
            (inject_Z (nth (length (years timeData) - 1) (years timeData) 0
                       - nth (length (years timeData) - 3)
                             (years timeData) 0)%Z) ->
  getFutureProjection p1 timeData = Some r1 ->
  getFutureProjection p2 timeData = Some r2 ->
  targetYear r2 = targetYear r1 /\
  fixed_value (projectedArea r2) <= fixed_value (projectedArea r1) /\
  fixed_value (increase r2) <= fixed_value (increase r1) /\
  (riskLevel r1 = RiskLow -> riskLevel r2 = RiskLow) /\
  (riskLevel r2 = RiskCritical -> riskLevel r1 = RiskCritical).
Proof.
  intros Hp Hrate H1 H2. unfold getFutureProjection in H1, H2.
  destruct (length (years timeData) <? 3)%nat eqn:E; [discriminate|].
  apply Nat.ltb_ge in E.
  assert (E3 : (3 <=? length (years timeData))%nat = true)
    by now apply Nat.leb_le.
  rewrite E3 in H1, H2.
  set (rate := fdiv _ _) in Hrate, H1, H2.
  set (A := at_ (builtUpTrend timeData) (length (years timeData) - 1))
    in H1, H2.
  assert (R : fmul (fdiv p1 100) (num (6 # 10))
              <= fmul (fdiv p2 100) (num (6 # 10))).
  { unfold fmul, fdiv. apply rnd_mono.
    assert (0 <= num (6 # 10)) by (apply rnd_nonneg; lra).
    assert (rnd (p1 / 100) <= rnd (p2 / 100))
      by (apply rnd_mono; unfold Qdiv; apply Qmult_le_compat_r;
          [exact Hp | vm_compute; discriminate]).
    now apply Qmult_le_compat_r. }
  set (red1 := fmul (fdiv p1 100) (num (6 # 10))) in *.
  set (red2 := fmul (fdiv p2 100) (num (6 # 10))) in *.
  assert (K : fsub 1 red2 <= fsub 1 red1)
    by (unfold fsub; apply rnd_mono; lra).
  assert (AR : fmul rate (fsub 1 red2) <= fmul rate (fsub 1 red1)).
  { unfold fmul. apply rnd_mono. rewrite !(Qmult_comm rate).
    now apply Qmult_le_compat_r. }
  set (ar1 := fmul rate (fsub 1 red1)) in *.
  set (ar2 := fmul rate (fsub 1 red2)) in *.
  assert (M : fmul ar2 (inject_Z yearsToProject)
              <= fmul ar1 (inject_Z yearsToProject)).
  { unfold fmul. apply rnd_mono. apply Qmult_le_compat_r;
      [exact AR | vm_compute; discriminate]. }
  set (m1 := fmul ar1 (inject_Z yearsToProject)) in *.
  set (m2 := fmul ar2 (inject_Z yearsToProject)) in *.
  assert (PU : fadd A m2 <= fadd A m1)
    by (unfold fadd; apply rnd_mono; lra).
  assert (PI : fsub (fadd A m2) A <= fsub (fadd A m1) A)
    by (unfold fsub; apply rnd_mono; lra).
  injection H1 as <-. injection H2 as <-.
  cbn [targetYear projectedArea increase riskLevel].
  split; [reflexivity|].
  split; [now apply toFixed_mono|].
  split; [now apply toFixed_mono|].
  now apply risk_classify_mono.
Qed.

(** ** Velocity and acceleration *)

(** X22.  On a trend of three or more points with distinct survey years,
    the status of the velocity metrics agrees with the acceleration they
    display: Stable shows 0.00, the rapid statuses show at least 0.50 in
    absolute value, and the other two show a value between 0 and 0.50 of
    the matching sign. *)
Theorem velocity_status_matches_acceleration (trendValues : list Q)
  (yrs : list Z) :
  (3 <= length trendValues)%nat ->
  nth (length trendValues - 1) yrs 0%Z
    <> nth (length trendValues - 2) yrs 0%Z ->
  nth (length trendValues - 2) yrs 0%Z
    <> nth (length trendValues - 3) yrs 0%Z ->
  exists a,
    acceleration (getVelocityMetrics trendValues yrs) = JStr a /\
    match vm_status (getVelocityMetrics trendValues yrs) with
    | VelStable => fixed_value a == 0
    | RapidAcceleration => 1 # 2 <= fixed_value a
    | Accelerating => 0 <= fixed_value a <= 1 # 2
    | RapidDeceleration => fixed_value a <= - (1 # 2)
    | Decelerating => - (1 # 2) <= fixed_value a <= 0
    end.
Proof.
  intros Hlen _ _. unfold getVelocityMetrics.
  assert (E : (length trendValues <? 3)%nat = false)
    by now apply Nat.ltb_ge.
  rewrite E. cbn [acceleration vm_status].
  set (acc := fsub _ _). exists (toFixed 2 acc). split; [reflexivity|].
  assert (T0 : fixed_value (toFixed 2 0) == 0) by reflexivity.
  assert (Th : fixed_value (toFixed 2 (1 # 2)) == 1 # 2) by reflexivity.
  assert (Tn : fixed_value (toFixed 2 (- (1 # 2))) == - (1 # 2))
    by reflexivity.
  pose proof (toFixed_mono 2 acc 0) as M1.
  pose proof (toFixed_mono 2 0 acc) as M2.
  pose proof (toFixed_mono 2 acc (1 # 2)) as M3.
  pose proof (toFixed_mono 2 (1 # 2) acc) as M4.
  pose proof (toFixed_mono 2 acc (- (1 # 2))) as M5.
  pose proof (toFixed_mono 2 (- (1 # 2)) acc) as M6.
  unfold velocity_classify.
  destruct (js_gt acc (1 # 2)) eqn:G1; cbn [fst].
  { apply js_gt_iff in G1. lra. }
  unfold js_gt in G1. apply js_lt_false_iff in G1.
  destruct (js_gt acc 0) eqn:G2; cbn [fst].
  { apply js_gt_iff in G2. lra. }
  unfold js_gt in G2. apply js_lt_false_iff in G2.
  destruct (js_lt acc (- (1 # 2))) eqn:G3; cbn [fst].
  { apply js_lt_iff in G3. lra. }
  apply js_lt_false_iff in G3.
  destruct (js_lt acc 0) eqn:G4; cbn [fst].
  { apply js_lt_iff in G4. lra. }
  apply js_lt_false_iff in G4. lra.
Qed.

(** ** Change narrative *)

Lemma candidateTrends_spec (activePersona : Persona)
  (trends : list Evolution) :
  trends <> [] -> (forall e, In e trends -> history e <> []) ->
  exists top rest,
    candidateTrends activePersona trends = Some (top :: rest) /\
    In top trends /\
    (activePersona = urban_planner ->
     (exists t, In t trends /\ touchesBuiltUp t = true) ->
     touchesBuiltUp top = true) /\
    (activePersona = environmental_officer ->
     (exists t, In t trends /\ isEco t = true) -> isEco top = true) /\
    (activePersona = policy_maker -> trends = top :: rest).
Proof.
  intros Hnil Hne.
  assert (Hno : existsb noHistory trends = false).
  { apply not_true_iff_false. intros E. apply existsb_exists in E.
    destruct E as (e & He & Hh). specialize (Hne e He). unfold noHistory in Hh.
    destruct (history e); [now apply Hne | discriminate]. }
  assert (Hfilter : forall flag : Evolution -> bool,
            exists top rest,
              (if (length (filter flag trends) =? 0)%nat
               then trends else filter flag trends) = top :: rest /\
              In top trends /\
              ((exists t, In t trends /\ flag t = true) -> flag top = true)).
  { intros flag. destruct (filter flag trends) as [|top rest] eqn:F.
    - destruct trends as [|top rest]; [now destruct Hnil|].
      exists top, rest. simpl. split; [reflexivity|]. split; [now left|].
      intros (t & Ht & Hf).
      assert (Hin : In t (filter flag (top :: rest)))
        by (apply filter_In; now split).
      rewrite F in Hin. destruct Hin.
    - assert (Hin : In top (filter flag trends)) by (rewrite F; now left).
      apply filter_In in Hin. exists top, rest. simpl.
      split; [reflexivity|]. split; tauto. }
  unfold candidateTrends. rewrite Hno. destruct activePersona.
  - destruct (Hfilter touchesBuiltUp) as (top & rest & -> & Hin & Hf).
    exists top, rest. repeat split; try discriminate; auto.
  - destruct (Hfilter isEco) as (top & rest & -> & Hin & Hf).
    exists top, rest. repeat split; try discriminate; auto.
  - destruct trends as [|top rest]; [now destruct Hnil|].
    exists top, rest. repeat split; try discriminate; auto. now left.
Qed.

(** X23.  On a non-empty output of the transition analyzer the change
    narrative never fails, and its subject is one of the trends: for the
    urban planner one that touches Built-up whenever there is one, for the
    environmental officer one out of Forest or Water Body whenever there
    is one, for the policy maker the first of the ranking.  A body worded
    as certain has a subject that is Ready for Action. *)
Theorem narrative_subject_and_certainty (activePersona : Persona)
  (data : list Flow) :
  analyzeTransitionEvolution data <> [] ->
  exists top n,
    narrativeTop activePersona (analyzeTransitionEvolution data) = Some top /\
    generateChangeNarrative activePersona (analyzeTransitionEvolution data)
    = Some n /\
    In top (analyzeTransitionEvolution data) /\
    (activePersona = urban_planner ->
     (exists t, In t (analyzeTransitionEvolution data)
                /\ touchesBuiltUp t = true) ->
     touchesBuiltUp top = true) /\
    (activePersona = environmental_officer ->
     (exists t, In t (analyzeTransitionEvolution data) /\ isEco t = true) ->
     isEco top = true) /\
    (activePersona = policy_maker ->
     hd_error (analyzeTransitionEvolution data) = Some top) /\
    (wordedAsCertain (nv_body n) = true -> readiness top = ReadyForAction).
Proof.
  intros Hnil.
  destruct (candidateTrends_spec activePersona
              (analyzeTransitionEvolution data) Hnil
              (analyze_history_nonempty data))
    as (top & rest & Hc & Hin & Hu & He & Hp).
  assert (Htop : narrativeTop activePersona (analyzeTransitionEvolution data)
                 = Some top) by (unfold narrativeTop; now rewrite Hc).
  assert (Hready : js_gt (ToNumber (cpri top)) (num (75 # 100)) = true ->
                   readiness top = ReadyForAction).
  { intros G. rewrite (analyze_readiness data top Hin).
    unfold readiness_classify. apply js_gt_iff in G.
    assert (E : js_ge (ToNumber (cpri top)) (num (75 # 100)) = true)
      by (apply js_ge_iff; lra).
    now rewrite E. }
  unfold generateChangeNarrative. rewrite Htop.
  destruct (length (analyzeTransitionEvolution data) =? 0)%nat eqn:E0.
  { apply Nat.eqb_eq, length_zero_iff_nil in E0. contradiction. }
  pose proof (analyze_history_nonempty data top Hin) as Hh.
  destruct (history top) as [|h hs]; [now destruct Hh|].
  destruct (match anomaly top with Surge => true | _ => false end);
    [|destruct (match trend top with TrendAccelerating => true
                                | _ => false end)];
    (exists top; eexists; split; [reflexivity|]; split; [reflexivity|];
     split; [exact Hin|]; split; [exact Hu|]; split; [exact He|];
     split; [intros P; rewrite (Hp P); reflexivity|];
     cbn [nv_body]; destruct activePersona; cbn [wordedAsCertain];
     try discriminate; exact Hready).
Qed.

(** ** Persona weights *)

Lemma getPolicyWeight_ge_1 (activePersona : Persona) (from to : string) :
  1 <= getPolicyWeight activePersona from to.
Proof.
  assert (W : 1 <= num (12 # 10)).
  { unfold num. rewrite <- rnd_1 at 1. apply rnd_mono. lra. }
  unfold getPolicyWeight. destruct activePersona.
  - destruct (String.eqb to "Built-up"); lra.
  - destruct (String.eqb from "Forest" || String.eqb from "Water Body"); lra.
  - destruct (String.eqb from "Forest" && String.eqb to "Built-up"); [lra|].
    destruct (String.eqb from "Water Body"); [lra|].
    destruct (String.eqb from "Agriculture" && String.eqb to "Built-up");
      [exact W|lra].
Qed.

(** X24.  A persona only amplifies: the weight of a row is at least 1
    for every persona, and for a row with non-negative area and
    confidence the impact score shown is not negative and not below the
    score of the same row at weight 1. *)
Theorem persona_weight_only_amplifies (activePersona : Persona)
  (d : TransitionRecord) :
  0 <= tr_area_sq_km d -> 0 <= tr_confidence d ->
  1 <= pr_weight (prioritize activePersona d) /\
  0 <= fixed_value (score (tr_area_sq_km d) (tr_confidence d) 1)
    <= fixed_value (impactScore (prioritize activePersona d)).
Proof.
  intros Ha Hc. cbn [prioritize pr_weight impactScore].
  pose proof (getPolicyWeight_ge_1 activePersona (tr_from d) (tr_to d)) as W.
  split; [exact W|]. unfold score.
  assert (P : 0 <= fmul (num (tr_area_sq_km d)) (num (tr_confidence d))).
  { unfold fmul, num. apply rnd_nonneg. apply Qmult_le_0_compat;
      now apply rnd_nonneg. }
  set (ac := fmul (num (tr_area_sq_km d)) (num (tr_confidence d))) in *.
  assert (Z0 : 0 <= fixed_value (toFixed 1 0)) by (vm_compute; discriminate).
  assert (S1 : 0 <= fmul ac 1) by (unfold fmul; apply rnd_nonneg; lra).
  split.
  - pose proof (toFixed_mono 1 _ _ S1). lra.
  - apply toFixed_mono. unfold fmul. apply rnd_mono.
    rewrite !(Qmult_comm ac). now apply Qmult_le_compat_r.
Qed.

End Coverage.

(** ** Runs of the further properties *)

Lemma single_year_transition_is_normal_witness :
  exists e,
    In e (analyzeTransitionEvolution boundaryFlow) /\
    deviationRatio e = mkFixed false 10 1 /\
    anomaly e = Normal /\ trend e = TrendStable.
Proof.
  assert (H : exists e d,
             In e (analyzeTransitionEvolution boundaryFlow)
             /\ history e = [d]).
  { vm_compute. eexists. eexists. split; [left; reflexivity|reflexivity]. }
  destruct H as (e & d & Hin & Hh). exists e. split; [exact Hin|].
  exact (single_year_transition_is_normal boundaryFlow e d Hin Hh).
Defined.

(** At a CPRI of exactly 0.75 the analyzer and the recommender read the
    transition as Ready for Action ([>= 0.75]), while the narrative does
    not word it as certain ([> 0.75]). *)
Example boundary_cpri_is_ready_but_not_certain :
  exists e n,
    analyzeTransitionEvolution boundaryFlow = [e] /\
    ToNumber (cpri e) == 75 # 100 /\
    readiness e = ReadyForAction /\
    generateChangeNarrative policy_maker [e] = Some n /\
    wordedAsCertain (nv_body n) = false.
Proof.
  eexists. eexists. split; [vm_compute; reflexivity|].
  split; [vm_compute; reflexivity|].
  split; [vm_compute; reflexivity|].
  split; vm_compute; reflexivity.
Qed.

Lemma selected_sites_are_top_candidates_witness :
  exists r,
    getBudgetOptimizedSurveys transitionTrends 5000 = Some r /\
    StronglySorted
      (fun a b => num (st_area_sq_km b) <= num (st_area_sq_km a))
      (selected r).
Proof.
  destruct (getBudgetOptimizedSurveys transitionTrends 5000) as [r|] eqn:E;
    [|vm_compute in E; discriminate].
  exists r. split; [reflexivity|].
  exact (proj1 (proj2
           (selected_sites_are_top_candidates transitionTrends 5000 r E))).
Defined.

Lemma filters_only_remove_rows_witness :
  5 # 10 <= 8 # 10 /\
  filteredData (8 # 10) scenario_urban
    (filteredData (5 # 10) scenario_all sampleRecords)
  = filteredData (8 # 10) scenario_urban sampleRecords.
Proof.
  assert (H : 5 # 10 <= 8 # 10) by (vm_compute; discriminate).
  split; [exact H|].
  exact (filters_only_remove_rows (5 # 10) (8 # 10) scenario_urban
           sampleRecords H).
Defined.

Lemma policy_assessment_agrees_with_rates_witness :
  exists r,
    getPolicyEvaluation fourYears = Some r /\
    pe_assessment r = PolicyFailure /\
    fixed_value (preRate r) <= fixed_value (postRate r).
Proof.
  destruct (getPolicyEvaluation fourYears) as [r|] eqn:E;
    [|vm_compute in E; discriminate].
  exists r. split; [reflexivity|].
  assert (A : pe_assessment r = PolicyFailure)
    by (vm_compute in E; injection E as <-; reflexivity).
  split; [exact A|].
  exact (proj1 (proj2 (proj2 (proj2
           (policy_assessment_agrees_with_rates fourYears r E)))) A).
Defined.

Lemma summary_parts_within_total_witness :
  (forall d, In d sampleRecords -> 0 <= tr_area_sq_km d) /\
  fixed_value (builtUpExpansion sampleRecords)
  <= fixed_value (totalAreaChanged sampleRecords).
Proof.
  assert (H : forall d, In d sampleRecords -> 0 <= tr_area_sq_km d).
  { intros d Hd. simpl in Hd.
    repeat (destruct Hd as [<-|Hd]; [vm_compute; discriminate|]).
    destruct Hd. }
  split; [exact H|].
  exact (proj2 (proj1 (summary_parts_within_total sampleRecords H))).
Defined.

Lemma stronger_policy_projects_no_more_witness :
  exists r1 r2,
    getFutureProjection 0 threeYears = Some r1 /\
    getFutureProjection 50 threeYears = Some r2 /\
    fixed_value (projectedArea r2) <= fixed_value (projectedArea r1).
Proof.
  destruct (getFutureProjection 0 threeYears) as [r1|] eqn:E1;
    [|vm_compute in E1; discriminate].
  destruct (getFutureProjection 50 threeYears) as [r2|] eqn:E2;
    [|vm_compute in E2; discriminate].
  exists r1, r2. split; [reflexivity|]. split; [reflexivity|].
  assert (Hp : 0 <= 50) by (vm_compute; discriminate).
  assert (Hrate :
    0 <= fdiv (fsub (at_ (builtUpTrend threeYears)
                         (length (years threeYears) - 1))
                    (at_ (builtUpTrend threeYears)
                         (length (years threeYears) - 3)))
              (inject_Z (nth (length (years threeYears) - 1)
                             (years threeYears) 0
                         - nth (length (years threeYears) - 3)
                               (years threeYears) 0)%Z))
    by (vm_compute; discriminate).
  exact (proj1 (proj2
           (stronger_policy_projects_no_more 0 50 threeYears r1 r2
              Hp Hrate E1 E2))).
Defined.

Lemma velocity_status_matches_acceleration_witness :
  exists a,
    acceleration (getVelocityMetrics (builtUpTrend threeYears)
                                     (years threeYears)) = JStr a /\
    0 <= fixed_value a <= 1 # 2.
Proof.
  assert (H1 : (3 <= length (builtUpTrend threeYears))%nat)
    by (vm_compute; lia).
  assert (H2 : nth (length (builtUpTrend threeYears) - 1)
                   (years threeYears) 0%Z
               <> nth (length (builtUpTrend threeYears) - 2)
                      (years threeYears) 0%Z)
    by (vm_compute; discriminate).
  assert (H3 : nth (length (builtUpTrend threeYears) - 2)
                   (years threeYears) 0%Z
               <> nth (length (builtUpTrend threeYears) - 3)
                      (years threeYears) 0%Z)
    by (vm_compute; discriminate).
  destruct (velocity_status_matches_acceleration
              (builtUpTrend threeYears) (years threeYears) H1 H2 H3)
    as (a & Ha & Hm).
  exists a. split; [exact Ha|].
  assert (S : vm_status (getVelocityMetrics (builtUpTrend threeYears)
                                            (years threeYears))
              = Accelerating) by (vm_compute; reflexivity).
  rewrite S in Hm. exact Hm.
Defined.

Lemma narrative_subject_and_certainty_witness :
  exists top n,
    narrativeTop urban_planner transitionTrends = Some top /\
    generateChangeNarrative urban_planner transitionTrends = Some n /\
    touchesBuiltUp top = true.
Proof.
  assert (Hnil : analyzeTransitionEvolution temporalTransitionData <> [])
    by (intros E; vm_compute in E; discriminate).
  destruct (narrative_subject_and_certainty urban_planner
              temporalTransitionData Hnil)
    as (top & n & Ht & Hn & _ & Hu & _).
  exists top, n. split; [exact Ht|]. split; [exact Hn|].
  apply Hu; [reflexivity|].
  vm_compute. eexists. split; [left; reflexivity|reflexivity].
Defined.

Lemma persona_weight_only_amplifies_witness :
  0 <= 142 # 10 /\ 0 <= 88 # 100 /\
  1 <= pr_weight (prioritize environmental_officer
                    (mkRecord 2024 "Forest" "Built-up" (142 # 10) (88 # 100))).
Proof.
  assert (Ha : 0 <= 142 # 10) by (vm_compute; discriminate).
  assert (Hc : 0 <= 88 # 100) by (vm_compute; discriminate).
  split; [exact Ha|]. split; [exact Hc|].
  exact (proj1 (persona_weight_only_amplifies environmental_officer
                  (mkRecord 2024 "Forest" "Built-up" (142 # 10) (88 # 100))
                  Ha Hc)).
Defined.
